(** * Honeypot session core: extractor, session store, conclusion policy, orchestrator

    A shallow embedding of the Python sources
      - [intelligence_extractor.py]  (regular-expression based extraction),
      - [session_manager.py]         (the in-memory session store and the
                                      conclusion policy),
      - [main.py]                    (the [/api/chat] request handler, the
                                      callback task, the monitoring endpoint),
      - [scam_detector.py]           (the context shown to the classifier and
                                      the reading of its answer),
      - [agent_engine.py]            (the prompts of the four generators),
    followed by the properties established about them.

    Conventions of the embedding.
      - A Python [str] is a [string]; every character is read as the code
        point of the same number, so the texts covered are those over
        U+0000..U+00FF.  The character classes [\w], [\d], [\s] and
        [str.lower] below are the ones CPython uses for [str] patterns,
        restricted to that range.
      - [datetime.utcnow().isoformat()] is a reading of the system clock.
        The environment gives the text of every reading ([clock env n] for
        the reading number [n]) and the state counts the readings made.
        Python compares these texts with [>=] on [str], which is the
        lexicographic order [String.leb].
      - [list(set(xs))] has no specified order in Python.  It is modelled by
        the enumeration of a [gset]; every statement about such a list is
        about membership (or about the set it denotes), never about order.
      - A Python [float] is a binary64 value ([PrimFloat.float]).
      - The session dictionaries live in a [gmap] from session identifiers;
        the handler re-reads the store after each mutation, which is what
        holding a reference to the mutated dictionary amounts to. *)

From Stdlib Require Import Ascii Floats.
From stdpp Require Import gmap strings list.

#[local] Set Warnings "-inexact-float".

(** ** Characters and texts *)

Module Text.

Definition code (c : ascii) : nat := nat_of_ascii c.

Definition between (lo hi : nat) (c : ascii) : bool :=
  (lo <=? code c) && (code c <=? hi).

(** [\d] on [str]: the decimal digits; below U+0100 these are [0-9]. *)
Definition is_digit (c : ascii) : bool := between 48 57 c.

(** [\w] on [str]: alphanumeric characters and the underscore.  Below
    U+0100: [0-9A-Za-z_] and the Latin-1 letters and numerics. *)
Definition is_word (c : ascii) : bool :=
  between 48 57 c || between 65 90 c || between 95 95 c || between 97 122 c
  || between 170 170 c || between 178 179 c || between 181 181 c
  || between 185 186 c || between 188 190 c || between 192 214 c
  || between 216 246 c || between 248 255 c.

(** [\s] on [str], below U+0100. *)
Definition is_space (c : ascii) : bool :=
  between 9 13 c || between 28 32 c || between 133 133 c || between 160 160 c.

(** [str.lower], one character: [A-Z] and the upper-case Latin-1 letters
    move up by 32, everything else stays. *)
Definition lower_char (c : ascii) : ascii :=
  if between 65 90 c || between 192 214 c || between 216 222 c
  then ascii_of_nat (code c + 32) else c.

Fixpoint lower (s : string) : string :=
  match s with
  | "" => ""
  | String c s' => String (lower_char c) (lower s')
  end.

(** [s.startswith(p)], returning what follows the prefix. *)
Fixpoint strip_prefix (p s : string) : option string :=
  match p, s with
  | "", _ => Some s
  | String a p', String b s' => if Ascii.eqb a b then strip_prefix p' s' else None
  | String _ _, "" => None
  end.

(** [needle in hay] on [str]. *)
Fixpoint contains (needle hay : string) : bool :=
  match strip_prefix needle hay with
  | Some _ => true
  | None => match hay with
            | "" => false
            | String _ hay' => contains needle hay'
            end
  end.

(** [s[:n]] and [s[n:]]. *)
Fixpoint take (n : nat) (s : string) : string :=
  match n, s with
  | S n', String c s' => String c (take n' s')
  | _, _ => ""
  end.

Fixpoint drop (n : nat) (s : string) : string :=
  match n, s with
  | S n', String _ s' => drop n' s'
  | _, _ => s
  end.

Definition first_char (s : string) : option ascii :=
  match s with "" => None | String c _ => Some c end.

(** The character just before the position reached after reading [l],
    when [prev] was the character before [l]. *)
Fixpoint last_char (prev : option ascii) (l : string) : option ascii :=
  match l with
  | "" => prev
  | String c l' => last_char (Some c) l'
  end.

Fixpoint all_chars (p : ascii -> bool) (s : string) : bool :=
  match s with
  | "" => true
  | String c s' => p c && all_chars p s'
  end.

End Text.

(** ** The fragment of Python's [re] the extractor uses

    The five patterns of the extractor are built from literals, an optional
    group of literal alternatives, greedy bounded repetition of a character
    class, [\b], and a top-level alternation.  The matcher below is the
    backtracking matcher of [re] on that fragment: alternatives are tried
    from left to right, an optional group is tried before its absence, and
    a repetition first takes as many characters as it can and gives them
    back one at a time. *)

Module Regex.
Import Text.

Inductive atom : Type :=
| Lit (l : string)                                    (* literal text *)
| OptLits (alts : list string)                        (* (?:a|b|...)? *)
| Rep (cls : ascii -> bool) (lo : nat) (hi : option nat) (* cls{lo,hi}; cls+ is Rep cls 1 None *)
| WordB.                                              (* \b *)

(** A regular expression: alternatives, each a sequence of atoms. *)
Definition regex : Type := list (list atom).

Definition is_word_at (c : option ascii) : bool :=
  match c with Some c => is_word c | None => false end.

(** [\b] between the character [prev] and the text [s] that follows. *)
Definition boundary (prev : option ascii) (s : string) : bool :=
  xorb (is_word_at prev) (is_word_at (first_char s)).

(** How many leading characters of [s] the class accepts, capped by [hi]. *)
Fixpoint run (cls : ascii -> bool) (hi : option nat) (s : string) : nat :=
  match hi with
  | Some 0 => 0
  | _ =>
      match s with
      | String c s' =>
          if cls c then S (run cls (pred <$> hi) s') else 0
      | "" => 0
      end
  end.

(** First success among [f n], [f (n-1)], ..., [f lo]. *)
Fixpoint backtrack (f : nat -> option nat) (lo n : nat) : option nat :=
  if n <? lo then None
  else match f n with
       | Some r => Some r
       | None => match n with
                 | 0 => None
                 | S n' => backtrack f lo n'
                 end
       end.

Fixpoint first_some (l : list (option nat)) : option nat :=
  match l with
  | [] => None
  | Some r :: _ => Some r
  | None :: l' => first_some l'
  end.

(** Length of the match of the atom sequence at the start of [s], where
    [prev] is the character before [s] in the searched text. *)
Fixpoint match_atoms (ats : list atom) (prev : option ascii) (s : string)
  : option nat :=
  match ats with
  | [] => Some 0
  | Lit l :: ats' =>
      match strip_prefix l s with
      | Some s' => (λ n, String.length l + n) <$> match_atoms ats' (last_char prev l) s'
      | None => None
      end
  | OptLits alts :: ats' =>
      first_some
        (map (λ l, match strip_prefix l s with
                   | Some s' => (λ n, String.length l + n)
                                  <$> match_atoms ats' (last_char prev l) s'
                   | None => None
                   end) alts
         ++ [match_atoms ats' prev s])
  | Rep cls lo hi :: ats' =>
      backtrack
        (λ k, (λ n, k + n) <$> match_atoms ats' (last_char prev (take k s)) (drop k s))
        lo (run cls hi s)
  | WordB :: ats' =>
      if boundary prev s then match_atoms ats' prev s else None
  end.

Definition match_re (re : regex) (prev : option ascii) (s : string) : option nat :=
  first_some (map (λ ats, match_atoms ats prev s) re).

(** [re.findall] for a pattern without groups: the non-overlapping matches
    from left to right.  [skip] counts the characters of the last match
    that are still to be passed over.  (After an empty match the search
    moves on by one character; none of the patterns below matches the
    empty text.) *)
Fixpoint findall_from (re : regex) (skip : nat) (prev : option ascii) (s : string)
  : list string :=
  match skip with
  | S k =>
      match s with
      | "" => []
      | String c s' => findall_from re k (Some c) s'
      end
  | 0 =>
      match match_re re prev s with
      | Some n =>
          take n s ::
            match s with
            | "" => []
            | String c s' => findall_from re (pred n) (Some c) s'
            end
      | None =>
          match s with
          | "" => []
          | String c s' => findall_from re 0 (Some c) s'
          end
      end
  end.

Definition findall (re : regex) (s : string) : list string :=
  findall_from re 0 None s.

(** What the matcher looks for, stated without a search order:
    [accepts ats prev m rest] when the atoms in [ats], one after the other,
    account for the text [m], found after the character [prev] and before
    the text [rest]. *)
Inductive accepts : list atom → option ascii → string → string → Prop :=
| accepts_nil prev rest : accepts [] prev "" rest
| accepts_lit l ats prev m rest :
    accepts ats (last_char prev l) m rest →
    accepts (Lit l :: ats) prev (l +:+ m) rest
| accepts_opt_taken l alts ats prev m rest :
    l ∈ alts →
    accepts ats (last_char prev l) m rest →
    accepts (OptLits alts :: ats) prev (l +:+ m) rest
| accepts_opt_skipped alts ats prev m rest :
    accepts ats prev m rest →
    accepts (OptLits alts :: ats) prev m rest
| accepts_rep cls lo hi ats prev r m rest :
    all_chars cls r = true →
    lo ≤ String.length r →
    (∀ h, hi = Some h → String.length r ≤ h) →
    accepts ats (last_char prev r) m rest →
    accepts (Rep cls lo hi :: ats) prev (r +:+ m) rest
| accepts_word_boundary ats prev m rest :
    boundary prev (m +:+ rest) = true →
    accepts ats prev m rest →
    accepts (WordB :: ats) prev m rest.

End Regex.

(** ** intelligence_extractor.py *)

Module IntelligenceExtractor.
Import Text Regex.

(** The dictionary with the five keys [upi_ids], [phone_numbers],
    [bank_accounts], [phishing_links], [suspicious_keywords]. *)
Record Intelligence : Type := {
  upi_ids : list string;
  phone_numbers : list string;
  bank_accounts : list string;
  phishing_links : list string;
  suspicious_keywords : list string
}.

(** [[\w\.-]], [[\w-]], [[6-9]] and [[^\s]]. *)
Definition word_dot_dash (c : ascii) : bool :=
  is_word c || Ascii.eqb c "."%char || Ascii.eqb c "-"%char.
Definition word_dash (c : ascii) : bool := is_word c || Ascii.eqb c "-"%char.
Definition six_to_nine (c : ascii) : bool := between 54 57 c.
Definition non_space (c : ascii) : bool := negb (is_space c).

(** [r'\b[\w\.-]+@[\w-]+\b'] *)
Definition upi_pattern : regex :=
  [[WordB; Rep word_dot_dash 1 None; Lit "@"; Rep word_dash 1 None; WordB]].

(** [r'(?:\+91|91|0)?[6-9]\d{9}\b'] *)
Definition phone_pattern : regex :=
  [[OptLits ["+91"; "91"; "0"]; Rep six_to_nine 1 (Some 1);
    Rep is_digit 9 (Some 9); WordB]].

(** [r'\b\d{9,18}\b'] *)
Definition bank_account_pattern : regex :=
  [[WordB; Rep is_digit 9 (Some 18); WordB]].

(** [r'https?://[^\s]+|www\.[^\s]+|bit\.ly/[^\s]+|tinyurl\.com/[^\s]+'] *)
Definition url_pattern : regex :=
  [[Lit "http"; OptLits ["s"]; Lit "://"; Rep non_space 1 None];
   [Lit "www."; Rep non_space 1 None];
   [Lit "bit.ly/"; Rep non_space 1 None];
   [Lit "tinyurl.com/"; Rep non_space 1 None]].

Definition suspicious_keyword_list : list string :=
  ["kyc"; "update"; "verify"; "account"; "blocked"; "suspended";
   "otp"; "cvv"; "pin"; "password"; "aadhaar"; "pan";
   "prize"; "lottery"; "won"; "congratulations";
   "urgent"; "immediately"; "expire"; "cancel";
   "refund"; "tax"; "cashback"; "reward";
   "click here"; "download"; "apk"; "install";
   "bank"; "axis"; "hdfc"; "sbi"; "icici"; "paytm"; "phonepe"; "googlepay";
   "police"; "arrest"; "court"; "legal action";
   "loan approved"; "credit card"; "offer";
   "delivery"; "courier"; "parcel"; "custom duty"].

(** The names tested against each handle-shaped token. *)
Definition upi_banks : list string :=
  ["paytm"; "phonepe"; "gpay"; "ybl"; "okaxis"; "okhdfcbank"; "oksbi"; "okicici"].

(** [list(set(xs))] *)
Definition list_of_set (xs : list string) : list string :=
  elements (list_to_set xs : gset string).

(** [re.sub(r'^(\+91|91|0)', '', phone)]: the anchored pattern can match
    only at the start, so at most one prefix is removed, the first
    alternative that fits. *)
Definition clean_phone (phone : string) : string :=
  match strip_prefix "+91" phone with
  | Some rest => rest
  | None =>
      match strip_prefix "91" phone with
      | Some rest => rest
      | None =>
          match strip_prefix "0" phone with
          | Some rest => rest
          | None => phone
          end
      end
  end.

(** The loop building [cleaned_phones]. *)
Definition cleaned_phones (message : string) : list string :=
  filter (λ clean, String.length clean = 10)
         (map clean_phone (findall phone_pattern message)).

Definition extract_from_message (message : string) : Intelligence :=
  let message_lower := lower message in
  let upi_matches := findall upi_pattern message in
  let upi_ids :=
    filter (λ upi, existsb (λ bank, contains bank (lower upi)) upi_banks = true)
           upi_matches in
  let cleaned_phones := cleaned_phones message in
  let account_matches := findall bank_account_pattern message in
  let potential_accounts :=
    filter (λ acc, (acc ∉ cleaned_phones) ∧ (11 ≤ String.length acc)) account_matches in
  let url_matches := findall url_pattern message in
  let found_keywords :=
    filter (λ keyword, contains keyword message_lower = true)
           suspicious_keyword_list in
  {| upi_ids := list_of_set upi_ids;
     phone_numbers := list_of_set cleaned_phones;
     bank_accounts := list_of_set potential_accounts;
     phishing_links := list_of_set url_matches;
     suspicious_keywords := list_of_set found_keywords |}.

(** The dictionary of sets built up by [extract_from_conversation]. *)
Record Aggregated : Type := {
  agg_upi_ids : gset string;
  agg_phone_numbers : gset string;
  agg_bank_accounts : gset string;
  agg_phishing_links : gset string;
  agg_suspicious_keywords : gset string
}.

Definition empty_aggregated : Aggregated :=
  {| agg_upi_ids := ∅; agg_phone_numbers := ∅; agg_bank_accounts := ∅;
     agg_phishing_links := ∅; agg_suspicious_keywords := ∅ |}.

(** One round of the loop over the messages: [msg.get("text", "")], the
    extraction, and [aggregated[key].update(...)] for each key. *)
Definition aggregate_message (aggregated : Aggregated) (msg : gmap string string)
  : Aggregated :=
  let text := default "" (msg !! "text") in
  let extracted := extract_from_message text in
  {| agg_upi_ids := agg_upi_ids aggregated ∪ list_to_set (upi_ids extracted);
     agg_phone_numbers :=
       agg_phone_numbers aggregated ∪ list_to_set (phone_numbers extracted);
     agg_bank_accounts :=
       agg_bank_accounts aggregated ∪ list_to_set (bank_accounts extracted);
     agg_phishing_links :=
       agg_phishing_links aggregated ∪ list_to_set (phishing_links extracted);
     agg_suspicious_keywords :=
       agg_suspicious_keywords aggregated
         ∪ list_to_set (suspicious_keywords extracted) |}.

Definition extract_from_conversation (messages : list (gmap string string))
  : Intelligence :=
  let aggregated := foldl aggregate_message empty_aggregated messages in
  {| upi_ids := elements (agg_upi_ids aggregated);
     phone_numbers := elements (agg_phone_numbers aggregated);
     bank_accounts := elements (agg_bank_accounts aggregated);
     phishing_links := elements (agg_phishing_links aggregated);
     suspicious_keywords := elements (agg_suspicious_keywords aggregated) |}.

Definition is_high_value_intelligence (intelligence : Intelligence) : bool :=
  let has_upi := 0 <? length (upi_ids intelligence) in
  let has_phone := 0 <? length (phone_numbers intelligence) in
  let has_link := 0 <? length (phishing_links intelligence) in
  let has_bank := 0 <? length (bank_accounts intelligence) in
  has_upi || (has_phone && has_link) || has_bank.

End IntelligenceExtractor.


(** ** Bundles seen as sets

    The five keys of a bundle, and the set of entries under a key. *)

Module Bundle.
Import IntelligenceExtractor.

Definition field : Type := Intelligence → list string.

Definition fields : list field :=
  [upi_ids; phone_numbers; bank_accounts; phishing_links; suspicious_keywords].

Definition entries (f : field) (i : Intelligence) : gset string :=
  list_to_set (f i).

(** [msg.get("text", "")] *)
Definition message_text (msg : gmap string string) : string :=
  default "" (msg !! "text").

(** The two notions the specification uses for payment handles: the part
    of a token after its [@], and a domain part that contains, in lower
    case, one of the allow-listed names. *)
Fixpoint domain_part (tok : string) : string :=
  match tok with
  | "" => ""
  | String c tok' => if Ascii.eqb c "@" then tok' else domain_part tok'
  end.

Definition allow_listed (domain : string) : bool :=
  existsb (λ bank, Text.contains bank (Text.lower domain)) upi_banks.

End Bundle.

(** ** The state the program runs in

    [sessions] is the dictionary of the [SessionManager]; [ticks] counts the
    readings of the system clock made so far, so that the next reading is
    [clock ticks]; [tasks] lists the session identifiers for which
    [asyncio.create_task(send_final_callback(...))] has been called. *)

Module State.
Import IntelligenceExtractor.

Record Message : Type := {
  sender : string;
  text : string;
  timestamp : Z;
  datetime : string
}.

(** A session dictionary.  The three keys that are added later are
    optional. *)
Record Session : Type := {
  session_id : string;
  created_at : string;
  messages : list Message;
  scam_detected : bool;
  scam_confidence : float;
  agent_engaged : bool;
  extracted_intelligence : Intelligence;
  callback_sent : bool;
  should_conclude : bool;
  scam_detected_at : option string;
  agent_engaged_at : option string;
  callback_sent_at : option string
}.

Record World : Type := {
  sessions : gmap string Session;
  ticks : nat;
  tasks : list string
}.

Definition M (A : Type) : Type := World → A * World.

Definition ret {A} (a : A) : M A := λ w, (a, w).

Definition bind {A B} (m : M A) (k : A → M B) : M B :=
  λ w, let '(a, w') := m w in k a w'.

Definition value {A} (r : A * World) : A := fst r.
Definition world {A} (r : A * World) : World := snd r.

(** The request envelope of [main.py] ([Metadata]), needed already by the
    external services. *)
Record Metadata : Type := {
  channel : string;
  language : string;
  locale : string
}.

(** [ExtractedIntelligence] and [FinalCallback] of [main.py].  [agentNotes]
    is a text rendering five values of the session; the values are kept
    instead of the text. *)
Record ExtractedIntelligence : Type := {
  bankAccounts : list string;
  upiIds : list string;
  phishingLinks : list string;
  phoneNumbers : list string;
  suspiciousKeywords : list string
}.

Record AgentNotes : Type := {
  notes_messages : nat;
  notes_confidence : float;
  notes_upi_ids : nat;
  notes_phone_numbers : nat;
  notes_links : nat
}.

Record FinalCallback : Type := {
  sessionId : string;
  scamDetected : bool;
  totalMessagesExchanged : nat;
  extractedIntelligence : ExtractedIntelligence;
  agentNotes : AgentNotes
}.

(** What the program takes from outside: the clock, the configured key,
    the classifier ([ScamDetector.detect_scam]), the four generators of
    [AgentEngine], and the endpoint the final report is posted to.  The
    first argument of each external call is the number of clock readings
    made before it, so that two calls with equal arguments may answer
    differently.  Classifier and generators catch their own errors and
    always answer; [post_callback] answers with a status code, or with
    [None] when the request raises. *)
Record Env : Type := {
  clock : nat → string;
  API_KEY : string;
  detect_scam : nat → string → list (gmap string string) → Metadata → bool * float;
  generate_initial_response : nat → string → string → Metadata → string;
  generate_response : nat → string → list Message → Metadata → string;
  generate_neutral_response : nat → string → Metadata → string;
  generate_final_response : nat → string → list Message → Metadata → string;
  post_callback : nat → FinalCallback → option nat
}.

End State.

Notation "'let*' x := m 'in' k" := (State.bind m (λ x, k))
  (at level 10, x name, m at level 100, k at level 200).
Notation "m ;;; k" := (State.bind m (λ _, k))
  (at level 100, k at level 200, right associativity).

(** ** session_manager.py *)

Module SessionManager.
Import IntelligenceExtractor State.

Section WithEnv.
Variable env : Env.

(** [datetime.utcnow().isoformat()] *)
Definition utcnow_isoformat : M string :=
  λ w, (clock env (ticks w),
        {| sessions := sessions w; ticks := S (ticks w); tasks := tasks w |}).

(** [self.sessions[session_id] = session], also used for an assignment
    to a key of the dictionary [self.sessions[session_id]]. *)
Definition put_session (session_id : string) (session : Session) : M () :=
  λ w, ((), {| sessions := <[session_id := session]> (sessions w);
               ticks := ticks w; tasks := tasks w |}).

Definition new_session (session_id now : string) : Session :=
  {| session_id := session_id;
     created_at := now;
     messages := [];
     scam_detected := false;
     scam_confidence := 0.0;
     agent_engaged := false;
     extracted_intelligence :=
       {| upi_ids := []; phone_numbers := []; bank_accounts := [];
          phishing_links := []; suspicious_keywords := [] |};
     callback_sent := false;
     should_conclude := false;
     scam_detected_at := None;
     agent_engaged_at := None;
     callback_sent_at := None |}.

Definition get_session (session_id : string) : M Session :=
  λ w, match sessions w !! session_id with
       | Some session => (session, w)
       | None =>
           (let* now := utcnow_isoformat in
            let session := new_session session_id now in
            put_session session_id session ;;;
            ret session) w
       end.

(** Assignments to single keys of a session dictionary. *)
Definition set_messages (ms : list Message) (s : Session) : Session :=
  {| session_id := session_id s; created_at := created_at s; messages := ms;
     scam_detected := scam_detected s; scam_confidence := scam_confidence s;
     agent_engaged := agent_engaged s;
     extracted_intelligence := extracted_intelligence s;
     callback_sent := callback_sent s; should_conclude := should_conclude s;
     scam_detected_at := scam_detected_at s;
     agent_engaged_at := agent_engaged_at s;
     callback_sent_at := callback_sent_at s |}.

Definition set_scam_detected (confidence : float) (now : string) (s : Session)
  : Session :=
  {| session_id := session_id s; created_at := created_at s;
     messages := messages s;
     scam_detected := true; scam_confidence := confidence;
     agent_engaged := agent_engaged s;
     extracted_intelligence := extracted_intelligence s;
     callback_sent := callback_sent s; should_conclude := should_conclude s;
     scam_detected_at := Some now;
     agent_engaged_at := agent_engaged_at s;
     callback_sent_at := callback_sent_at s |}.

Definition set_agent_engaged (now : string) (s : Session) : Session :=
  {| session_id := session_id s; created_at := created_at s;
     messages := messages s;
     scam_detected := scam_detected s; scam_confidence := scam_confidence s;
     agent_engaged := true;
     extracted_intelligence := extracted_intelligence s;
     callback_sent := callback_sent s; should_conclude := should_conclude s;
     scam_detected_at := scam_detected_at s;
     agent_engaged_at := Some now;
     callback_sent_at := callback_sent_at s |}.

Definition set_extracted_intelligence (i : Intelligence) (s : Session) : Session :=
  {| session_id := session_id s; created_at := created_at s;
     messages := messages s;
     scam_detected := scam_detected s; scam_confidence := scam_confidence s;
     agent_engaged := agent_engaged s;
     extracted_intelligence := i;
     callback_sent := callback_sent s; should_conclude := should_conclude s;
     scam_detected_at := scam_detected_at s;
     agent_engaged_at := agent_engaged_at s;
     callback_sent_at := callback_sent_at s |}.

Definition set_should_conclude (s : Session) : Session :=
  {| session_id := session_id s; created_at := created_at s;
     messages := messages s;
     scam_detected := scam_detected s; scam_confidence := scam_confidence s;
     agent_engaged := agent_engaged s;
     extracted_intelligence := extracted_intelligence s;
     callback_sent := callback_sent s; should_conclude := true;
     scam_detected_at := scam_detected_at s;
     agent_engaged_at := agent_engaged_at s;
     callback_sent_at := callback_sent_at s |}.

Definition set_callback_sent (now : string) (s : Session) : Session :=
  {| session_id := session_id s; created_at := created_at s;
     messages := messages s;
     scam_detected := scam_detected s; scam_confidence := scam_confidence s;
     agent_engaged := agent_engaged s;
     extracted_intelligence := extracted_intelligence s;
     callback_sent := true; should_conclude := should_conclude s;
     scam_detected_at := scam_detected_at s;
     agent_engaged_at := agent_engaged_at s;
     callback_sent_at := Some now |}.

Definition add_message (session_id sender text : string) (timestamp : Z) : M () :=
  let* session := get_session session_id in
  let* now := utcnow_isoformat in
  put_session session_id
    (set_messages
       (messages session ++
          [{| sender := sender; text := text; timestamp := timestamp;
              datetime := now |}])
       session).

Definition mark_scam_detected (session_id : string) (confidence : float) : M () :=
  let* session := get_session session_id in
  let* now := utcnow_isoformat in
  put_session session_id (set_scam_detected confidence now session).

Definition engage_agent (session_id : string) : M () :=
  let* session := get_session session_id in
  let* now := utcnow_isoformat in
  put_session session_id (set_agent_engaged now session).

(** [list(set(current[key]) | set(new_intelligence.get(key, [])))] *)
Definition merge_key (current new : list string) : list string :=
  elements ((list_to_set current : gset string) ∪ list_to_set new).

Definition merge_intelligence (current new_intelligence : Intelligence)
  : Intelligence :=
  {| upi_ids := merge_key (upi_ids current) (upi_ids new_intelligence);
     phone_numbers :=
       merge_key (phone_numbers current) (phone_numbers new_intelligence);
     bank_accounts :=
       merge_key (bank_accounts current) (bank_accounts new_intelligence);
     phishing_links :=
       merge_key (phishing_links current) (phishing_links new_intelligence);
     suspicious_keywords :=
       merge_key (suspicious_keywords current)
                 (suspicious_keywords new_intelligence) |}.

Definition update_intelligence (session_id : string)
    (new_intelligence : Intelligence) : M () :=
  let* session := get_session session_id in
  let current := extracted_intelligence session in
  put_session session_id
    (set_extracted_intelligence
       (merge_intelligence current new_intelligence) session).

(** The number of messages counted as exchanged since the engagement:
    those with [msg["datetime"] >= agent_engaged_at], or all of them when
    [agent_engaged_at] is missing or empty. *)
Definition engagement_messages (session : Session) : nat :=
  let total_messages := length (messages session) in
  match agent_engaged_at session with
  | Some agent_engaged_at =>
      if String.eqb agent_engaged_at "" then total_messages
      else length (filter (λ msg, String.leb agent_engaged_at (datetime msg) = true)
                          (messages session))
  | None => total_messages
  end.

Definition should_conclude_session (session_id : string) : M bool :=
  let* session := get_session session_id in
  if should_conclude session then ret true
  else if negb (agent_engaged session) then ret false
  else
    let total_messages := length (messages session) in
    if engagement_messages session <? 8 then ret false
    else
      let has_valuable_intel :=
        is_high_value_intelligence (extracted_intelligence session) in
      let max_messages_reached := 15 <=? total_messages in
      let should_conclude := has_valuable_intel || max_messages_reached in
      if should_conclude
      then put_session session_id (set_should_conclude session) ;;; ret true
      else ret false.

Definition mark_callback_sent (session_id : string) : M () :=
  let* session := get_session session_id in
  let* now := utcnow_isoformat in
  put_session session_id (set_callback_sent now session).

Definition get_all_sessions : M (list Session) :=
  λ w, (snd <$> map_to_list (sessions w), w).

Definition delete_session (session_id : string) : M bool :=
  λ w, match sessions w !! session_id with
       | Some _ =>
           (true, {| sessions := delete session_id (sessions w);
                     ticks := ticks w; tasks := tasks w |})
       | None => (false, w)
       end.

End WithEnv.
End SessionManager.

(** ** main.py *)

Module Main.
Import IntelligenceExtractor State SessionManager.

Inductive SenderType : Type := SCAMMER | USER.

(** [sender.value] *)
Definition sender_value (s : SenderType) : string :=
  match s with SCAMMER => "scammer" | USER => "user" end.

(** The pydantic [Message] of a request. *)
Record Message : Type := {
  sender : SenderType;
  text : string;
  timestamp : Z
}.

Record IncomingRequest : Type := {
  sessionId : string;
  message : Message;
  conversationHistory : list (gmap string string);
  metadata : Metadata
}.

(** What the handler answers: an [APIResponse], or the [HTTPException] it
    raises. *)
Inductive Result : Type :=
| APIResponse (status reply : string)
| HTTPException (status_code : nat) (detail : string).

(** [a or b] on header values: the first one that is present and not
    empty, else the second. *)
Definition header_or (a b : option string) : option string :=
  match a with
  | Some k => if String.eqb k "" then b else a
  | None => b
  end.

Section WithEnv.
Variable env : Env.

(** [asyncio.create_task(send_final_callback(session_id, session))] *)
Definition create_task (session_id : string) : M () :=
  λ w, ((), {| sessions := sessions w; ticks := ticks w;
               tasks := tasks w ++ [session_id] |}).

(** The reading of the clock counter, passed to the external calls. *)
Definition time : M nat := λ w, (ticks w, w).

(** The handler of [POST /api/chat].  The two header values are [None]
    when the header is absent.  The first three branches are the check
    [if not api_key] and [validate_api_key]; the rest is the body of the
    [try] block, in which nothing raises: the store operations are total
    and the external services answer in every case. *)
Definition chat_endpoint (request : IncomingRequest)
    (x_api_key X_API_KEY : option string) : M Result :=
  match header_or x_api_key X_API_KEY with
  | None => ret (HTTPException 401 "API key required")
  | Some api_key =>
      if String.eqb api_key "" then ret (HTTPException 401 "API key required")
      else if negb (String.eqb api_key (API_KEY env))
      then ret (HTTPException 403 "Invalid API Key")
      else
        let session_id := sessionId request in
        let incoming_message := text (message request) in
        let sender := sender (message request) in
        let conversation_history := conversationHistory request in
        get_session env session_id ;;;
        add_message env session_id (sender_value sender) incoming_message
                    (timestamp (message request)) ;;;
        (* [session] is the dictionary fetched above, read again after
           the append *)
        let* session := get_session env session_id in
        if scam_detected session && agent_engaged session then
          let* conclude := should_conclude_session env session_id in
          if conclude then
            let* t := time in
            let reply :=
              generate_final_response env t session_id (messages session)
                                      (metadata request) in
            create_task session_id ;;;
            ret (APIResponse "success" reply)
          else
            let* t := time in
            let reply :=
              generate_response env t session_id (messages session)
                                (metadata request) in
            let intelligence := extract_from_message incoming_message in
            update_intelligence env session_id intelligence ;;;
            ret (APIResponse "success" reply)
        else if negb (scam_detected session) then
          let* t := time in
          let '(is_scam, confidence) :=
            detect_scam env t incoming_message conversation_history
                        (metadata request) in
          if is_scam && PrimFloat.ltb 0.7 confidence then
            mark_scam_detected env session_id confidence ;;;
            engage_agent env session_id ;;;
            let* t' := time in
            let reply :=
              generate_initial_response env t' session_id incoming_message
                                        (metadata request) in
            ret (APIResponse "success" reply)
          else
            let reply :=
              generate_neutral_response env t incoming_message
                                        (metadata request) in
            ret (APIResponse "success" reply)
        else
          ret (APIResponse "success"
                 "I'm sorry, I didn't quite understand. Could you please clarify?")
  end.

(** The report [send_final_callback] builds from a session dictionary. *)
Definition callback_payload (session_id : string) (session : Session)
  : FinalCallback :=
  let intelligence := extracted_intelligence session in
  {| State.sessionId := session_id;
     scamDetected := true;
     totalMessagesExchanged := length (messages session);
     extractedIntelligence :=
       {| bankAccounts := bank_accounts intelligence;
          upiIds := upi_ids intelligence;
          phishingLinks := phishing_links intelligence;
          phoneNumbers := phone_numbers intelligence;
          suspiciousKeywords := suspicious_keywords intelligence |};
     agentNotes :=
       {| notes_messages := length (messages session);
          notes_confidence := scam_confidence session;
          notes_upi_ids := length (upi_ids intelligence);
          notes_phone_numbers := length (phone_numbers intelligence);
          notes_links := length (phishing_links intelligence) |} |}.

(** The task created at conclusion, run at some later point.  It holds
    the session dictionary itself, which is the one still stored under
    [session_id] (the handler never deletes a session), and so reports
    the state the session has when the task runs.  The answer is the
    report posted. *)
Definition send_final_callback (session_id : string) : M (option FinalCallback) :=
  λ w, match sessions w !! session_id with
       | None => (None, w)
       | Some session =>
           let payload := callback_payload session_id session in
           match post_callback env (ticks w) payload with
           | Some status_code =>
               if bool_decide (status_code = 200)
               then (mark_callback_sent env session_id ;;; ret (Some payload)) w
               else (Some payload, w)
           | None => (Some payload, w)
           end
       end.

End WithEnv.
End Main.

(** ** Runs of the program

    Everything that can act on the state: the methods of the session
    manager, a request to [/api/chat], and the execution of a pending
    callback task. *)

Module System.
Import IntelligenceExtractor State.

Inductive call : Type :=
| GetSession (session_id : string)
| AddMessage (session_id sender text : string) (timestamp : Z)
| MarkScamDetected (session_id : string) (confidence : float)
| EngageAgent (session_id : string)
| UpdateIntelligence (session_id : string) (new_intelligence : Intelligence)
| ShouldConcludeSession (session_id : string)
| MarkCallbackSent (session_id : string)
| GetAllSessions
| DeleteSession (session_id : string)
| ChatEndpoint (request : Main.IncomingRequest) (x_api_key X_API_KEY : option string)
| SendFinalCallback (session_id : string).

Definition run_call (env : Env) (c : call) (w : World) : World :=
  match c with
  | GetSession sid => world (SessionManager.get_session env sid w)
  | AddMessage sid sender text ts =>
      world (SessionManager.add_message env sid sender text ts w)
  | MarkScamDetected sid confidence =>
      world (SessionManager.mark_scam_detected env sid confidence w)
  | EngageAgent sid => world (SessionManager.engage_agent env sid w)
  | UpdateIntelligence sid new_intelligence =>
      world (SessionManager.update_intelligence env sid new_intelligence w)
  | ShouldConcludeSession sid =>
      world (SessionManager.should_conclude_session env sid w)
  | MarkCallbackSent sid => world (SessionManager.mark_callback_sent env sid w)
  | GetAllSessions => world (SessionManager.get_all_sessions w)
  | DeleteSession sid => world (SessionManager.delete_session sid w)
  | ChatEndpoint request k1 k2 => world (Main.chat_endpoint env request k1 k2 w)
  | SendFinalCallback sid => world (Main.send_final_callback env sid w)
  end.

(** The calls of a list, one after the other. *)
Definition run (env : Env) (cs : list call) (w : World) : World :=
  foldl (λ w c, run_call env c w) w cs.

(** The state the program starts in. *)
Definition initial : World := {| sessions := ∅; ticks := 0; tasks := [] |}.

(** The session [sid] is stored and its conclusion flag is set. *)
Definition concluded (sid : string) (w : World) : Prop :=
  ∃ s, sessions w !! sid = Some s ∧ should_conclude s = true.

(** The ways the program assigns to the keys of a session dictionary:
    [updates s s'] when [s'] is [s] after some of those assignments. *)
Inductive updates : Session → Session → Prop :=
| updates_none s : updates s s
| updates_messages s s' ms :
    updates s s' → updates s (SessionManager.set_messages ms s')
| updates_scam_detected s s' confidence now :
    updates s s' → updates s (SessionManager.set_scam_detected confidence now s')
| updates_agent_engaged s s' now :
    updates s s' → updates s (SessionManager.set_agent_engaged now s')
| updates_extracted_intelligence s s' i :
    updates s s' → updates s (SessionManager.set_extracted_intelligence i s')
| updates_should_conclude s s' :
    updates s s' → updates s (SessionManager.set_should_conclude s')
| updates_callback_sent s s' now :
    updates s s' → updates s (SessionManager.set_callback_sent now s').

(** The session a call on [sid] starts from: the stored one, or a new one. *)
Definition origin (w : World) (sid : string) (s : Session) : Prop :=
  sessions w !! sid = Some s
  ∨ (sessions w !! sid = None ∧ ∃ now, s = SessionManager.new_session sid now).

(** A computation that leaves the dictionary of sessions alone, or stores
    under [sid] an update of the session it starts from. *)
Definition acts_on {A} (sid : string) (m : M A) : Prop :=
  ∀ w, sessions (world (m w)) = sessions w
       ∨ ∃ s s', origin w sid s ∧ updates s s'
                 ∧ sessions (world (m w)) = <[sid := s']> (sessions w).

(** The message [add_message] appends for a request, read at the clock
    reading [t]. *)
Definition received (env : Env) (request : Main.IncomingRequest) (t : nat) : Message :=
  {| sender := Main.sender_value (Main.sender (Main.message request));
     text := Main.text (Main.message request);
     timestamp := Main.timestamp (Main.message request);
     datetime := clock env t |}.

(** The calls the program itself makes on a running service: requests and
    executions of callback tasks. *)
Definition handler_call (c : call) : Prop :=
  match c with
  | ChatEndpoint _ _ _ | SendFinalCallback _ => True
  | _ => False
  end.

(** The session [sid] is engaged and concluded, with the bundle [i]. *)
Definition closed_with (sid : string) (i : Intelligence) (w : World) : Prop :=
  ∃ s, sessions w !! sid = Some s
       ∧ scam_detected s = true ∧ agent_engaged s = true
       ∧ should_conclude s = true ∧ extracted_intelligence s = i.

End System.

Import Text Regex IntelligenceExtractor State SessionManager.

(** ** How a stored session changes

    [grows s s'] when [s'] is [s] after some of the assignments the store
    operations make, each with the value the operation gives it: a message
    is appended to the log, the bundle is replaced by its merge with a new
    one, a flag is set together with its time. *)

Module Evolution.
Import IntelligenceExtractor State.

Inductive grows : Session → Session → Prop :=
| grows_none s : grows s s
| grows_message s s' msg :
    grows s s' → grows s (SessionManager.set_messages (messages s' ++ [msg]) s')
| grows_scam_detected s s' confidence now :
    grows s s' → grows s (SessionManager.set_scam_detected confidence now s')
| grows_agent_engaged s s' now :
    grows s s' → grows s (SessionManager.set_agent_engaged now s')
| grows_intelligence s s' new :
    grows s s' →
    grows s (SessionManager.set_extracted_intelligence
               (SessionManager.merge_intelligence (extracted_intelligence s') new) s')
| grows_should_conclude s s' :
    grows s s' → grows s (SessionManager.set_should_conclude s')
| grows_callback_sent s s' now :
    grows s s' → grows s (SessionManager.set_callback_sent now s').

(** A computation that leaves the dictionary of sessions alone, or stores
    under [sid] a grown form of the session it starts from. *)
Definition acts_growing {A} (sid : string) (m : M A) : Prop :=
  ∀ w, sessions (world (m w)) = sessions w
       ∨ ∃ s s', System.origin w sid s ∧ grows s s'
                 ∧ sessions (world (m w)) = <[sid := s']> (sessions w).



(** The session has not been taken up: it is not marked as a scam, not
    engaged, not concluded, and nothing has been extracted for it. *)
Definition dormant (s : Session) : Prop :=
  scam_detected s = false ∧ agent_engaged s = false ∧ should_conclude s = false
  ∧ extracted_intelligence s
    = {| upi_ids := []; phone_numbers := []; bank_accounts := [];
         phishing_links := []; suspicious_keywords := [] |}.

Definition all_dormant (w : World) : Prop :=
  tasks w = [] ∧ ∀ sid s, sessions w !! sid = Some s → dormant s.

End Evolution.

(** ** main.py, the monitoring endpoint *)

Module Endpoints.
Import State SessionManager.

(** What [GET /api/sessions/{session_id}] answers. *)
Inductive SessionResult : Type :=
| SessionFound (session : Session)
| SessionError (status_code : nat) (detail : string).

(** The handler [get_session] of [main.py].  The test [if not session]
    asks whether the dictionary is empty; a session dictionary always has
    its keys, so the branch raising 404 is never taken. *)
Definition get_session (env : Env) (session_id : string)
    (x_api_key X_API_KEY : option string) : M SessionResult :=
  match Main.header_or x_api_key X_API_KEY with
  | None => ret (SessionError 401 "API key required")
  | Some api_key =>
      if String.eqb api_key "" then ret (SessionError 401 "API key required")
      else if negb (String.eqb api_key (API_KEY env))
      then ret (SessionError 403 "Invalid API Key")
      else
        let* session := SessionManager.get_session env session_id in
        ret (SessionFound session)
  end.

End Endpoints.

(** ** scam_detector.py

    The classifier.  The call to the language model is taken from outside:
    [completion t context] is the text of the model's answer to [context]
    (the system prompt is fixed), or [None] when the call raises or the
    answer carries no text.  [json.loads] is taken from outside as well. *)

Module ScamDetector.
Import Text State.

Definition newline : string := String (ascii_of_nat 10) "".

(** [xs[-n:]] for [n > 0]: the last [n] entries, all of them when there
    are fewer. *)
Definition last_entries {A} (n : nat) (xs : list A) : list A :=
  skipn (length xs - n) xs.

Definition _build_context (message : string)
    (conversation_history : list (gmap string string)) (metadata : Metadata)
    : string :=
  let context := "Channel: " +:+ channel metadata +:+ newline in
  let context := context +:+ "Language: " +:+ language metadata +:+ newline in
  let context := context +:+ "Locale: " +:+ locale metadata +:+ newline +:+ newline in
  let context :=
    match conversation_history with
    | [] => context
    | _ :: _ =>
        let context := context +:+ "Previous messages:" +:+ newline in
        let context :=
          foldl (λ context msg,
                   let sender := default "unknown" (msg !! "sender") in
                   let text := default "" (msg !! "text") in
                   context +:+ sender +:+ ": " +:+ text +:+ newline)
                context (last_entries 5 conversation_history) in
        context +:+ newline
    end in
  context +:+ "Current message to analyze:" +:+ newline +:+ message.

(** [s.split(sep)] for a separator that is not empty, read from left to
    right: [piece] is the part read since the last separator, [skip] the
    number of characters of a separator still to pass. *)
Fixpoint split_from (sep : string) (skip : nat) (piece s : string) : list string :=
  match s with
  | "" => [piece]
  | String c s' =>
      match skip with
      | S skip' => split_from sep skip' piece s'
      | 0 =>
          match strip_prefix sep s with
          | Some _ => piece :: split_from sep (String.length sep - 1) "" s'
          | None => split_from sep 0 (piece +:+ String c "") s'
          end
      end
  end.

Definition split (sep s : string) : list string := split_from sep 0 "" s.

(** [s.lstrip()], [s.rstrip()] and [s.strip()] *)
Fixpoint lstrip (s : string) : string :=
  match s with
  | "" => ""
  | String c s' => if is_space c then lstrip s' else s
  end.

Fixpoint rstrip (s : string) : string :=
  match s with
  | "" => ""
  | String c s' =>
      match rstrip s' with
      | "" => if is_space c then "" else String c ""
      | String _ _ as r => String c r
      end
  end.

Definition strip (s : string) : string := rstrip (lstrip s).

(** [s.find(c)] for one character, [None] for [-1]. *)
Fixpoint find (c : ascii) (s : string) : option nat :=
  match s with
  | "" => None
  | String a s' => if Ascii.eqb a c then Some 0 else S <$> find c s'
  end.

(** [s[a:b]] for indices that are not negative. *)
Definition slice (a b : nat) (s : string) : string := take (b - a) (drop a s).

(** The loop of [_call_llm] over [enumerate(content[json_start:], json_start)]:
    [s] is what is left to read, [i] the index of its first character.
    The answer is the index at which the loop breaks, [None] when it runs
    to the end. *)
Fixpoint object_end (brace_count : Z) (i : nat) (s : string) : option nat :=
  match s with
  | "" => None
  | String char s' =>
      if Ascii.eqb char "{" then object_end (brace_count + 1) (S i) s'
      else if Ascii.eqb char "}" then
        if (brace_count - 1 =? 0)%Z then Some i
        else object_end (brace_count - 1) (S i) s'
      else object_end brace_count (S i) s'
  end.

(** The number of opening braces of [s] less the number of closing ones. *)
Fixpoint depth (s : string) : Z :=
  match s with
  | "" => 0
  | String c s' =>
      (if Ascii.eqb c "{" then 1 else if Ascii.eqb c "}" then -1 else 0) + depth s'
  end.

(** The part of [_call_llm] between the model's answer and [json.loads]:
    the text handed to [json.loads], or [None] when the default verdict is
    returned without parsing. *)
Definition json_candidate (content : string) : option string :=
  let content :=
    if contains "```json" content
    then strip (nth 0 (split "```" (nth 1 (split "```json" content) "")) "")
    else if contains "```" content
    then strip (nth 0 (split "```" (nth 1 (split "```" content) "")) "")
    else content in
  let content :=
    match find "{" content with
    | Some json_start =>
        match object_end 0 json_start (drop json_start content) with
        | Some i => slice json_start (i + 1) content
        | None => content
        end
    | None => content
    end in
  match strip_prefix "{" (strip content) with
  | None => None
  | Some _ => Some content
  end.

(** What [json.loads] gives, as far as [detect_scam] reads it: an object
    with its entries [is_scam] and [confidence] (either may be missing; when
    present they are taken to be a boolean and a number), or another
    value. *)
Inductive Json : Type :=
| JsonObject (is_scam : option bool) (confidence : option float)
| JsonOther.

Section WithModel.
Variable completion : nat → string → option string.
(** [None] when [json.loads] raises. *)
Variable json_loads : string → option Json.

Definition _call_llm (t : nat) (context : string) : Json :=
  match completion t context with
  | None => JsonObject (Some false) (Some 0%float)
  | Some content =>
      match json_candidate content with
      | None => JsonObject (Some false) (Some 0%float)
      | Some content =>
          match json_loads content with
          | Some result => result
          | None => JsonObject (Some false) (Some 0%float)
          end
      end
  end.

(** [result.get] raises on a value that is not an object, and the error
    is caught. *)
Definition detect_scam (t : nat) (message : string)
    (conversation_history : list (gmap string string)) (metadata : Metadata)
    : bool * float :=
  let context := _build_context message conversation_history metadata in
  match _call_llm t context with
  | JsonObject is_scam confidence =>
      (default false is_scam, default 0%float confidence)
  | JsonOther => (false, 0%float)
  end.

End WithModel.
End ScamDetector.

(** ** agent_engine.py

    The four generators.  [completion t use_agent_persona context] is the
    text of the model's answer under the system prompt chosen by
    [use_agent_persona], or [None] when the call raises or the answer
    carries no text. *)

Module AgentEngine.
Import State.

Definition newline : string := ScamDetector.newline.
Definition quote : string := String (ascii_of_nat 34) "".

Definition apology : string :=
  "Sorry, I am having network issues. Can you please repeat?".

Section WithModel.
Variable completion : nat → bool → string → option string.

Definition _call_llm_for_response (t : nat) (context : string)
    (use_agent_persona : bool) : string :=
  match completion t use_agent_persona context with
  | Some response_text =>
      if String.eqb response_text "" then apology else response_text
  | None => apology
  end.

Definition generate_initial_response (t : nat) (session_id scammer_message : string)
    (metadata : Metadata) : string :=
  let context :=
    "The scammer just sent this message:" +:+ newline
    +:+ quote +:+ scammer_message +:+ quote +:+ newline
    +:+ newline
    +:+ "This is your FIRST response. Show concern and willingness to help, but also ask a clarifying question to extract more information. Keep it brief (2-3 sentences)." +:+ newline
    +:+ newline
    +:+ "Channel: " +:+ channel metadata in
  _call_llm_for_response t context true.

Definition generate_response (t : nat) (session_id : string)
    (conversation_history : list Message) (metadata : Metadata) : string :=
  let context := "Conversation so far:" +:+ newline +:+ newline in
  let context :=
    foldl (λ context msg,
             if String.eqb (sender msg) "scammer"
             then context +:+ "Scammer: " +:+ text msg +:+ newline
             else context +:+ "You (Ramesh): " +:+ text msg +:+ newline)
          context (ScamDetector.last_entries 10 conversation_history) in
  let context :=
    context +:+ newline +:+ newline +:+ "Channel: " +:+ channel metadata +:+ newline in
  let context :=
    context +:+ newline +:+ "Generate your next response as Ramesh. Try to extract more specific information (phone numbers, UPI IDs, links, account details, names). Keep responses natural and believable (2-4 sentences)." in
  _call_llm_for_response t context true.

Definition generate_neutral_response (t : nat) (message : string)
    (metadata : Metadata) : string :=
  let context :=
    "You are responding as a regular Indian person to a message that might or might not be a scam." +:+ newline
    +:+ newline
    +:+ "Message: " +:+ quote +:+ message +:+ quote +:+ newline
    +:+ newline
    +:+ "Respond naturally and briefly (1-2 sentences). Be polite but don't give away any sensitive information. If it's a greeting, greet back. If it's a question, answer normally." in
  _call_llm_for_response t context false.

Definition generate_final_response (t : nat) (session_id : string)
    (conversation_history : list Message) (metadata : Metadata) : string :=
  let context := "Conversation history:" +:+ newline +:+ newline in
  let context :=
    foldl (λ context msg, context +:+ sender msg +:+ ": " +:+ text msg +:+ newline)
          context (ScamDetector.last_entries 10 conversation_history) in
  let context :=
    context +:+ newline +:+ newline +:+ "This will be your FINAL message in this conversation. Politely end the conversation with a believable excuse (need to go, will call later, need to check with family, etc.). Stay in character as Ramesh. Keep it brief (1-2 sentences)." in
  _call_llm_for_response t context true.

End WithModel.
End AgentEngine.

(** ** main.py, the services it is started with

    The environment of the orchestrator when classifier and generators are
    the ones above. *)

Module Services.
Import State.

Definition environment (clock : nat → string) (API_KEY : string)
    (detector_completion : nat → string → option string)
    (json_loads : string → option ScamDetector.Json)
    (agent_completion : nat → bool → string → option string)
    (post_callback : nat → FinalCallback → option nat) : Env :=
  {| State.clock := clock;
     State.API_KEY := API_KEY;
     State.detect_scam := ScamDetector.detect_scam detector_completion json_loads;
     State.generate_initial_response :=
       AgentEngine.generate_initial_response agent_completion;
     State.generate_response := AgentEngine.generate_response agent_completion;
     State.generate_neutral_response :=
       AgentEngine.generate_neutral_response agent_completion;
     State.generate_final_response :=
       AgentEngine.generate_final_response agent_completion;
     State.post_callback := post_callback |}.

End Services.

(** ** Sample data, used to exercise the statements below *)

Module Examples.

(** ["2024-01-01T10:00:nn"], the clock reading number [n]. *)
Definition stamp (n : nat) : string :=
  "2024-01-01T10:00:"
    +:+ String (ascii_of_nat (48 + n `div` 10))
          (String (ascii_of_nat (48 + n `mod` 10)) "").

Definition sample_metadata : Metadata :=
  {| channel := "SMS"; language := "English"; locale := "IN" |}.

(** An environment whose classifier always gives [answer]. *)
Definition sample_env (answer : bool * float) : Env :=
  {| clock := stamp;
     API_KEY := "secret";
     detect_scam := λ _ _ _ _, answer;
     generate_initial_response := λ _ _ _ _, "Oh no, what happened to my account?";
     generate_response := λ _ _ _ _, "Which branch are you calling from?";
     generate_neutral_response := λ _ _ _, "Hello, who is this?";
     generate_final_response := λ _ _ _ _, "I must go now, will call later.";
     post_callback := λ _ _, Some 200 |}.

Definition scammer_message (n : nat) : Message :=
  {| sender := "scammer"; text := "send the otp"; timestamp := Z.of_nat n;
     datetime := stamp n |}.

Definition empty_intelligence : Intelligence :=
  {| upi_ids := []; phone_numbers := []; bank_accounts := [];
     phishing_links := []; suspicious_keywords := [] |}.

Definition handle_intelligence : Intelligence :=
  {| upi_ids := ["9876543210@paytm"]; phone_numbers := []; bank_accounts := [];
     phishing_links := []; suspicious_keywords := [] |}.

(** An engaged session holding the messages read at the clock readings
    [first .. first + count - 1], engaged at the reading [engaged]. *)
Definition engaged_session (first count engaged : nat) (i : Intelligence)
    (concluded : bool) : Session :=
  {| session_id := "s1";
     created_at := stamp 0;
     messages := scammer_message <$> seq first count;
     scam_detected := true;
     scam_confidence := 0.85;
     agent_engaged := true;
     extracted_intelligence := i;
     callback_sent := false;
     should_conclude := concluded;
     scam_detected_at := Some (stamp engaged);
     agent_engaged_at := Some (stamp engaged);
     callback_sent_at := None |}.

Definition world_with (s : Session) : World :=
  {| sessions := {[ session_id s := s ]}; ticks := 40; tasks := [] |}.

Definition sample_request (sid text : string) : Main.IncomingRequest :=
  {| Main.sessionId := sid;
     Main.message :=
       {| Main.sender := Main.SCAMMER; Main.text := text; Main.timestamp := 1700000000 |};
     Main.conversationHistory := [];
     Main.metadata := sample_metadata |}.

(** Two entries of a conversation history. *)
Definition history_first : gmap string string :=
  {[ "sender" := "scammer"; "text" := "pay to 9876543210@paytm" ]}.

Definition history_second : gmap string string :=
  {[ "sender" := "scammer"; "text" := "or call 9876543210 and open www.kyc-update.in" ]}.

(** Calls made after a conclusion: more messages, more intelligence, the
    deletion of another session, another request, a listing. *)
Definition later_calls : list System.call :=
  [System.AddMessage "s1" "scammer" "are you there" 1700000001;
   System.UpdateIntelligence "s1" handle_intelligence;
   System.DeleteSession "s2";
   System.ChatEndpoint (sample_request "s1" "hello?") (Some "secret") None;
   System.EngageAgent "s1";
   System.GetAllSessions].

(** The service with both language models out of reach. *)
Definition offline_env : Env :=
  Services.environment stamp "secret" (λ _ _, None) (λ _, None) (λ _ _ _, None)
                       (λ _ _, None).

End Examples.

(** * Properties *)

(** ** Basic facts about texts and the store *)

Lemma leb_empty (s : string) : String.leb "" s = true.
Proof. by destruct s. Qed.

Lemma filter_all {A} (P : A → Prop) `{!∀ x, Decision (P x)} (l : list A) :
  (∀ x, P x) → filter P l = l.
Proof.
  intros HP. induction l as [|x l IH]; [done|].
  rewrite filter_cons_True by done. by rewrite IH.
Qed.

(** *** Texts *)

Lemma app_String c (s1 s2 : string) : String c s1 +:+ s2 = String c (s1 +:+ s2).
Proof. done. Qed.

Lemma app_empty (s : string) : "" +:+ s = s.
Proof. done. Qed.

Lemma take_drop (n : nat) (s : string) : take n s +:+ drop n s = s.
Proof.
  revert s. induction n as [|n IH]; intros [|c s]; simpl; try done.
  by rewrite app_String, IH.
Qed.

Lemma strip_prefix_Some (p s s' : string) :
  strip_prefix p s = Some s' → s = p +:+ s'.
Proof.
  revert s. induction p as [|a p IH]; intros s.
  - simpl. by intros [= ->].
  - destruct s as [|b s]; simpl; [done|].
    destruct (Ascii.eqb_spec a b) as [->|]; [|done].
    intros H. by rewrite app_String, <- (IH s H).
Qed.

Lemma strip_prefix_app (p s : string) : strip_prefix p (p +:+ s) = Some s.
Proof.
  induction p as [|a p IH]; [done|].
  rewrite app_String. simpl. by rewrite Ascii.eqb_refl.
Qed.

Lemma take_app_length (p s : string) (n : nat) :
  take (String.length p + n) (p +:+ s) = p +:+ take n s.
Proof.
  induction p as [|a p IH]; [done|]. rewrite !app_String. simpl. by rewrite IH.
Qed.

Lemma drop_app_length (p s : string) (n : nat) :
  drop (String.length p + n) (p +:+ s) = drop n s.
Proof.
  induction p as [|a p IH]; [done|]. rewrite !app_String. simpl. by rewrite IH.
Qed.

Lemma take_add (k n : nat) (s : string) :
  take (k + n) s = take k s +:+ take n (drop k s).
Proof.
  revert s. induction k as [|k IH]; intros s; simpl; [done|].
  destruct s as [|c s]; simpl; [by destruct n|]. by rewrite app_String, IH.
Qed.

Lemma drop_add (k n : nat) (s : string) : drop (k + n) s = drop n (drop k s).
Proof.
  revert s. induction k as [|k IH]; intros s; simpl; [done|].
  destruct s as [|c s]; simpl; [by destruct n|]. by rewrite IH.
Qed.

Lemma length_take (k : nat) (s : string) :
  k ≤ String.length s → String.length (take k s) = k.
Proof.
  revert s. induction k as [|k IH]; intros [|c s]; simpl; try lia.
  intros H. rewrite IH; lia.
Qed.

Lemma length_app (s1 s2 : string) :
  String.length (s1 +:+ s2) = String.length s1 + String.length s2.
Proof.
  induction s1 as [|c s1 IH]; [done|]. rewrite app_String. simpl. by rewrite IH.
Qed.

Lemma all_chars_app p (s1 s2 : string) :
  all_chars p (s1 +:+ s2) = all_chars p s1 && all_chars p s2.
Proof.
  induction s1 as [|c s1 IH]; [done|].
  rewrite app_String. simpl. by rewrite IH, andb_assoc.
Qed.

(** *** The matcher finds only what the pattern accepts *)

Lemma run_spec cls hi (s : string) :
  run cls hi s ≤ String.length s
  ∧ (∀ h, hi = Some h → run cls hi s ≤ h)
  ∧ ∀ k, k ≤ run cls hi s → all_chars cls (take k s) = true.
Proof.
  revert hi. induction s as [|c s IH]; intros hi.
  - assert (run cls hi "" = 0) as -> by (by destruct hi as [[|h]|]).
    split_and!; [done|lia|]. intros k Hk. by replace k with 0 by lia.
  - destruct hi as [[|h]|]; simpl.
    + split_and!; [lia|lia|]. intros k Hk. by replace k with 0 by lia.
    + destruct (cls c) eqn:Hc.
      * destruct (IH (Some h)) as (H1 & H2 & H3). simpl in *.
        split_and!; [lia| |].
        -- intros h' [= <-]. specialize (H2 h eq_refl). lia.
        -- intros [|k] Hk; simpl; [done|]. rewrite Hc. apply H3. lia.
      * split_and!; [lia|lia|]. intros k Hk. by replace k with 0 by lia.
    + destruct (cls c) eqn:Hc.
      * destruct (IH None) as (H1 & H2 & H3). simpl in *.
        split_and!; [lia|done|].
        intros [|k] Hk; simpl; [done|]. rewrite Hc. apply H3. lia.
      * split_and!; [lia|done|]. intros k Hk. by replace k with 0 by lia.
Qed.

Lemma backtrack_Some f lo n r :
  backtrack f lo n = Some r → ∃ k, lo ≤ k ≤ n ∧ f k = Some r.
Proof.
  induction n as [|n IH]; simpl.
  - destruct (0 <? lo) eqn:Hlo; [done|]. apply Nat.ltb_ge in Hlo.
    destruct (f 0) eqn:Hf; [|done]. intros [= <-]. exists 0. split; [lia|done].
  - destruct (S n <? lo) eqn:Hlo; [done|]. apply Nat.ltb_ge in Hlo.
    destruct (f (S n)) eqn:Hf.
    + intros [= <-]. exists (S n). split; [lia|done].
    + intros H. destruct (IH H) as (k & Hk & Hfk). exists k. split; [lia|done].
Qed.

Lemma first_some_Some (l : list (option nat)) r :
  first_some l = Some r → Some r ∈ l.
Proof.
  induction l as [|[x|] l IH]; simpl; [done| |].
  - intros [= ->]. apply list_elem_of_here.
  - intros H. apply list_elem_of_further. by apply IH.
Qed.

Lemma match_atoms_accepts ats prev (s : string) n :
  match_atoms ats prev s = Some n →
  n ≤ String.length s ∧ accepts ats prev (take n s) (drop n s).
Proof.
  revert prev s n.
  induction ats as [|[l|alts|cls lo hi|] ats IH]; intros prev s n; simpl.
  - intros [= <-]. split; [lia|]. simpl. destruct s; constructor.
  - destruct (strip_prefix l s) as [s'|] eqn:Hl; [|done].
    apply strip_prefix_Some in Hl as ->.
    destruct (match_atoms ats (last_char prev l) s') as [n'|] eqn:Hn'; [|done].
    intros [= <-]. destruct (IH _ _ _ Hn') as [Hle Hacc].
    rewrite take_app_length, drop_app_length, length_app.
    split; [lia|]. by constructor.
  - intros H. apply first_some_Some, elem_of_app in H as [H|H].
    + apply list_elem_of_fmap in H as (l & Hl & Hin).
      destruct (strip_prefix l s) as [s'|] eqn:Hs'; [|done].
      apply strip_prefix_Some in Hs' as ->.
      destruct (match_atoms ats (last_char prev l) s') as [n'|] eqn:Hn'; [|done].
      injection Hl as ->. destruct (IH _ _ _ Hn') as [Hle Hacc].
      rewrite take_app_length, drop_app_length, length_app.
      split; [lia|]. by apply accepts_opt_taken.
    + apply list_elem_of_singleton in H. symmetry in H.
      destruct (IH _ _ _ H) as [Hle Hacc].
      split; [done|]. by apply accepts_opt_skipped.
  - intros H. apply backtrack_Some in H as (k & Hk & H).
    destruct (match_atoms ats (last_char prev (take k s)) (drop k s)) as [n'|] eqn:Hn';
      [|done].
    injection H as <-. destruct (IH _ _ _ Hn') as [Hle Hacc].
    destruct (run_spec cls hi s) as (Hlen & Hhi & Hall).
    assert (String.length (drop k s) + k = String.length s) as Hdrop.
    { rewrite <- (take_drop k s) at 2. rewrite length_app, length_take; lia. }
    rewrite take_add, drop_add. split; [lia|].
    constructor; [apply Hall; lia|rewrite length_take; lia| |done].
    intros h Hh. rewrite length_take by lia. specialize (Hhi h Hh). lia.
  - destruct (boundary prev s) eqn:Hb; [|done].
    intros H. destruct (IH _ _ _ H) as [Hle Hacc].
    split; [done|]. constructor; [|done]. by rewrite take_drop.
Qed.

Lemma match_re_accepts (re : regex) prev (s : string) n :
  match_re re prev s = Some n →
  ∃ ats, ats ∈ re ∧ accepts ats prev (take n s) (drop n s).
Proof.
  intros H. apply first_some_Some, list_elem_of_fmap in H as (ats & Hn & Hin).
  exists ats. split; [done|]. symmetry in Hn. by apply match_atoms_accepts in Hn as [_ ?].
Qed.

(** Every text returned by [findall] is accepted by one of the
    alternatives of the pattern, at the place where it was found. *)
Lemma findall_from_accepts (re : regex) skip prev (s : string) x :
  x ∈ findall_from re skip prev s →
  ∃ ats prev' rest, ats ∈ re ∧ accepts ats prev' x rest.
Proof.
  revert skip prev. induction s as [|c s IH]; intros skip prev.
  - destruct skip as [|k]; simpl; [|by intros ?%elem_of_nil].
    destruct (match_re re prev "") as [n|] eqn:Hn; [|by intros ?%elem_of_nil].
    intros ->%list_elem_of_singleton.
    destruct (match_re_accepts re prev "" n Hn) as (ats & Hin & Hacc). eauto.
  - destruct skip as [|k]; simpl; [|by apply IH].
    destruct (match_re re prev (String c s)) as [n|] eqn:Hn; [|by apply IH].
    intros [->|H]%elem_of_cons; [|by apply IH in H].
    destruct (match_re_accepts re prev _ n Hn) as (ats & Hin & Hacc). eauto.
Qed.

Lemma findall_accepts (re : regex) (s : string) x :
  x ∈ findall re s → ∃ ats prev rest, ats ∈ re ∧ accepts ats prev x rest.
Proof. apply findall_from_accepts. Qed.

(** *** Sample runs of the patterns *)

Example findall_upi_sample :
  findall upi_pattern "ids: ramesh.k@okaxis, -a@b- and x@y@z"
  = ["ramesh.k@okaxis"; "a@b"; "x@y"].
Proof. by vm_compute. Qed.

Example findall_phone_sample :
  findall phone_pattern "09876543210 or 919123456789, then 98765432101"
  = ["09876543210"; "919123456789"; "8765432101"].
Proof. by vm_compute. Qed.

Example findall_phone_inside_run :
  findall phone_pattern "1239876543210" = ["9876543210"].
Proof. by vm_compute. Qed.

Example findall_bank_account_sample :
  findall bank_account_pattern "a/c 123456789 and 1234567890123456789"
  = ["123456789"].
Proof. by vm_compute. Qed.

Example findall_url_sample :
  findall url_pattern "see https://a.b/c?d, www.x.in and bit.ly/abc"
  = ["https://a.b/c?d,"; "www.x.in"; "bit.ly/abc"].
Proof. by vm_compute. Qed.

Example clean_phone_samples :
  clean_phone "+919876543210" = "9876543210"
  ∧ clean_phone "09876543210" = "9876543210"
  ∧ clean_phone "9123456789" = "23456789".
Proof. by vm_compute. Qed.

(** *** The shape of what the three patterns find *)

Ltac invert_accepts :=
  repeat match goal with
         | H : accepts (_ :: _) _ _ _ |- _ => inversion H; clear H; subst
         | H : accepts [] _ _ _ |- _ => inversion H; clear H; subst
         end.

Lemma app_empty_r (s : string) : s +:+ "" = s.
Proof. induction s as [|c s IH]; [done|]. by rewrite app_String, IH. Qed.

Lemma findall_upi_shape (message tok : string) :
  tok ∈ findall upi_pattern message →
  ∃ local domain,
    tok = local +:+ "@" +:+ domain
    ∧ 1 ≤ String.length local ∧ all_chars word_dot_dash local = true
    ∧ 1 ≤ String.length domain ∧ all_chars word_dash domain = true.
Proof.
  intros (ats & prev & rest & Hin & Hacc)%findall_accepts.
  apply list_elem_of_singleton in Hin as ->. invert_accepts.
  rewrite app_empty_r. eauto 10.
Qed.

Lemma findall_phone_shape (message found : string) :
  found ∈ findall phone_pattern message →
  ∃ prefix d ds,
    found = prefix +:+ String d ds
    ∧ prefix ∈ ["+91"; "91"; "0"; ""]
    ∧ six_to_nine d = true
    ∧ String.length ds = 9 ∧ all_chars is_digit ds = true.
Proof.
  intros (ats & prev & rest & Hin & Hacc)%findall_accepts.
  apply list_elem_of_singleton in Hin as ->.
  assert (∀ prev m, accepts [Rep six_to_nine 1 (Some 1); Rep is_digit 9 (Some 9); WordB]
                      prev m rest →
            ∃ d ds, m = String d ds ∧ six_to_nine d = true
                    ∧ String.length ds = 9 ∧ all_chars is_digit ds = true) as Hrest.
  { clear. intros prev m Hacc. invert_accepts.
    match goal with H : ∀ h, Some 1 = Some h → _ |- _ => specialize (H 1 eq_refl) end.
    match goal with H : ∀ h, Some 9 = Some h → _ |- _ => specialize (H 9 eq_refl) end.
    destruct r as [|d [|? ?]]; simpl in *; try lia.
    rewrite app_empty_r. exists d, r0. rewrite andb_true_r in *.
    split_and!; [done|done|lia|done]. }
  inversion Hacc; clear Hacc; subst.
  - destruct (Hrest _ _ ltac:(eassumption)) as (d & ds & -> & ?).
    exists l, d, ds. split_and!; try tauto.
    rewrite !elem_of_cons in *. tauto.
  - destruct (Hrest _ _ ltac:(eassumption)) as (d & ds & -> & ?).
    exists "", d, ds. split_and!; try tauto.
    rewrite !elem_of_cons. tauto.
Qed.

Lemma findall_bank_account_shape (message acc : string) :
  acc ∈ findall bank_account_pattern message →
  9 ≤ String.length acc ≤ 18 ∧ all_chars is_digit acc = true.
Proof.
  intros (ats & prev & rest & Hin & Hacc)%findall_accepts.
  apply list_elem_of_singleton in Hin as ->. invert_accepts.
  match goal with H : ∀ h, Some 18 = Some h → _ |- _ => specialize (H 18 eq_refl) end.
  rewrite app_empty_r. split; [lia|done].
Qed.

Lemma elem_of_list_of_set (xs : list string) x : x ∈ list_of_set xs ↔ x ∈ xs.
Proof. unfold list_of_set. by rewrite elem_of_elements, elem_of_list_to_set. Qed.

Lemma elem_of_cleaned_phones (message p : string) :
  p ∈ cleaned_phones message ↔
    ∃ found, found ∈ findall phone_pattern message
             ∧ clean_phone found = p ∧ String.length p = 10.
Proof.
  unfold cleaned_phones. rewrite list_elem_of_filter, list_elem_of_fmap.
  split.
  - intros (Hlen & found & -> & Hin). eauto.
  - intros (found & Hin & <- & Hlen). eauto.
Qed.

Lemma six_to_nine_is_digit d : six_to_nine d = true → is_digit d = true.
Proof.
  unfold six_to_nine, is_digit, between.
  rewrite !andb_true_iff, !Nat.leb_le. lia.
Qed.

(** A match of the phone pattern that is kept after cleaning is cleaned to
    its last ten characters. *)
Lemma clean_phone_kept (prefix : string) d (ds : string) :
  prefix ∈ ["+91"; "91"; "0"; ""] →
  six_to_nine d = true →
  String.length ds = 9 →
  String.length (clean_phone (prefix +:+ String d ds)) = 10 →
  clean_phone (prefix +:+ String d ds) = String d ds.
Proof.
  intros Hprefix Hd Hds.
  rewrite !elem_of_cons, elem_of_nil in Hprefix.
  destruct Hprefix as [->|[->|[->|[->|[]]]]]; try done.
  rewrite app_empty. unfold clean_phone. cbn -[Ascii.eqb].
  destruct (Ascii.eqb_spec "+" d) as [<-|_]; [by vm_compute in Hd|].
  destruct (Ascii.eqb_spec "0" d) as [<-|_]; [by vm_compute in Hd|].
  destruct (Ascii.eqb_spec "9" d) as [<-|_]; [|done].
  destruct ds as [|c ds]; [done|].
  destruct (Ascii.eqb_spec "1" c) as [<-|_]; [|done].
  simpl in *. lia.
Qed.

Section StoreFacts.
Context (env : Env).

Lemma get_session_Some w sid s :
  sessions w !! sid = Some s → get_session env sid w = (s, w).
Proof. intros H. unfold get_session. by rewrite H. Qed.

(** The count of the conclusion policy, for a session whose engagement
    time is recorded. *)
Lemma engagement_messages_recorded s t :
  agent_engaged_at s = Some t →
  engagement_messages s
  = length (filter (λ msg, String.leb t (datetime msg) = true) (messages s)).
Proof.
  intros H. unfold engagement_messages. rewrite H.
  destruct (String.eqb_spec t "") as [->|]; [|done].
  rewrite filter_all; [done|]. intros x. apply leb_empty.
Qed.

(** What [should_conclude_session] answers for a stored session, and the
    state it leaves. *)
Lemma should_conclude_session_value w sid s :
  sessions w !! sid = Some s →
  value (should_conclude_session env sid w)
  = should_conclude s
    || (agent_engaged s
        && negb (engagement_messages s <? 8)
        && (is_high_value_intelligence (extracted_intelligence s)
            || (15 <=? length (messages s)))).
Proof.
  intros Hs. unfold should_conclude_session, bind.
  rewrite (get_session_Some w sid s Hs).
  destruct (should_conclude s); [done|].
  destruct (agent_engaged s); [|done].
  cbn [negb orb andb].
  destruct (engagement_messages s <? 8); [done|].
  cbn [negb andb].
  by destruct (is_high_value_intelligence (extracted_intelligence s)
               || (15 <=? length (messages s))).
Qed.

Lemma should_conclude_session_world w sid s :
  sessions w !! sid = Some s →
  world (should_conclude_session env sid w)
  = if value (should_conclude_session env sid w) && negb (should_conclude s)
    then {| sessions := <[sid := set_should_conclude s]> (sessions w);
            ticks := ticks w; tasks := tasks w |}
    else w.
Proof.
  intros Hs. unfold should_conclude_session, bind.
  rewrite (get_session_Some w sid s Hs).
  destruct (should_conclude s); [done|].
  destruct (agent_engaged s); [|done].
  cbn [negb orb andb].
  destruct (engagement_messages s <? 8); [done|].
  by destruct (is_high_value_intelligence (extracted_intelligence s)
               || (15 <=? length (messages s))).
Qed.

Lemma bind_run {A B} (m : M A) (k : A → M B) w :
  bind m k w = k (value (m w)) (world (m w)).
Proof. unfold bind, value, world. by destruct (m w). Qed.

Lemma updates_trans s1 s2 s3 :
  System.updates s1 s2 → System.updates s2 s3 → System.updates s1 s3.
Proof. induction 2; eauto using System.updates. Qed.

Lemma updates_should_conclude_true s s' :
  System.updates s s' → should_conclude s = true → should_conclude s' = true.
Proof. induction 1; auto. Qed.

(** *** Every operation acts on one session at most *)

Lemma acts_on_ret {A} sid (a : A) : System.acts_on sid (ret a).
Proof. intros w. by left. Qed.

Lemma acts_on_bind {A B} sid (m : M A) (k : A → M B) :
  System.acts_on sid m → (∀ a, System.acts_on sid (k a)) →
  System.acts_on sid (bind m k).
Proof.
  intros Hm Hk w. rewrite bind_run.
  destruct (Hm w) as [Hm1|(s & s1 & Ho & Hu & Hm1)];
    destruct (Hk (value (m w)) (world (m w))) as [Hk1|(s' & s2 & Ho' & Hu' & Hk1)].
  - left. congruence.
  - right. exists s', s2. split_and!; [|done|congruence].
    unfold System.origin in *. by rewrite <- Hm1.
  - right. exists s, s1. split_and!; [done|done|congruence].
  - right. exists s, s2. split_and!; [done| |].
    + apply (updates_trans _ s1); [done|].
      destruct Ho' as [Ho'|[Ho' _]]; rewrite Hm1, lookup_insert_eq in Ho'; [|done].
      by injection Ho' as <-.
    + by rewrite Hk1, Hm1, insert_insert_eq.
Qed.

Lemma acts_on_if {A} sid (b : bool) (m1 m2 : M A) :
  System.acts_on sid m1 → System.acts_on sid m2 →
  System.acts_on sid (if b then m1 else m2).
Proof. by destruct b. Qed.

Lemma acts_on_utcnow sid : System.acts_on sid (utcnow_isoformat env).
Proof. intros w. by left. Qed.

Lemma acts_on_get_session sid : System.acts_on sid (get_session env sid).
Proof.
  intros w. unfold get_session. destruct (sessions w !! sid) as [s|] eqn:Hs.
  - by left.
  - right. eexists _, _. split_and!; [right; eauto|constructor|done].
Qed.

(** An assignment to keys of the session fetched by [get_session]. *)
Lemma acts_on_assign sid (f : Session → Session) :
  (∀ s, System.updates s (f s)) →
  System.acts_on sid
    (let* session := get_session env sid in put_session sid (f session)).
Proof.
  intros Hf w. right. unfold get_session, bind.
  destruct (sessions w !! sid) as [s|] eqn:Hs; simpl.
  - exists s, (f s). split_and!; [by left|done|done].
  - eexists _, _. split_and!; [right; eauto|apply Hf|].
    by rewrite insert_insert_eq.
Qed.

Lemma acts_on_assign_now sid (f : string → Session → Session) :
  (∀ now s, System.updates s (f now s)) →
  System.acts_on sid
    (let* session := get_session env sid in
     let* now := utcnow_isoformat env in
     put_session sid (f now session)).
Proof.
  intros Hf w. right. unfold get_session, bind.
  destruct (sessions w !! sid) as [s|] eqn:Hs; simpl.
  - eexists s, _. split_and!; [by left|apply Hf|done].
  - eexists _, _. split_and!; [right; eauto|apply Hf|].
    by rewrite insert_insert_eq.
Qed.

Lemma acts_on_add_message sid sender text timestamp :
  System.acts_on sid (add_message env sid sender text timestamp).
Proof.
  apply (acts_on_assign_now sid
           (λ now session,
              set_messages
                (messages session ++
                   [{| sender := sender; text := text; timestamp := timestamp;
                       datetime := now |}]) session)).
  intros. constructor. constructor.
Qed.

Lemma acts_on_mark_scam_detected sid confidence :
  System.acts_on sid (mark_scam_detected env sid confidence).
Proof.
  apply (acts_on_assign_now sid (set_scam_detected confidence)).
  intros. constructor. constructor.
Qed.

Lemma acts_on_engage_agent sid : System.acts_on sid (engage_agent env sid).
Proof.
  apply (acts_on_assign_now sid set_agent_engaged).
  intros. constructor. constructor.
Qed.

Lemma acts_on_mark_callback_sent sid :
  System.acts_on sid (mark_callback_sent env sid).
Proof.
  apply (acts_on_assign_now sid set_callback_sent).
  intros. constructor. constructor.
Qed.

Lemma acts_on_update_intelligence sid new_intelligence :
  System.acts_on sid (update_intelligence env sid new_intelligence).
Proof.
  apply (acts_on_assign sid
           (λ session,
              set_extracted_intelligence
                (merge_intelligence (extracted_intelligence session) new_intelligence)
                session)).
  intros. constructor. constructor.
Qed.

Lemma should_conclude_session_None w sid :
  sessions w !! sid = None →
  should_conclude_session env sid w = (false, world (get_session env sid w)).
Proof.
  intros Hs. unfold should_conclude_session, get_session, bind. by rewrite Hs.
Qed.

Lemma acts_on_should_conclude_session sid :
  System.acts_on sid (should_conclude_session env sid).
Proof.
  intros w. destruct (sessions w !! sid) as [s|] eqn:Hs.
  - rewrite (should_conclude_session_world w sid s Hs).
    destruct (_ && _); [right|by left].
    exists s, (set_should_conclude s).
    split_and!; [by left|constructor; constructor|done].
  - rewrite (should_conclude_session_None w sid Hs).
    apply acts_on_get_session.
Qed.

Lemma acts_on_create_task sid sid' : System.acts_on sid (Main.create_task sid').
Proof. intros w. by left. Qed.

Lemma acts_on_time sid : System.acts_on sid Main.time.
Proof. intros w. by left. Qed.

Lemma acts_on_chat_endpoint request k1 k2 :
  System.acts_on (Main.sessionId request) (Main.chat_endpoint env request k1 k2).
Proof.
  unfold Main.chat_endpoint.
  destruct (Main.header_or k1 k2) as [api_key|]; [|apply acts_on_ret].
  repeat first
    [ apply acts_on_ret
    | apply acts_on_get_session
    | apply acts_on_add_message
    | apply acts_on_should_conclude_session
    | apply acts_on_update_intelligence
    | apply acts_on_mark_scam_detected
    | apply acts_on_engage_agent
    | apply acts_on_create_task
    | apply acts_on_time
    | apply acts_on_if
    | apply acts_on_bind; [|intros ?]
    | match goal with
      | |- System.acts_on _ (let '(_, _) := ?p in _) => destruct p
      end ].
Qed.

Lemma acts_on_send_final_callback sid :
  System.acts_on sid (Main.send_final_callback env sid).
Proof.
  intros w. unfold Main.send_final_callback.
  destruct (sessions w !! sid) as [s|] eqn:Hs; [|by left].
  destruct (post_callback _ _ _) as [status_code|]; [|by left].
  destruct (bool_decide (status_code = 200)); [|by left].
  rewrite bind_run. cbn [ret world snd].
  apply acts_on_mark_callback_sent.
Qed.

(** What a call does to the session stored under [sid]: nothing, when the
    call is about another session; an update, when it is about [sid]; and
    only [delete_session sid] removes it. *)
Lemma run_call_session (c : System.call) w sid s :
  sessions w !! sid = Some s →
  c ≠ System.DeleteSession sid →
  ∃ s', System.updates s s' ∧ sessions (System.run_call env c w) !! sid = Some s'.
Proof.
  intros Hs Hc.
  assert (∀ {A} sid' (m : M A), System.acts_on sid' m →
            ∃ s', System.updates s s' ∧ sessions (world (m w)) !! sid = Some s')
    as Hacts.
  { intros A sid' m Hm. destruct (Hm w) as [->|(s0 & s' & Ho & Hu & ->)].
    - exists s. split; [constructor|done].
    - destruct (decide (sid' = sid)) as [->|Hne].
      + rewrite lookup_insert_eq. exists s'. split; [|done].
        destruct Ho as [Ho|[Ho _]]; congruence.
      + rewrite lookup_insert_ne by done. exists s. split; [constructor|done]. }
  destruct c as [sid'|sid' ? ? ?|sid' ?|sid'|sid' ?|sid'|sid'| |sid'|request k1 k2|sid'];
    simpl.
  - apply (Hacts _ sid'), acts_on_get_session.
  - apply (Hacts _ sid'), acts_on_add_message.
  - apply (Hacts _ sid'), acts_on_mark_scam_detected.
  - apply (Hacts _ sid'), acts_on_engage_agent.
  - apply (Hacts _ sid'), acts_on_update_intelligence.
  - apply (Hacts _ sid'), acts_on_should_conclude_session.
  - apply (Hacts _ sid'), acts_on_mark_callback_sent.
  - exists s. split; [constructor|done].
  - exists s. split; [constructor|].
    unfold delete_session. destruct (sessions w !! sid') eqn:Hs'; [|done].
    simpl. rewrite lookup_delete_ne; [done|]. congruence.
  - apply (Hacts _ (Main.sessionId request)), acts_on_chat_endpoint.
  - apply (Hacts _ sid'), acts_on_send_final_callback.
Qed.

Lemma run_session (cs : list System.call) w sid s :
  sessions w !! sid = Some s →
  Forall (λ c, c ≠ System.DeleteSession sid) cs →
  ∃ s', System.updates s s' ∧ sessions (System.run env cs w) !! sid = Some s'.
Proof.
  intros Hs Hcs. revert w s Hs.
  induction Hcs as [|c cs Hc _ IH]; intros w s Hs; simpl.
  - exists s. split; [constructor|done].
  - destruct (run_call_session c w sid s Hs Hc) as (s1 & Hu1 & Hs1).
    destruct (IH _ _ Hs1) as (s2 & Hu2 & Hs2).
    exists s2. split; [by apply (updates_trans _ s1)|done].
Qed.

(** Where a stored session comes from: the session stored before the call,
    updated, or a new session, updated. *)
Lemma run_call_origin (c : System.call) w sid s' :
  sessions (System.run_call env c w) !! sid = Some s' →
  ∃ s, System.origin w sid s ∧ System.updates s s'.
Proof.
  assert (∀ {A} sid' (m : M A), System.acts_on sid' m →
            sessions (world (m w)) !! sid = Some s' →
            ∃ s, System.origin w sid s ∧ System.updates s s') as Hacts.
  { intros A sid' m Hm. destruct (Hm w) as [->|(s0 & s1 & Ho & Hu & ->)].
    - intros Hs. exists s'. split; [by left|constructor].
    - destruct (decide (sid' = sid)) as [->|Hne].
      + rewrite lookup_insert_eq. intros [= ->]. eauto.
      + rewrite lookup_insert_ne by done. intros Hs.
        exists s'. split; [by left|constructor]. }
  destruct c as [sid'|sid' ? ? ?|sid' ?|sid'|sid' ?|sid'|sid'| |sid'|request k1 k2|sid'];
    simpl.
  - apply (Hacts _ sid'), acts_on_get_session.
  - apply (Hacts _ sid'), acts_on_add_message.
  - apply (Hacts _ sid'), acts_on_mark_scam_detected.
  - apply (Hacts _ sid'), acts_on_engage_agent.
  - apply (Hacts _ sid'), acts_on_update_intelligence.
  - apply (Hacts _ sid'), acts_on_should_conclude_session.
  - apply (Hacts _ sid'), acts_on_mark_callback_sent.
  - intros Hs. exists s'. split; [by left|constructor].
  - unfold delete_session. destruct (sessions w !! sid') eqn:Hs'; simpl.
    + intros [Hne Hs]%lookup_delete_Some. exists s'. split; [by left|constructor].
    + intros Hs. exists s'. split; [by left|constructor].
  - apply (Hacts _ (Main.sessionId request)), acts_on_chat_endpoint.
  - apply (Hacts _ sid'), acts_on_send_final_callback.
Qed.

(** Every session of a state reached from the initial one is a new session
    with some keys assigned. *)
Lemma run_from_new_session (cs : list System.call) sid s :
  sessions (System.run env cs System.initial) !! sid = Some s →
  ∃ now, System.updates (new_session sid now) s.
Proof.
  assert (∀ w, (∀ sid s, sessions w !! sid = Some s →
                         ∃ now, System.updates (new_session sid now) s) →
               ∀ sid s, sessions (System.run env cs w) !! sid = Some s →
                        ∃ now, System.updates (new_session sid now) s) as Hrun.
  { induction cs as [|c cs IH]; intros w Hw; [done|].
    simpl. apply IH. intros sid' s' Hs'.
    destruct (run_call_origin c w sid' s' Hs') as (s0 & [Ho|(_ & now & ->)] & Hu).
    - destruct (Hw _ _ Ho) as (now & Hu0). exists now. by apply (updates_trans _ s0).
    - by exists now. }
  apply Hrun. intros sid' s' Hs'. simpl in Hs'. by rewrite lookup_empty in Hs'.
Qed.

(** The engagement time of an engaged session is always recorded. *)
Lemma engaged_session_has_time (cs : list System.call) sid s :
  sessions (System.run env cs System.initial) !! sid = Some s →
  agent_engaged s = true →
  ∃ t, agent_engaged_at s = Some t.
Proof.
  intros (now & Hu)%run_from_new_session.
  assert (∀ s0 s1, System.updates s0 s1 →
            (agent_engaged s0 = true → is_Some (agent_engaged_at s0)) →
            agent_engaged s1 = true → is_Some (agent_engaged_at s1)) as H.
  { induction 1; simpl; eauto. }
  intros [t Ht]%(H _ _ Hu); [eauto|done].
Qed.

(** Once [should_conclude_session] has answered true, the flag is set. *)
Lemma should_conclude_session_true_concluded w sid :
  value (should_conclude_session env sid w) = true →
  System.concluded sid (world (should_conclude_session env sid w)).
Proof.
  intros Hv. destruct (sessions w !! sid) as [s|] eqn:Hs.
  - rewrite (should_conclude_session_world w sid s Hs), Hv.
    destruct (should_conclude s) eqn:Hflag; simpl.
    + by exists s.
    + exists (set_should_conclude s). simpl. by rewrite lookup_insert_eq.
  - by rewrite (should_conclude_session_None w sid Hs) in Hv.
Qed.

(** *** The operations on a stored session *)

Lemma get_session_lookup w sid :
  sessions (world (get_session env sid w)) !! sid
  = Some (value (get_session env sid w)).
Proof.
  unfold get_session. destruct (sessions w !! sid) as [s|] eqn:Hs; [done|].
  simpl. by rewrite lookup_insert_eq.
Qed.

Lemma get_session_sessions w sid :
  sessions (world (get_session env sid w))
  = <[sid := value (get_session env sid w)]> (sessions w).
Proof.
  unfold get_session. destruct (sessions w !! sid) as [s|] eqn:Hs; [|done].
  simpl. by rewrite insert_id.
Qed.

Lemma get_session_tasks w sid : tasks (world (get_session env sid w)) = tasks w.
Proof. unfold get_session. by destruct (sessions w !! sid). Qed.

Lemma add_message_Some w sid s sender text timestamp :
  sessions w !! sid = Some s →
  add_message env sid sender text timestamp w
  = ((), {| sessions :=
              <[sid := set_messages
                         (messages s ++
                            [{| sender := sender; text := text;
                                timestamp := timestamp;
                                datetime := clock env (ticks w) |}]) s]>
                (sessions w);
            ticks := S (ticks w); tasks := tasks w |}).
Proof. intros Hs. unfold add_message, bind. by rewrite (get_session_Some w sid s Hs). Qed.

Lemma mark_scam_detected_Some w sid s confidence :
  sessions w !! sid = Some s →
  mark_scam_detected env sid confidence w
  = ((), {| sessions :=
              <[sid := set_scam_detected confidence (clock env (ticks w)) s]>
                (sessions w);
            ticks := S (ticks w); tasks := tasks w |}).
Proof.
  intros Hs. unfold mark_scam_detected, bind. by rewrite (get_session_Some w sid s Hs).
Qed.

Lemma engage_agent_Some w sid s :
  sessions w !! sid = Some s →
  engage_agent env sid w
  = ((), {| sessions := <[sid := set_agent_engaged (clock env (ticks w)) s]> (sessions w);
            ticks := S (ticks w); tasks := tasks w |}).
Proof. intros Hs. unfold engage_agent, bind. by rewrite (get_session_Some w sid s Hs). Qed.

End StoreFacts.

(** ** The value predicate *)

(** C5. [is_high_value_intelligence] answers true exactly for the bundles
    with at least one payment handle, or at least one phone number together
    with at least one link, or at least one bank account; a bundle holding a
    single payment handle and nothing else is of high value. *)
Theorem is_high_value_intelligence_iff :
  (∀ i : Intelligence,
     is_high_value_intelligence i = true ↔
       1 ≤ length (upi_ids i)
       ∨ (1 ≤ length (phone_numbers i) ∧ 1 ≤ length (phishing_links i))
       ∨ 1 ≤ length (bank_accounts i))
  ∧ (∀ handle : string,
       is_high_value_intelligence
         {| upi_ids := [handle]; phone_numbers := []; bank_accounts := [];
            phishing_links := []; suspicious_keywords := [] |} = true).
Proof.
  split; [|done].
  intros i. unfold is_high_value_intelligence.
  rewrite !orb_true_iff, andb_true_iff, !Nat.ltb_lt. lia.
Qed.

(** ** The conclusion policy *)

(** C2. An engaged session whose conclusion flag is not set and which has
    fewer than 8 messages received at or after the engagement time is not
    concluded, whatever its intelligence bundle and its total number of
    messages are; the call leaves the state as it was. *)
Theorem engagement_floor (env : Env) (w : World) (sid : string) (s : Session)
    (t : string) :
  sessions w !! sid = Some s →
  agent_engaged s = true →
  should_conclude s = false →
  agent_engaged_at s = Some t →
  length (filter (λ msg, String.leb t (datetime msg) = true) (messages s)) < 8 →
  should_conclude_session env sid w = (false, w).
Proof.
  intros Hs Heng Hflag Hat Hcount.
  unfold should_conclude_session, bind.
  rewrite (get_session_Some env w sid s Hs), Hflag, Heng. simpl.
  rewrite (engagement_messages_recorded s t Hat).
  by apply Nat.ltb_lt in Hcount as ->.
Qed.

(** The floor applies to a session of 16 messages with a payment handle in
    its bundle, engaged before the last 5 of them. *)
Lemma engagement_floor_witness :
  is_high_value_intelligence Examples.handle_intelligence = true
  ∧ 15 ≤ length
           (messages (Examples.engaged_session 1 16 12 Examples.handle_intelligence false))
  ∧ should_conclude_session (Examples.sample_env (true, 0.85%float)) "s1"
      (Examples.world_with
         (Examples.engaged_session 1 16 12 Examples.handle_intelligence false))
    = (false,
       Examples.world_with
         (Examples.engaged_session 1 16 12 Examples.handle_intelligence false)).
Proof.
  split; [reflexivity|]. split; [vm_compute; lia|].
  apply (engagement_floor _ _ "s1"
           (Examples.engaged_session 1 16 12 Examples.handle_intelligence false)
           (Examples.stamp 12)).
  - reflexivity.
  - reflexivity.
  - reflexivity.
  - reflexivity.
  - vm_compute. lia.
Defined.

(** C3. An engaged session with at least 8 messages received at or after the
    engagement time and at least 15 messages in all is concluded, whatever
    its intelligence bundle holds. *)
Theorem hard_ceiling (env : Env) (w : World) (sid : string) (s : Session)
    (t : string) :
  sessions w !! sid = Some s →
  agent_engaged s = true →
  agent_engaged_at s = Some t →
  8 ≤ length (filter (λ msg, String.leb t (datetime msg) = true) (messages s)) →
  15 ≤ length (messages s) →
  value (should_conclude_session env sid w) = true.
Proof.
  intros Hs Heng Hat Hcount Htotal.
  rewrite (should_conclude_session_value env w sid s Hs), Heng.
  rewrite (engagement_messages_recorded s t Hat).
  apply Nat.ltb_ge in Hcount as ->.
  apply Nat.leb_le in Htotal as ->.
  by rewrite !orb_true_r.
Qed.

(** The ceiling applies to a session of 15 messages, 8 of them since the
    engagement, with an empty bundle. *)
Lemma hard_ceiling_witness :
  is_high_value_intelligence Examples.empty_intelligence = false
  ∧ value (should_conclude_session (Examples.sample_env (true, 0.85%float)) "s1"
             (Examples.world_with
                (Examples.engaged_session 1 15 8 Examples.empty_intelligence false)))
    = true.
Proof.
  split; [reflexivity|].
  apply (hard_ceiling _ _ "s1"
           (Examples.engaged_session 1 15 8 Examples.empty_intelligence false)
           (Examples.stamp 8)).
  - reflexivity.
  - reflexivity.
  - reflexivity.
  - vm_compute. lia.
  - vm_compute. lia.
Defined.

(** C1. Once [should_conclude_session] has answered true for a session,
    it answers true again after any further calls on the store and the
    handler, made for this or any other session with any arguments, as long
    as the session is not deleted; and after each such run the conclusion
    flag of the session is still set. *)
Theorem conclusion_is_sticky (env : Env) (w : World) (sid : string)
    (cs : list System.call) :
  value (should_conclude_session env sid w) = true →
  Forall (λ c, c ≠ System.DeleteSession sid) cs →
  value (should_conclude_session env sid
           (System.run env cs (world (should_conclude_session env sid w)))) = true
  ∧ System.concluded sid
      (System.run env cs (world (should_conclude_session env sid w))).
Proof.
  intros Hv Hcs.
  destruct (should_conclude_session_true_concluded env w sid Hv) as (s & Hs & Hflag).
  destruct (run_session env cs _ sid s Hs Hcs) as (s' & Hu & Hs').
  pose proof (updates_should_conclude_true s s' Hu Hflag) as Hflag'.
  split; [|by exists s'].
  by rewrite (should_conclude_session_value env _ sid s' Hs'), Hflag'.
Qed.

(** A session concluded at the ceiling stays concluded through
    [Examples.later_calls]. *)
Lemma conclusion_is_sticky_witness :
  value (should_conclude_session (Examples.sample_env (true, 0.85%float)) "s1"
           (System.run (Examples.sample_env (true, 0.85%float)) Examples.later_calls
              (world
                 (should_conclude_session (Examples.sample_env (true, 0.85%float)) "s1"
                    (Examples.world_with
                       (Examples.engaged_session 1 15 8
                          Examples.empty_intelligence false))))))
  = true.
Proof.
  apply (conclusion_is_sticky (Examples.sample_env (true, 0.85%float))
           (Examples.world_with
              (Examples.engaged_session 1 15 8 Examples.empty_intelligence false))
           "s1" Examples.later_calls).
  - vm_compute. reflexivity.
  - unfold Examples.later_calls. repeat constructor; discriminate.
Defined.

(** ** The handler *)

(** C4. A request with a valid key for a session that is not yet marked as
    a scam (stored, or created by this request) is answered from the
    classifier's verdict.  If the verdict is [is_scam] with a confidence
    above 0.7, the session, with the message appended, gets
    [scam_detected], the confidence and [agent_engaged], and the reply is
    the initial engagement reply.  Otherwise the reply is the neutral one
    and the session is the one before with the message appended and nothing
    else changed.  No other session changes and no task is created. *)
Theorem detection_threshold (env : Env) (w : World) (request : Main.IncomingRequest)
    (k1 k2 : option string) :
  let sid := Main.sessionId request in
  let incoming := Main.text (Main.message request) in
  let s0 := value (get_session env sid w) in
  let t0 := ticks (world (get_session env sid w)) in
  let s1 :=
    set_messages
      (messages s0 ++
         [{| sender := Main.sender_value (Main.sender (Main.message request));
             text := incoming;
             timestamp := Main.timestamp (Main.message request);
             datetime := clock env t0 |}]) s0 in
  let answer :=
    detect_scam env (S t0) incoming (Main.conversationHistory request)
                (Main.metadata request) in
  let r := Main.chat_endpoint env request k1 k2 w in
  Main.header_or k1 k2 = Some (API_KEY env) →
  API_KEY env ≠ "" →
  scam_detected s0 = false →
  (answer.1 = true → PrimFloat.ltb 0.7 answer.2 = true →
     value r
     = Main.APIResponse "success"
         (generate_initial_response env (S (S (S t0))) sid incoming
                                    (Main.metadata request))
     ∧ (∃ s', sessions (world r) = <[sid := s']> (sessions w)
              ∧ scam_detected s' = true
              ∧ scam_confidence s' = answer.2
              ∧ agent_engaged s' = true
              ∧ messages s' = messages s1)
     ∧ tasks (world r) = tasks w)
  ∧ (answer.1 = false ∨ PrimFloat.ltb 0.7 answer.2 = false →
     value r
     = Main.APIResponse "success"
         (generate_neutral_response env (S t0) incoming (Main.metadata request))
     ∧ sessions (world r) = <[sid := s1]> (sessions w)
     ∧ scam_detected s1 = false
     ∧ tasks (world r) = tasks w).
Proof.
  intros sid incoming s0 t0 s1 answer r Hkey Hne Hundetected.
  assert (r = Main.chat_endpoint env request k1 k2 w) as Hr by done.
  unfold Main.chat_endpoint in Hr. rewrite Hkey in Hr.
  destruct (String.eqb_spec (API_KEY env) ""); [done|].
  rewrite String.eqb_refl in Hr. cbn [negb] in Hr.
  rewrite bind_run in Hr. rewrite bind_run in Hr.
  pose proof (get_session_lookup env w sid) as Hs0.
  rewrite (add_message_Some env _ sid s0 _ _ _ Hs0) in Hr.
  cbn [world value fst snd] in Hr.
  rewrite bind_run in Hr.
  rewrite (get_session_Some env _ sid s1) in Hr
    by (cbn [sessions]; apply lookup_insert_eq).
  cbn [world value fst snd] in Hr.
  assert (scam_detected s1 = false) as Hs1 by done.
  rewrite Hs1 in Hr. cbn [andb negb] in Hr.
  rewrite bind_run in Hr. cbn [Main.time value world fst snd ticks] in Hr.
  fold sid incoming t0 in Hr. fold answer in Hr.
  rewrite get_session_sessions, get_session_tasks, insert_insert_eq in Hr.
  fold s0 in Hr.
  destruct answer as [is_scam confidence]. cbn [fst snd].
  split.
  - intros -> Hc. rewrite Hc in Hr. cbn [andb] in Hr.
    rewrite bind_run in Hr.
    rewrite (mark_scam_detected_Some env _ sid s1) in Hr
      by (cbn [sessions]; apply lookup_insert_eq).
    cbn [world value fst snd sessions ticks tasks] in Hr.
    rewrite bind_run in Hr.
    rewrite (engage_agent_Some env _ sid (set_scam_detected confidence (clock env (S t0)) s1))
      in Hr by (cbn [sessions]; apply lookup_insert_eq).
    cbn [world value fst snd sessions ticks tasks] in Hr.
    rewrite !insert_insert_eq in Hr.
    rewrite Hr. cbn. split_and!; [done| |done].
    eexists. split; [done|]. done.
  - intros Hc.
    assert (is_scam && PrimFloat.ltb 0.7 confidence = false) as Hb.
    { destruct Hc as [->| ->]; [done|apply andb_false_r]. }
    rewrite Hb in Hr. rewrite Hr. done.
Qed.

(** The two verdicts of the specification's scenarios, on a first request
    for a new session: confidence 0.85 engages, confidence 0.65 does not. *)
Lemma detection_threshold_witness :
  (value (Main.chat_endpoint (Examples.sample_env (true, 0.85%float))
            (Examples.sample_request "s1" "Your account is blocked")
            (Some "secret") None System.initial)
   = Main.APIResponse "success" "Oh no, what happened to my account?")
  ∧ (value (Main.chat_endpoint (Examples.sample_env (true, 0.65%float))
              (Examples.sample_request "s1" "Your account is blocked")
              (Some "secret") None System.initial)
     = Main.APIResponse "success" "Hello, who is this?").
Proof.
  split.
  - apply (detection_threshold (Examples.sample_env (true, 0.85%float))
             System.initial (Examples.sample_request "s1" "Your account is blocked")
             (Some "secret") None); [reflexivity|done|reflexivity|reflexivity|reflexivity].
  - apply (detection_threshold (Examples.sample_env (true, 0.65%float))
             System.initial (Examples.sample_request "s1" "Your account is blocked")
             (Some "secret") None); [reflexivity|done|reflexivity|].
    right. reflexivity.
Defined.

Section Concluding.
Context (env : Env).

Lemma set_should_conclude_id s :
  should_conclude s = true → set_should_conclude s = s.
Proof. destruct s. simpl. by intros ->. Qed.

(** A request with a valid key for an engaged session on which the policy
    answers true. *)
Lemma chat_endpoint_concluding w request k1 k2 s :
  Main.header_or k1 k2 = Some (API_KEY env) →
  API_KEY env ≠ "" →
  sessions w !! Main.sessionId request = Some s →
  scam_detected s = true →
  agent_engaged s = true →
  value (should_conclude_session env (Main.sessionId request)
           (world (add_message env (Main.sessionId request)
                     (Main.sender_value (Main.sender (Main.message request)))
                     (Main.text (Main.message request))
                     (Main.timestamp (Main.message request)) w))) = true →
  Main.chat_endpoint env request k1 k2 w
  = (Main.APIResponse "success"
       (generate_final_response env (S (ticks w)) (Main.sessionId request)
          (messages s ++ [System.received env request (ticks w)]) (Main.metadata request)),
     {| sessions :=
          <[Main.sessionId request :=
              set_should_conclude
                (set_messages (messages s ++ [System.received env request (ticks w)]) s)]>
            (sessions w);
        ticks := S (ticks w);
        tasks := tasks w ++ [Main.sessionId request] |}).
Proof.
  intros Hkey Hne Hs Hdet Heng Hv.
  unfold Main.chat_endpoint. rewrite Hkey.
  destruct (String.eqb_spec (API_KEY env) ""); [done|].
  rewrite String.eqb_refl. cbn [negb].
  set (sid := Main.sessionId request) in *.
  set (s1 := set_messages (messages s ++ [System.received env request (ticks w)]) s).
  rewrite (add_message_Some env w sid s _ _ _ Hs) in Hv. cbn [world snd] in Hv.
  fold (System.received env request (ticks w)) in Hv. fold s1 in Hv.
  rewrite bind_run, (get_session_Some env w sid s Hs). cbn [world value fst snd].
  rewrite bind_run, (add_message_Some env w sid s _ _ _ Hs). cbn [world value fst snd].
  fold (System.received env request (ticks w)). fold s1.
  set (w1 := {| sessions := <[sid:=s1]> (sessions w); ticks := S (ticks w);
                tasks := tasks w |}) in *.
  assert (sessions w1 !! sid = Some s1) as Hs1 by apply lookup_insert_eq.
  rewrite bind_run, (get_session_Some env w1 sid s1 Hs1). cbn [world value fst snd].
  assert (scam_detected s1 && agent_engaged s1 = true) as ->
    by (cbn; by rewrite Hdet, Heng).
  rewrite bind_run, Hv.
  rewrite (should_conclude_session_world env w1 sid s1 Hs1), Hv. cbn [andb].
  destruct (should_conclude s1) eqn:Hflag; cbn [negb].
  - rewrite (set_should_conclude_id s1 Hflag). unfold w1. cbn. done.
  - unfold w1. cbn. by rewrite insert_insert_eq.
Qed.

(** Requests and callback tasks keep a closed session closed, and its
    bundle as it is. *)
Lemma closed_with_run_call sid i (c : System.call) w :
  System.handler_call c →
  System.closed_with sid i w →
  System.closed_with sid i (System.run_call env c w).
Proof.
  intros Hc (s & Hs & Hdet & Heng & Hflag & Hi).
  destruct c as [| | | | | | | | |request k1 k2|sid']; try done; simpl.
  - destruct (decide (Main.sessionId request = sid)) as [Heq|Hne].
    + destruct (Main.header_or k1 k2) as [key|] eqn:Hkey;
        [|unfold Main.chat_endpoint; rewrite Hkey; by exists s].
      destruct (String.eqb_spec key "") as [->|Hne];
        [unfold Main.chat_endpoint; rewrite Hkey; by exists s|].
      destruct (String.eqb_spec key (API_KEY env)) as [->|Hbad].
      * rewrite <- Heq in Hs.
        rewrite (chat_endpoint_concluding w request k1 k2 s Hkey Hne Hs Hdet Heng).
        -- eexists. split.
           { cbn [world snd sessions]. rewrite Heq. apply lookup_insert_eq. }
           by cbn.
        -- rewrite (add_message_Some env w _ s _ _ _ Hs). cbn [world snd].
           erewrite should_conclude_session_value
             by (cbn [sessions]; apply lookup_insert_eq).
           cbn. by rewrite Hflag.
      * unfold Main.chat_endpoint. rewrite Hkey.
        destruct (String.eqb_spec key ""); [done|].
        destruct (String.eqb_spec key (API_KEY env)); [done|]. by exists s.
    + exists s. split; [|done].
      destruct (acts_on_chat_endpoint env request k1 k2 w)
        as [->|(s0 & s' & _ & _ & ->)]; [done|].
      by rewrite lookup_insert_ne.
  - unfold Main.send_final_callback.
    destruct (sessions w !! sid') as [s0|] eqn:Hs0; [|by exists s].
    destruct (post_callback _ _ _) as [status_code|]; [|by exists s].
    destruct (bool_decide (status_code = 200)); [|by exists s].
    rewrite bind_run. cbn [ret world snd].
    unfold mark_callback_sent, bind.
    rewrite (get_session_Some env w sid' s0 Hs0).
    destruct (decide (sid' = sid)) as [->|Hne].
    + eexists. split; [simpl; apply lookup_insert_eq|].
      assert (s0 = s) as -> by congruence. by cbn.
    + exists s. split; [|done].
      simpl. by rewrite lookup_insert_ne.
Qed.

Lemma closed_with_run sid i (cs : list System.call) w :
  Forall System.handler_call cs →
  System.closed_with sid i w →
  System.closed_with sid i (System.run env cs w).
Proof.
  intros Hcs. revert w. induction Hcs as [|c cs Hc _ IH]; intros w Hw; [done|].
  simpl. by apply IH, closed_with_run_call.
Qed.

End Concluding.

(** C10. On the request for which [should_conclude_session] answers true
    for an engaged session, the handler answers with the final reply and
    creates the callback task, and the extractor is not applied to the
    message of that request: the session's [extracted_intelligence] is what
    it was before the request.  It stays so through all later requests and
    callback tasks, so that the report the task sends carries the bundle
    from before the concluding message. *)
Theorem concluding_turn_skips_extraction (env : Env) (w : World)
    (request : Main.IncomingRequest) (k1 k2 : option string) (s : Session) :
  Main.header_or k1 k2 = Some (API_KEY env) →
  API_KEY env ≠ "" →
  sessions w !! Main.sessionId request = Some s →
  scam_detected s = true →
  agent_engaged s = true →
  value (should_conclude_session env (Main.sessionId request)
           (world (add_message env (Main.sessionId request)
                     (Main.sender_value (Main.sender (Main.message request)))
                     (Main.text (Main.message request))
                     (Main.timestamp (Main.message request)) w))) = true →
  value (Main.chat_endpoint env request k1 k2 w)
  = Main.APIResponse "success"
      (generate_final_response env (S (ticks w)) (Main.sessionId request)
         (messages s ++ [System.received env request (ticks w)])
         (Main.metadata request))
  ∧ tasks (world (Main.chat_endpoint env request k1 k2 w))
    = tasks w ++ [Main.sessionId request]
  ∧ (∃ s', sessions (world (Main.chat_endpoint env request k1 k2 w))
           = <[Main.sessionId request := s']> (sessions w)
           ∧ extracted_intelligence s' = extracted_intelligence s
           ∧ messages s' = messages s ++ [System.received env request (ticks w)])
  ∧ (∀ cs : list System.call,
       Forall System.handler_call cs →
       ∃ s'', sessions (System.run env cs (world (Main.chat_endpoint env request k1 k2 w)))
                !! Main.sessionId request = Some s''
              ∧ extracted_intelligence s'' = extracted_intelligence s
              ∧ value (Main.send_final_callback env (Main.sessionId request)
                         (System.run env cs
                            (world (Main.chat_endpoint env request k1 k2 w))))
                = Some (Main.callback_payload (Main.sessionId request) s'')
              ∧ extractedIntelligence
                  (Main.callback_payload (Main.sessionId request) s'')
                = extractedIntelligence
                    (Main.callback_payload (Main.sessionId request) s)).
Proof.
  intros Hkey Hne Hs Hdet Heng Hv.
  rewrite (chat_endpoint_concluding env w request k1 k2 s Hkey Hne Hs Hdet Heng Hv).
  cbn [value world fst snd tasks sessions].
  split_and!; [done|done|by eexists| ].
  intros cs Hcs.
  destruct (closed_with_run env (Main.sessionId request) (extracted_intelligence s) cs
              {| sessions :=
                   <[Main.sessionId request :=
                       set_should_conclude
                         (set_messages
                            (messages s ++ [System.received env request (ticks w)]) s)]>
                     (sessions w);
                 ticks := S (ticks w);
                 tasks := tasks w ++ [Main.sessionId request] |} Hcs)
    as (s'' & Hs'' & _ & _ & _ & Hi).
  { eexists. split; [apply lookup_insert_eq|]. by cbn. }
  exists s''. split_and!; [done|done| |].
  - unfold Main.send_final_callback. rewrite Hs''.
    destruct (post_callback _ _ _) as [status_code|]; [|done].
    destruct (bool_decide (status_code = 200)); [|done].
    by rewrite bind_run.
  - unfold Main.callback_payload. cbn. by rewrite Hi.
Qed.

(** The tenth message of an engaged session holding a payment handle: the
    policy answers true, the bank account number in the message is not
    extracted. *)
Lemma concluding_turn_skips_extraction_witness :
  bank_accounts (extract_from_message "my account number is 123456789012")
  = ["123456789012"]
  ∧ ∃ s', sessions
            (world
               (Main.chat_endpoint (Examples.sample_env (true, 0.85%float))
                  (Examples.sample_request "s1" "my account number is 123456789012")
                  (Some "secret") None
                  (Examples.world_with
                     (Examples.engaged_session 30 9 30
                        Examples.handle_intelligence false))))
          = <["s1" := s']>
              (sessions
                 (Examples.world_with
                    (Examples.engaged_session 30 9 30
                       Examples.handle_intelligence false)))
          ∧ extracted_intelligence s' = Examples.handle_intelligence
          ∧ messages s'
            = messages (Examples.engaged_session 30 9 30
                          Examples.handle_intelligence false)
              ++ [System.received (Examples.sample_env (true, 0.85%float))
                    (Examples.sample_request "s1" "my account number is 123456789012")
                    40].
Proof.
  split; [vm_compute; reflexivity|].
  apply (concluding_turn_skips_extraction
           (Examples.sample_env (true, 0.85%float))
           (Examples.world_with
              (Examples.engaged_session 30 9 30 Examples.handle_intelligence false))
           (Examples.sample_request "s1" "my account number is 123456789012")
           (Some "secret") None
           (Examples.engaged_session 30 9 30 Examples.handle_intelligence false)).
  - reflexivity.
  - done.
  - reflexivity.
  - reflexivity.
  - reflexivity.
  - vm_compute. reflexivity.
Defined.

(** ** Accumulation of intelligence *)

Lemma fields_cases (P : Bundle.field → Prop) :
  P upi_ids → P phone_numbers → P bank_accounts → P phishing_links →
  P suspicious_keywords →
  ∀ f, f ∈ Bundle.fields → P f.
Proof.
  intros H1 H2 H3 H4 H5 f Hf. unfold Bundle.fields in Hf.
  repeat (apply elem_of_cons in Hf as [->|Hf]; [done|]).
  by apply elem_of_nil in Hf.
Qed.

Lemma entries_merge_key (current new : list string) :
  (list_to_set (merge_key current new) : gset string)
  = list_to_set current ∪ list_to_set new.
Proof. unfold merge_key. apply list_to_set_elements_L. Qed.

Lemma entries_merge_intelligence f current new :
  f ∈ Bundle.fields →
  Bundle.entries f (merge_intelligence current new)
  = Bundle.entries f current ∪ Bundle.entries f new
  ∧ NoDup (f (merge_intelligence current new)).
Proof.
  revert f.
  apply fields_cases;
    (split; [apply entries_merge_key|cbn; unfold merge_key; apply NoDup_elements]).
Qed.

(** The sets built by the loop of [extract_from_conversation], from any
    starting value. *)
Lemma foldl_aggregate_message (msgs : list (gmap string string)) (a : Aggregated) :
  let a' := foldl aggregate_message a msgs in
  let extracted f :=
    ⋃ ((λ msg, Bundle.entries f (extract_from_message (Bundle.message_text msg)))
         <$> msgs) in
  agg_upi_ids a' = agg_upi_ids a ∪ extracted upi_ids
  ∧ agg_phone_numbers a' = agg_phone_numbers a ∪ extracted phone_numbers
  ∧ agg_bank_accounts a' = agg_bank_accounts a ∪ extracted bank_accounts
  ∧ agg_phishing_links a' = agg_phishing_links a ∪ extracted phishing_links
  ∧ agg_suspicious_keywords a'
    = agg_suspicious_keywords a ∪ extracted suspicious_keywords.
Proof.
  revert a. induction msgs as [|msg msgs IH]; intros a; simpl.
  - by rewrite !(right_id_L ∅ (∪)).
  - destruct (IH (aggregate_message a msg)) as (-> & -> & -> & -> & ->).
    unfold aggregate_message, Bundle.entries, Bundle.message_text. simpl.
    by rewrite !(assoc_L (∪)).
Qed.

Lemma entries_extract_from_conversation f (msgs : list (gmap string string)) :
  f ∈ Bundle.fields →
  Bundle.entries f (extract_from_conversation msgs)
  = ⋃ ((λ msg, Bundle.entries f (extract_from_message (Bundle.message_text msg)))
         <$> msgs)
  ∧ NoDup (f (extract_from_conversation msgs)).
Proof.
  destruct (foldl_aggregate_message msgs empty_aggregated) as (H1 & H2 & H3 & H4 & H5).
  revert f.
  apply fields_cases;
    (split; [|unfold extract_from_conversation; cbn; apply NoDup_elements]);
    unfold Bundle.entries, extract_from_conversation; cbn [upi_ids phone_numbers
      bank_accounts phishing_links suspicious_keywords];
    rewrite list_to_set_elements_L.
  - rewrite H1. apply (left_id_L ∅ (∪)).
  - rewrite H2. apply (left_id_L ∅ (∪)).
  - rewrite H3. apply (left_id_L ∅ (∪)).
  - rewrite H4. apply (left_id_L ∅ (∪)).
  - rewrite H5. apply (left_id_L ∅ (∪)).
Qed.

(** C9. [update_intelligence] replaces every key of the session's bundle by
    the union, as a set and without duplicates, of what it held and what the
    new bundle holds under that key; [extract_from_conversation] gives under
    every key the union of what [extract_from_message] gives for the single
    messages, without duplicates.  The aggregate is therefore the same for
    any order of the messages and when a message is processed again, and
    merging a bundle a second time changes nothing. *)
Theorem intelligence_accumulates_by_union :
  (∀ (env : Env) (w : World) (sid : string) (new : Intelligence),
     ∃ s', sessions (world (update_intelligence env sid new w)) !! sid = Some s'
           ∧ ∀ f, f ∈ Bundle.fields →
               Bundle.entries f (extracted_intelligence s')
               = Bundle.entries f (extracted_intelligence (value (get_session env sid w)))
                 ∪ Bundle.entries f new
               ∧ NoDup (f (extracted_intelligence s')))
  ∧ (∀ (msgs : list (gmap string string)) f, f ∈ Bundle.fields →
       Bundle.entries f (extract_from_conversation msgs)
       = ⋃ ((λ msg, Bundle.entries f (extract_from_message (Bundle.message_text msg)))
              <$> msgs)
       ∧ NoDup (f (extract_from_conversation msgs)))
  ∧ (∀ (msgs msgs' : list (gmap string string)) f, f ∈ Bundle.fields →
       msgs ≡ₚ msgs' →
       Bundle.entries f (extract_from_conversation msgs)
       = Bundle.entries f (extract_from_conversation msgs'))
  ∧ (∀ (msgs : list (gmap string string)) msg f, f ∈ Bundle.fields →
       msg ∈ msgs →
       Bundle.entries f (extract_from_conversation (msgs ++ [msg]))
       = Bundle.entries f (extract_from_conversation msgs))
  ∧ (∀ (current new : Intelligence) f, f ∈ Bundle.fields →
       Bundle.entries f (merge_intelligence (merge_intelligence current new) new)
       = Bundle.entries f (merge_intelligence current new)).
Proof.
  split_and!.
  - intros env w sid new.
    pose proof (get_session_lookup env w sid) as Hs.
    eexists. split.
    + unfold update_intelligence. rewrite bind_run. cbn [put_session world snd sessions].
      apply lookup_insert_eq.
    + intros f Hf. cbn. by apply entries_merge_intelligence.
  - intros msgs f Hf. by apply entries_extract_from_conversation.
  - intros msgs msgs' f Hf Hp.
    rewrite !(proj1 (entries_extract_from_conversation f _ Hf)).
    apply set_eq. intros x. rewrite !elem_of_union_list.
    split; intros (X & HX & Hx); exists X; (split; [|done]).
    + by rewrite <- Hp.
    + by rewrite Hp.
  - intros msgs msg f Hf Hin.
    rewrite !(proj1 (entries_extract_from_conversation f _ Hf)).
    rewrite fmap_app, union_list_app_L. simpl. rewrite (right_id_L ∅ (∪)).
    apply set_eq. intros x. rewrite elem_of_union, elem_of_union_list.
    split; [|by left].
    intros [Hx|Hx]; [done|]. eexists. split; [|done].
    apply list_elem_of_fmap. by exists msg.
  - intros current new f Hf.
    rewrite (proj1 (entries_merge_intelligence f (merge_intelligence current new) new Hf)).
    rewrite (proj1 (entries_merge_intelligence f current new Hf)).
    by rewrite <- (assoc_L (∪)), (idemp_L (∪)).
Qed.

(** Two messages give the same payment handles in either order. *)
Lemma intelligence_accumulates_by_union_witness :
  Bundle.entries upi_ids
    (extract_from_conversation [Examples.history_first; Examples.history_second])
  = Bundle.entries upi_ids
      (extract_from_conversation [Examples.history_second; Examples.history_first]).
Proof.
  apply (proj1 (proj2 (proj2 intelligence_accumulates_by_union))).
  - unfold Bundle.fields. apply list_elem_of_here.
  - apply Permutation_swap.
Defined.

(** ** The extractor *)

Lemma contains_app_r (needle s1 s2 : string) :
  contains needle s2 = true → contains needle (s1 +:+ s2) = true.
Proof.
  intros H. induction s1 as [|c s1 IH]; [done|].
  rewrite app_String. simpl.
  destruct (strip_prefix needle (String c (s1 +:+ s2))); [done|]. exact IH.
Qed.

Lemma lower_app (s1 s2 : string) : lower (s1 +:+ s2) = lower s1 +:+ lower s2.
Proof.
  induction s1 as [|c s1 IH]; [done|]. rewrite app_String. simpl.
  by rewrite app_String, IH.
Qed.

Lemma elem_of_upi_ids (message tok : string) :
  tok ∈ upi_ids (extract_from_message message) ↔
    tok ∈ findall upi_pattern message
    ∧ ∃ bank, bank ∈ upi_banks ∧ contains bank (lower tok) = true.
Proof.
  unfold extract_from_message. cbn [upi_ids].
  rewrite elem_of_list_of_set, list_elem_of_filter, existsb_exists.
  setoid_rewrite <- list_elem_of_In. tauto.
Qed.

Lemma domain_part_app (l domain : string) :
  all_chars word_dot_dash l = true →
  Bundle.domain_part (l +:+ "@" +:+ domain) = domain.
Proof.
  induction l as [|c l IH]; [done|].
  rewrite app_String. cbn -[Ascii.eqb]. intros [Hc Hl]%andb_true_iff.
  destruct (Ascii.eqb_spec c "@") as [->|_]; [by vm_compute in Hc|]. by apply IH.
Qed.

(** C6, as the code has it.  A token found by the handle pattern has the
    shape local-part [@] domain-part, and it is emitted as a payment-handle
    candidate exactly when the token as a whole, in lower case, contains
    one of the eight allow-listed names.  A token whose domain part
    contains such a name is therefore emitted, and so is ["9876543210@paytm"]
    wherever it is found. *)
Theorem upi_candidates :
  (∀ message tok : string,
     tok ∈ upi_ids (extract_from_message message) ↔
       tok ∈ findall upi_pattern message
       ∧ ∃ bank, bank ∈ upi_banks ∧ contains bank (lower tok) = true)
  ∧ (∀ message tok : string,
       tok ∈ findall upi_pattern message →
       (∃ l domain, tok = l +:+ "@" +:+ domain
                    ∧ 1 ≤ String.length l ∧ all_chars word_dot_dash l = true
                    ∧ 1 ≤ String.length domain ∧ all_chars word_dash domain = true
                    ∧ Bundle.domain_part tok = domain)
       ∧ (Bundle.allow_listed (Bundle.domain_part tok) = true →
          tok ∈ upi_ids (extract_from_message message)))
  ∧ (∀ message : string,
       "9876543210@paytm" ∈ findall upi_pattern message →
       "9876543210@paytm" ∈ upi_ids (extract_from_message message))
  ∧ upi_ids (extract_from_message "send the money to 9876543210@paytm today")
    = ["9876543210@paytm"].
Proof.
  split_and!.
  - apply elem_of_upi_ids.
  - intros message tok Hin.
    destruct (findall_upi_shape message tok Hin)
      as (l & domain & -> & Hl1 & Hl2 & Hd1 & Hd2).
    rewrite (domain_part_app l domain Hl2). split; [eauto 10|].
    unfold Bundle.allow_listed. rewrite existsb_exists.
    intros (bank & Hbank%list_elem_of_In & Hc).
    apply elem_of_upi_ids. split; [done|]. exists bank. split; [done|].
    rewrite !lower_app. by do 2 apply contains_app_r.
  - intros message Hin. apply elem_of_upi_ids. split; [done|].
    exists "paytm". split; [|by vm_compute].
    unfold upi_banks. apply list_elem_of_here.
  - by vm_compute.
Qed.

(** The handle pattern finds ["9876543210@paytm"] in a message, and the
    extractor emits it. *)
Lemma upi_candidates_witness :
  "9876543210@paytm" ∈ upi_ids (extract_from_message "pay 9876543210@paytm now").
Proof.
  apply (proj1 (proj2 (proj2 upi_candidates)) "pay 9876543210@paytm now").
  vm_compute. apply list_elem_of_here.
Defined.

(** C6, as stated, fails: the token found in an e-mail address of the
    provider's name is emitted although its domain part, [gmail], contains
    none of the allow-listed names. *)
Lemma upi_domain_counterexample :
  findall upi_pattern "write to paytm.help@gmail.com" = ["paytm.help@gmail"]
  ∧ upi_ids (extract_from_message "write to paytm.help@gmail.com")
    = ["paytm.help@gmail"]
  ∧ Bundle.domain_part "paytm.help@gmail" = "gmail"
  ∧ Bundle.allow_listed "gmail" = false.
Proof. by vm_compute. Qed.

Lemma elem_of_phone_numbers (message p : string) :
  p ∈ phone_numbers (extract_from_message message) ↔
    ∃ found, found ∈ findall phone_pattern message
             ∧ clean_phone found = p ∧ String.length p = 10.
Proof.
  unfold extract_from_message. cbn [phone_numbers].
  rewrite elem_of_list_of_set. apply elem_of_cleaned_phones.
Qed.

Lemma phone_numbers_shape (message p : string) :
  p ∈ phone_numbers (extract_from_message message) →
  String.length p = 10 ∧ all_chars is_digit p = true
  ∧ ∃ d ds, p = String d ds ∧ six_to_nine d = true.
Proof.
  intros (found & Hin & <- & Hlen)%elem_of_phone_numbers.
  destruct (findall_phone_shape message found Hin)
    as (prefix & d & ds & -> & Hprefix & Hd & Hds & Hdigits).
  rewrite (clean_phone_kept prefix d ds Hprefix Hd Hds Hlen).
  split_and!; [simpl; lia| |eauto].
  simpl. by rewrite (six_to_nine_is_digit d Hd), Hdigits.
Qed.

(** C7, as the code has it.  The phone-number candidates are the matches of
    the phone pattern with an optional prefix [+91], [91] or [0] removed,
    kept when exactly 10 characters remain; every candidate consists of 10
    digits, the first of them 6 to 9.  The pattern takes the digits without
    gaps: ["+919876543210"] gives the candidate ["9876543210"], and
    ["+91 98765 43210"] gives none. *)
Theorem phone_candidates :
  (∀ message p : string,
     p ∈ phone_numbers (extract_from_message message) ↔
       ∃ found, found ∈ findall phone_pattern message
                ∧ clean_phone found = p ∧ String.length p = 10)
  ∧ (∀ message p : string,
       p ∈ phone_numbers (extract_from_message message) →
       String.length p = 10 ∧ all_chars is_digit p = true
       ∧ ∃ d ds, p = String d ds ∧ six_to_nine d = true)
  ∧ phone_numbers (extract_from_message "+919876543210") = ["9876543210"]
  ∧ phone_numbers (extract_from_message "+91 98765 43210") = [].
Proof.
  split_and!; [apply elem_of_phone_numbers|apply phone_numbers_shape
              |by vm_compute|by vm_compute].
Qed.

(** The candidate found in ["call +919876543210"] has the stated form. *)
Lemma phone_candidates_witness :
  String.length "9876543210" = 10 ∧ all_chars is_digit "9876543210" = true
  ∧ ∃ d ds, "9876543210" = String d ds ∧ six_to_nine d = true.
Proof.
  apply (proj1 (proj2 phone_candidates) "call +919876543210" "9876543210").
  vm_compute. apply list_elem_of_here.
Defined.

(** C7, as stated, fails on the scenario of the specification: the text
    with spaces between the groups of digits gives no phone candidate. *)
Lemma phone_scenario_counterexample :
  "9876543210" ∉ phone_numbers (extract_from_message "+91 98765 43210").
Proof. vm_compute. apply not_elem_of_nil. Qed.

(** C8, on the code.  The bank-account candidates are the matches of the
    account pattern that are not among the phone candidates and have at
    least 11 digits; they are runs of 11 to 18 digits, and ["123456789012"]
    is one.  But a phone candidate has 10 digits, so the test against the
    phone candidates excludes nothing: a phone number written with the
    prefix [91] is a phone candidate and the whole run is a bank-account
    candidate as well. *)
Theorem bank_account_candidates :
  (∀ message acc : string,
     acc ∈ bank_accounts (extract_from_message message) ↔
       acc ∈ findall bank_account_pattern message
       ∧ (acc ∉ phone_numbers (extract_from_message message))
       ∧ (11 ≤ String.length acc))
  ∧ (∀ message acc : string,
       acc ∈ bank_accounts (extract_from_message message) ↔
         acc ∈ findall bank_account_pattern message ∧ (11 ≤ String.length acc))
  ∧ (∀ message acc : string,
       acc ∈ bank_accounts (extract_from_message message) →
       11 ≤ String.length acc ≤ 18 ∧ all_chars is_digit acc = true)
  ∧ bank_accounts (extract_from_message "123456789012") = ["123456789012"]
  ∧ phone_numbers (extract_from_message "919876543210") = ["9876543210"]
  ∧ bank_accounts (extract_from_message "919876543210") = ["919876543210"].
Proof.
  assert (∀ message acc : string,
            acc ∈ bank_accounts (extract_from_message message) ↔
              acc ∈ findall bank_account_pattern message
              ∧ (acc ∉ phone_numbers (extract_from_message message))
              ∧ (11 ≤ String.length acc)) as Hiff.
  { intros message acc. unfold extract_from_message.
    cbn [bank_accounts phone_numbers].
    rewrite !elem_of_list_of_set, list_elem_of_filter. tauto. }
  split_and!; [done| | |by vm_compute|by vm_compute|by vm_compute].
  - intros message acc. rewrite Hiff. split; [tauto|].
    intros [Hin Hlen]. split_and!; [done| |done].
    intros [Hten _]%phone_numbers_shape. lia.
  - intros message acc (Hin & _ & Hlen)%Hiff.
    destruct (findall_bank_account_shape message acc Hin) as [Hrun Hdigits].
    split; [lia|done].
Qed.

(** * Further properties of the code *)

(** ** The extractor: what the candidates are made of *)

Lemma app_assoc_text (s1 s2 s3 : string) : (s1 +:+ s2) +:+ s3 = s1 +:+ s2 +:+ s3.
Proof. induction s1 as [|c s1 IH]; [done|]. by rewrite !app_String, IH. Qed.

(** Every text returned by [findall] stands in the searched text. *)
Lemma findall_from_within (re : regex) skip prev (s x : string) :
  x ∈ findall_from re skip prev s → ∃ pre post, s = pre +:+ x +:+ post.
Proof.
  revert skip prev. induction s as [|c s IH]; intros skip prev.
  - destruct skip as [|k]; simpl; [|by intros ?%elem_of_nil].
    destruct (match_re re prev "") as [n|]; [|by intros ?%elem_of_nil].
    intros ->%list_elem_of_singleton. exists "", "". by destruct n.
  - assert (∀ k prev', x ∈ findall_from re k prev' s →
              ∃ pre post, String c s = pre +:+ x +:+ post) as Htail.
    { intros k prev' (pre & post & ->)%IH. by exists (String c pre), post. }
    destruct skip as [|k]; simpl; [|by apply Htail].
    destruct (match_re re prev (String c s)) as [n|]; [|by apply Htail].
    intros [->|H]%elem_of_cons; [|by apply Htail in H].
    exists "", (drop n (String c s)). by rewrite app_empty, take_drop.
Qed.

Lemma contains_within (x pre post : string) :
  contains x (pre +:+ x +:+ post) = true.
Proof.
  apply contains_app_r.
  assert (∀ hay, strip_prefix x hay ≠ None → contains x hay = true) as H.
  { intros [|c hay] Hs; simpl; by destruct (strip_prefix x _). }
  apply H. by rewrite strip_prefix_app.
Qed.

Lemma findall_contains (re : regex) (s x : string) :
  x ∈ findall re s → contains x s = true.
Proof. intros (pre & post & ->)%findall_from_within. apply contains_within. Qed.

(** Cleaning a phone match removes a prefix of it, or nothing. *)
Lemma clean_phone_suffix (phone : string) :
  ∃ removed, phone = removed +:+ clean_phone phone.
Proof.
  unfold clean_phone.
  destruct (strip_prefix "+91" phone) as [rest|] eqn:H1;
    [exists "+91"; by apply strip_prefix_Some|].
  destruct (strip_prefix "91" phone) as [rest|] eqn:H2;
    [exists "91"; by apply strip_prefix_Some|].
  destruct (strip_prefix "0" phone) as [rest|] eqn:H3;
    [exists "0"; by apply strip_prefix_Some|].
  by exists "".
Qed.

Lemma elem_of_phishing_links (message link : string) :
  link ∈ phishing_links (extract_from_message message) ↔
    link ∈ findall url_pattern message.
Proof. unfold extract_from_message. cbn [phishing_links]. apply elem_of_list_of_set. Qed.

Lemma elem_of_bank_accounts (message acc : string) :
  acc ∈ bank_accounts (extract_from_message message) →
  acc ∈ findall bank_account_pattern message.
Proof.
  unfold extract_from_message. cbn [bank_accounts].
  rewrite elem_of_list_of_set, list_elem_of_filter. tauto.
Qed.

Lemma elem_of_suspicious_keywords (message keyword : string) :
  keyword ∈ suspicious_keywords (extract_from_message message) ↔
    keyword ∈ suspicious_keyword_list ∧ contains keyword (lower message) = true.
Proof.
  unfold extract_from_message. cbn [suspicious_keywords].
  rewrite elem_of_list_of_set, list_elem_of_filter. tauto.
Qed.

Lemma phone_number_within (message p : string) :
  p ∈ phone_numbers (extract_from_message message) →
  ∃ pre post, message = pre +:+ p +:+ post.
Proof.
  intros (found & (pre & post & ->)%findall_from_within & <- & _)%elem_of_phone_numbers.
  destruct (clean_phone_suffix found) as [removed Hfound].
  exists (pre +:+ removed), post.
  rewrite Hfound at 1. by rewrite !app_assoc_text.
Qed.

(** X1. The extractor takes its candidates from the message: every payment
    handle, phone number, bank account and link it returns is a piece of
    the message text, and every keyword it returns is a word of the fixed
    vocabulary that occurs in the lower-cased message. *)
Theorem candidates_occur_in_message (message c : string) :
  (c ∈ upi_ids (extract_from_message message)
   ∨ c ∈ phone_numbers (extract_from_message message)
   ∨ c ∈ bank_accounts (extract_from_message message)
   ∨ c ∈ phishing_links (extract_from_message message) →
   contains c message = true)
  ∧ (c ∈ suspicious_keywords (extract_from_message message) →
     c ∈ suspicious_keyword_list ∧ contains c (lower message) = true).
Proof.
  split; [|apply elem_of_suspicious_keywords].
  intros [[H _]%elem_of_upi_ids|[H|[H%elem_of_bank_accounts|H%elem_of_phishing_links]]];
    try by apply (findall_contains _ _ _ H).
  destruct (phone_number_within message c H) as (pre & post & ->).
  apply contains_within.
Qed.

Lemma candidates_occur_in_message_witness :
  contains "9876543210" "call 09876543210 today" = true.
Proof.
  apply (proj1 (candidates_occur_in_message "call 09876543210 today" "9876543210")).
  right. left. vm_compute. apply list_elem_of_here.
Defined.

Lemma contains_inv (needle s : string) :
  contains needle s = true → ∃ pre post, s = pre +:+ needle +:+ post.
Proof.
  induction s as [|c s IH]; simpl.
  - destruct (strip_prefix needle "") as [rest|] eqn:H; [|done].
    intros _. exists "", rest. rewrite app_empty. by apply strip_prefix_Some.
  - destruct (strip_prefix needle (String c s)) as [rest|] eqn:H.
    + intros _. exists "", rest. rewrite app_empty. by apply strip_prefix_Some.
    + intros (pre & post & ->)%IH. by exists (String c pre), post.
Qed.

(** [a in x] and [x] a piece of [s] give [a in s]. *)
Lemma contains_in_piece (a x pre post : string) :
  contains a x = true → contains a (pre +:+ x +:+ post) = true.
Proof.
  intros (p & q & ->)%contains_inv.
  rewrite !app_assoc_text, <- (app_assoc_text pre p). apply contains_within.
Qed.

Lemma findall_url_shape (message link : string) :
  link ∈ findall url_pattern message →
  ∃ prefix rest,
    link = prefix +:+ rest
    ∧ prefix ∈ ["http://"; "https://"; "www."; "bit.ly/"; "tinyurl.com/"]
    ∧ 1 ≤ String.length rest ∧ all_chars non_space rest = true.
Proof.
  intros (ats & prev & rest & Hin & Hacc)%findall_accepts.
  unfold url_pattern in Hin. rewrite !elem_of_cons, elem_of_nil in Hin.
  destruct Hin as [->|[->|[->|[->|[]]]]]; invert_accepts;
    rewrite ?app_empty_r;
    match goal with
    | H : _ ∈ ["s"] |- _ => apply list_elem_of_singleton in H as ->
    | _ => idtac
    end;
    [exists "https://", r|exists "http://", r|exists "www.", r|exists "bit.ly/", r
    |exists "tinyurl.com/", r];
    (split_and!; [done| |done|done]); rewrite !elem_of_cons; tauto.
Qed.

(** X2. Every link candidate begins with [http://], [https://], [www.],
    [bit.ly/] or [tinyurl.com/], has at least one more character, and
    contains no white space. *)
Theorem link_candidates_shape (message link : string) :
  link ∈ phishing_links (extract_from_message message) →
  (∃ prefix rest,
     link = prefix +:+ rest
     ∧ prefix ∈ ["http://"; "https://"; "www."; "bit.ly/"; "tinyurl.com/"]
     ∧ 1 ≤ String.length rest)
  ∧ all_chars non_space link = true.
Proof.
  intros (prefix & rest & -> & Hprefix & Hlen & Hrest)%elem_of_phishing_links%findall_url_shape.
  split; [eauto|].
  rewrite all_chars_app, Hrest, andb_true_r.
  rewrite !elem_of_cons, elem_of_nil in Hprefix.
  by destruct Hprefix as [->|[->|[->|[->|[->|[]]]]]].
Qed.

Lemma link_candidates_shape_witness :
  all_chars non_space "https://kyc-update.in/verify" = true.
Proof.
  apply (link_candidates_shape "open https://kyc-update.in/verify now").
  vm_compute. apply list_elem_of_here.
Defined.

(** X3. A message without [@] gives no payment handle; a message without a
    digit gives no phone number and no bank account; a message without
    [://], [www.], [bit.ly/] and [tinyurl.com/] gives no link. *)
Theorem no_marker_no_candidate (message : string) :
  (contains "@" message = false → upi_ids (extract_from_message message) = [])
  ∧ (all_chars (λ c, negb (is_digit c)) message = true →
     phone_numbers (extract_from_message message) = []
     ∧ bank_accounts (extract_from_message message) = [])
  ∧ (contains "://" message = false → contains "www." message = false →
     contains "bit.ly/" message = false → contains "tinyurl.com/" message = false →
     phishing_links (extract_from_message message) = []).
Proof.
  split_and!.
  - intros Hno. apply elem_of_nil_inv. intros tok [Hin _]%elem_of_upi_ids.
    destruct (findall_upi_shape message tok Hin) as (l & domain & -> & _).
    apply findall_from_within in Hin as (pre & post & ->).
    rewrite contains_in_piece in Hno; [done|]. apply contains_within.
  - intros Hno.
    assert (∀ d ds pre post, message = pre +:+ String d ds +:+ post →
              is_digit d = false) as Hd.
    { intros d ds pre post ->.
      rewrite !all_chars_app in Hno. simpl in Hno.
      apply andb_true_iff in Hno as [_ [[Hd _]%andb_true_iff _]%andb_true_iff].
      by apply negb_true_iff. }
    split; apply elem_of_nil_inv.
    + intros p Hp.
      destruct (phone_numbers_shape message p Hp) as (_ & Hdigits & d & ds & -> & _).
      destruct (phone_number_within message _ Hp) as (pre & post & Hm).
      apply Hd in Hm. simpl in Hdigits. by rewrite Hm in Hdigits.
    + intros acc Hacc%elem_of_bank_accounts.
      destruct (findall_bank_account_shape message acc Hacc) as [Hlen Hdigits].
      apply findall_from_within in Hacc as (pre & post & Hm).
      destruct acc as [|d ds]; [simpl in Hlen; lia|].
      apply Hd in Hm. simpl in Hdigits. by rewrite Hm in Hdigits.
  - intros H1 H2 H3 H4. apply elem_of_nil_inv.
    intros link Hin%elem_of_phishing_links.
    destruct (findall_url_shape message link Hin) as (prefix & rest & -> & Hprefix & _).
    apply findall_from_within in Hin as (pre & post & ->).
    rewrite !elem_of_cons, elem_of_nil in Hprefix.
    destruct Hprefix as [->|[->|[->|[->|[->|[]]]]]].
    + rewrite contains_in_piece in H1; [done|]. apply (contains_within _ "http").
    + rewrite contains_in_piece in H1; [done|]. apply (contains_within _ "https").
    + rewrite contains_in_piece in H2; [done|]. exact (contains_within "www." "" rest).
    + rewrite contains_in_piece in H3; [done|]. exact (contains_within "bit.ly/" "" rest).
    + rewrite contains_in_piece in H4; [done|].
      exact (contains_within "tinyurl.com/" "" rest).
Qed.

Lemma no_marker_no_candidate_witness :
  phone_numbers (extract_from_message "send your otp to ramesh@okaxis") = []
  ∧ bank_accounts (extract_from_message "send your otp to ramesh@okaxis") = [].
Proof.
  apply (proj1 (proj2 (no_marker_no_candidate "send your otp to ramesh@okaxis"))).
  reflexivity.
Defined.

Lemma lower_char_idempotent c : lower_char (lower_char c) = lower_char c.
Proof. by destruct c as [[] [] [] [] [] [] [] []]. Qed.

Lemma lower_idempotent (s : string) : lower (lower s) = lower s.
Proof.
  induction s as [|c s IH]; [done|]. simpl. by rewrite lower_char_idempotent, IH.
Qed.

(** X4. The keyword test ignores letter case: two messages that agree up
    to letter case give the same keywords, and so do a message and its
    lower-cased form. *)
Theorem keywords_ignore_case :
  (∀ m1 m2 : string,
     lower m1 = lower m2 →
     suspicious_keywords (extract_from_message m1)
     = suspicious_keywords (extract_from_message m2))
  ∧ (∀ m : string,
       suspicious_keywords (extract_from_message (lower m))
       = suspicious_keywords (extract_from_message m)).
Proof.
  assert (∀ m1 m2 : string,
            lower m1 = lower m2 →
            suspicious_keywords (extract_from_message m1)
            = suspicious_keywords (extract_from_message m2)) as H.
  { intros m1 m2 Heq. unfold extract_from_message. cbn [suspicious_keywords].
    by rewrite Heq. }
  split; [done|]. intros m. apply H, lower_idempotent.
Qed.

Lemma keywords_ignore_case_witness :
  suspicious_keywords (extract_from_message "URGENT: Update your KYC")
  = suspicious_keywords (extract_from_message "urgent: update your kyc").
Proof. apply (proj1 keywords_ignore_case). reflexivity. Defined.

(** ** The value of a bundle under merging *)

Lemma merge_key_nonempty (current new : list string) :
  0 < length current ∨ 0 < length new → 0 < length (merge_key current new).
Proof.
  intros H.
  assert (∃ x, x ∈ merge_key current new) as [x Hx].
  { unfold merge_key. setoid_rewrite elem_of_elements.
    setoid_rewrite elem_of_union. setoid_rewrite elem_of_list_to_set.
    destruct H as [H|H]; [destruct current as [|x ?]|destruct new as [|x ?]];
      simpl in H; try lia; exists x; [left|right]; apply list_elem_of_here. }
  destruct (merge_key current new); [by apply elem_of_nil in Hx|simpl; lia].
Qed.

(** X5. Merging never lowers the value of a bundle: if the session's bundle
    or the new one is of high value, so is the merged bundle that
    [update_intelligence] stores. *)
Theorem high_value_survives_merge (env : Env) (w : World) (sid : string)
    (new : Intelligence) :
  is_high_value_intelligence
    (extracted_intelligence (value (get_session env sid w))) = true
  ∨ is_high_value_intelligence new = true →
  ∃ s', sessions (world (update_intelligence env sid new w)) !! sid = Some s'
        ∧ is_high_value_intelligence (extracted_intelligence s') = true.
Proof.
  intros Hvalue.
  eexists. split.
  { unfold update_intelligence. rewrite bind_run. cbn [put_session world snd sessions].
    apply lookup_insert_eq. }
  cbn [extracted_intelligence set_extracted_intelligence].
  set (current := extracted_intelligence (value (get_session env sid w))) in *.
  unfold is_high_value_intelligence in *. cbn [merge_intelligence upi_ids
    phone_numbers phishing_links bank_accounts].
  rewrite !orb_true_iff, !andb_true_iff, !Nat.ltb_lt in *.
  pose proof (merge_key_nonempty (upi_ids current) (upi_ids new)).
  pose proof (merge_key_nonempty (phone_numbers current) (phone_numbers new)).
  pose proof (merge_key_nonempty (phishing_links current) (phishing_links new)).
  pose proof (merge_key_nonempty (bank_accounts current) (bank_accounts new)).
  lia.
Qed.

Lemma high_value_survives_merge_witness :
  ∃ s', sessions
          (world (update_intelligence (Examples.sample_env (true, 0.85%float)) "s1"
                    Examples.empty_intelligence
                    (Examples.world_with
                       (Examples.engaged_session 1 3 1
                          Examples.handle_intelligence false)))) !! "s1" = Some s'
        ∧ is_high_value_intelligence (extracted_intelligence s') = true.
Proof.
  apply high_value_survives_merge. left. reflexivity.
Defined.

(** X6. [extract_from_conversation] on an empty history gives empty sets,
    and an entry of the history that has no [text] key, wherever it stands,
    adds nothing to the aggregate. *)
Theorem conversation_without_text :
  (∀ f, f ∈ Bundle.fields → Bundle.entries f (extract_from_conversation []) = ∅)
  ∧ (∀ (before after : list (gmap string string)) (msg : gmap string string) f,
       f ∈ Bundle.fields →
       msg !! "text" = None →
       Bundle.entries f (extract_from_conversation (before ++ msg :: after))
       = Bundle.entries f (extract_from_conversation (before ++ after))).
Proof.
  split.
  - intros f Hf. by rewrite (proj1 (entries_extract_from_conversation f [] Hf)).
  - intros before after msg f Hf Hmsg.
    rewrite !(proj1 (entries_extract_from_conversation f _ Hf)).
    rewrite !fmap_app, !union_list_app_L, fmap_cons, union_list_cons.
    unfold Bundle.message_text at 2. rewrite Hmsg. simpl.
    assert (extract_from_message "" = Examples.empty_intelligence) as -> by by vm_compute.
    assert (Bundle.entries f Examples.empty_intelligence = ∅) as ->.
    { revert f Hf. by apply fields_cases. }
    by rewrite (left_id_L ∅ (∪)).
Qed.

Lemma conversation_without_text_witness :
  Bundle.entries upi_ids
    (extract_from_conversation
       ([Examples.history_first] ++ {[ "sender" := "user" ]} :: [Examples.history_second]))
  = Bundle.entries upi_ids
      (extract_from_conversation ([Examples.history_first] ++ [Examples.history_second])).
Proof.
  apply (proj2 conversation_without_text).
  - apply list_elem_of_here.
  - reflexivity.
Defined.

(** ** Phone numbers standing alone *)

(** Every text returned by [findall] is accepted by the pattern at a place
    of the searched text, with what follows it there. *)
Lemma findall_from_located (re : regex) skip prev (s x : string) :
  x ∈ findall_from re skip prev s →
  ∃ pre post ats prev',
    s = pre +:+ x +:+ post ∧ ats ∈ re ∧ accepts ats prev' x post.
Proof.
  revert skip prev. induction s as [|c s IH]; intros skip prev.
  - destruct skip as [|k]; simpl; [|by intros ?%elem_of_nil].
    destruct (match_re re prev "") as [n|] eqn:Hn; [|by intros ?%elem_of_nil].
    intros ->%list_elem_of_singleton.
    destruct (match_re_accepts re prev "" n Hn) as (ats & Hin & Hacc).
    exists "", (drop n ""), ats, prev. by rewrite app_empty, take_drop.
  - assert (∀ k prev', x ∈ findall_from re k prev' s →
              ∃ pre post ats prev'',
                String c s = pre +:+ x +:+ post ∧ ats ∈ re ∧ accepts ats prev'' x post)
      as Htail.
    { intros k prev' (pre & post & ats & prev'' & -> & Hin & Hacc)%IH.
      by exists (String c pre), post, ats, prev''. }
    destruct skip as [|k]; simpl; [|by apply Htail].
    destruct (match_re re prev (String c s)) as [n|] eqn:Hn; [|by apply Htail].
    intros [->|H]%elem_of_cons; [|by apply Htail in H].
    destruct (match_re_accepts re prev _ n Hn) as (ats & Hin & Hacc).
    exists "", (drop n (String c s)), ats, prev. by rewrite app_empty, take_drop.
Qed.

(** X7. A ten-character text that begins with [91] gives no phone
    candidate when it is the whole message: the pattern can only match all
    of it, and cleaning then removes the leading [91] and leaves eight
    characters.  A ten-digit mobile number beginning with 91 is lost in
    this way. *)
Theorem bare_number_starting_91_is_lost (ds : string) :
  String.length ds = 8 →
  phone_numbers (extract_from_message ("91" +:+ ds)) = [].
Proof.
  intros Hlen. apply elem_of_nil_inv.
  intros p (found & Hin & <- & Hten)%elem_of_phone_numbers.
  destruct (findall_phone_shape _ _ Hin) as (prefix & d & rest & -> & _ & _ & Hrest & _).
  apply findall_from_within in Hin as (pre & post & Hm).
  assert (String.length ("91" +:+ ds) = 10) as Hmlen by (rewrite length_app; simpl; lia).
  rewrite Hm, !length_app in Hmlen. simpl in Hmlen.
  destruct pre; [|simpl in Hmlen; lia].
  destruct prefix; [|simpl in Hmlen; lia].
  destruct post; [|simpl in Hmlen; lia].
  rewrite !app_empty, app_empty_r in Hm. rewrite app_empty, <- Hm in Hten.
  change (String.length ds = 10) in Hten. lia.
Qed.

Lemma bare_number_starting_91_is_lost_witness :
  phone_numbers (extract_from_message ("91" +:+ "23456789")) = [].
Proof. apply bare_number_starting_91_is_lost. reflexivity. Defined.

(** *** The matcher finds a match wherever the pattern accepts one *)

Lemma first_some_complete (l : list (option nat)) r :
  Some r ∈ l → is_Some (first_some l).
Proof.
  induction l as [|[x|] l IH]; simpl; [by intros ?%elem_of_nil|by eauto|].
  intros [?|H]%elem_of_cons; [done|by apply IH].
Qed.

Lemma backtrack_complete f lo n k :
  lo ≤ k ≤ n → is_Some (f k) → is_Some (backtrack f lo n).
Proof.
  intros Hk Hf. induction n as [|n IH]; simpl.
  - assert (k = 0) as -> by lia. assert (lo = 0) as -> by lia. simpl.
    destruct (f 0); [eauto|by destruct Hf].
  - destruct (S n <? lo) eqn:Hlo; [apply Nat.ltb_lt in Hlo; lia|].
    destruct (f (S n)) eqn:Hfn; [eauto|].
    apply IH. destruct (decide (k = S n)) as [->|]; [|lia].
    rewrite Hfn in Hf. by destruct Hf.
Qed.

Lemma run_maximal cls hi (r rest : string) :
  all_chars cls r = true →
  (∀ h, hi = Some h → String.length r ≤ h) →
  String.length r ≤ run cls hi (r +:+ rest).
Proof.
  revert hi. induction r as [|c r IH]; intros hi Hall Hhi; [simpl; lia|].
  simpl in Hall. apply andb_true_iff in Hall as [Hc Hall].
  rewrite app_String.
  destruct hi as [[|h]|]; simpl.
  - specialize (Hhi 0 eq_refl). simpl in Hhi. lia.
  - rewrite Hc. specialize (IH (Some h) Hall). simpl in IH.
    apply le_n_S, IH. intros h' [= <-]. specialize (Hhi (S h) eq_refl). simpl in Hhi. lia.
  - rewrite Hc. specialize (IH None Hall). simpl in IH. apply le_n_S, IH. done.
Qed.

Lemma take_app_exact (r s : string) : take (String.length r) (r +:+ s) = r.
Proof.
  rewrite <- (Nat.add_0_r (String.length r)), take_app_length.
  destruct s; simpl; apply app_empty_r.
Qed.

Lemma drop_app_exact (r s : string) : drop (String.length r) (r +:+ s) = s.
Proof. rewrite <- (Nat.add_0_r (String.length r)), drop_app_length. by destruct s. Qed.

Lemma match_atoms_complete ats prev (m rest : string) :
  accepts ats prev m rest → is_Some (match_atoms ats prev (m +:+ rest)).
Proof.
  induction 1 as [prev rest|l ats prev m rest _ IH|l alts ats prev m rest Hl _ IH
                  |alts ats prev m rest _ IH|cls lo hi ats prev r m rest Hall Hlo Hhi _ IH
                  |ats prev m rest Hb _ IH]; simpl.
  - eauto.
  - rewrite app_assoc_text, strip_prefix_app. destruct IH as [n ->]. simpl. eauto.
  - destruct IH as [n Hn].
    apply (first_some_complete _ (String.length l + n)), elem_of_app. left.
    apply list_elem_of_fmap. exists l. split; [|done].
    by rewrite app_assoc_text, strip_prefix_app, Hn.
  - destruct IH as [n Hn].
    apply (first_some_complete _ n), elem_of_app. right.
    rewrite Hn. apply list_elem_of_here.
  - rewrite app_assoc_text.
    apply (backtrack_complete _ _ _ (String.length r)).
    + split; [done|]. by apply run_maximal.
    + rewrite take_app_exact, drop_app_exact. destruct IH as [n ->]. simpl. eauto.
  - rewrite Hb. done.
Qed.

(** The match at the start of the text is the first text [findall] returns. *)
Lemma findall_first (re : regex) (s : string) n :
  match_re re None s = Some n → take n s ∈ findall re s.
Proof.
  intros H. unfold findall. destruct s as [|c s]; simpl; rewrite H; apply list_elem_of_here.
Qed.

Lemma is_digit_is_word c : is_digit c = true → is_word c = true.
Proof. unfold is_digit, is_word. by intros ->. Qed.

Lemma all_digits_all_word (s : string) :
  all_chars is_digit s = true → all_chars is_word s = true.
Proof.
  induction s as [|c s IH]; [done|]. simpl.
  intros [Hc Hs]%andb_true_iff. by rewrite (is_digit_is_word c Hc), IH.
Qed.

Lemma last_char_word prev (s : string) :
  s ≠ "" → all_chars is_word s = true → is_word_at (last_char prev s) = true.
Proof.
  revert prev. induction s as [|c s IH]; intros prev Hne; [done|]. simpl.
  intros [Hc Hs]%andb_true_iff. destruct s as [|c' s]; [done|]. by apply IH.
Qed.

Lemma app_inj_tail (a b y p : string) :
  a +:+ y = b +:+ p → String.length y = String.length p → a = b ∧ y = p.
Proof.
  revert b. induction a as [|c a IH]; intros [|c' b]; rewrite ?app_String, ?app_empty.
  - done.
  - intros -> Hlen. simpl in Hlen. rewrite length_app in Hlen. lia.
  - intros <- Hlen. simpl in Hlen. rewrite length_app in Hlen. lia.
  - intros [= -> H] Hlen. destruct (IH b H Hlen) as [-> ->]. done.
Qed.

Lemma singleton_list (l : list string) p :
  NoDup l → p ∈ l → (∀ x, x ∈ l → x = p) → l = [p].
Proof.
  intros Hnd Hp Hall. destruct l as [|x l]; [by apply elem_of_nil in Hp|].
  assert (x = p) as -> by apply Hall, list_elem_of_here.
  destruct l as [|y l]; [done|].
  assert (y = p) as -> by apply Hall, list_elem_of_further, list_elem_of_here.
  apply NoDup_cons in Hnd as [Hnd _]. destruct Hnd. apply list_elem_of_here.
Qed.

Lemma word_after_first (a b : string) c :
  a ≠ "" → all_chars is_word (drop 1 (a +:+ String c b)) = true → is_word c = true.
Proof.
  destruct a as [|a0 a]; [done|]. intros _. rewrite app_String. simpl.
  rewrite all_chars_app. simpl. intros [_ [Hc _]%andb_true_iff]%andb_true_iff. done.
Qed.

(** Where the phone pattern can match in a message that is a prefix and a
    ten-digit number: up to the end, from somewhere in the prefix. *)
Lemma phone_match_in_lone_number (prefix : string) d (ds pre found post : string) prev :
  prefix ∈ ["+91"; "91"; "0"; ""] →
  six_to_nine d = true →
  String.length ds = 9 →
  all_chars is_digit ds = true →
  prefix +:+ String d ds = pre +:+ found +:+ post →
  accepts [OptLits ["+91"; "91"; "0"]; Rep six_to_nine 1 (Some 1);
           Rep is_digit 9 (Some 9); WordB] prev found post →
  post = ""
  ∧ ∃ l, found = l +:+ String d ds ∧ prefix = pre +:+ l
         ∧ l ∈ ["+91"; "91"; "0"; ""].
Proof.
  intros Hprefix Hd Hlen Hdigits Hm Hacc.
  assert (∃ l d' ds',
            found = l +:+ String d' ds' ∧ l ∈ ["+91"; "91"; "0"; ""]
            ∧ String.length ds' = 9 ∧ all_chars is_digit ds' = true
            ∧ is_word_at (first_char post) = false) as (l & d' & ds' & -> & Hl & Hlen' & Hdig' & Hpost).
  { assert (∀ prev m, accepts [Rep six_to_nine 1 (Some 1); Rep is_digit 9 (Some 9); WordB]
                        prev m post →
              ∃ d' ds', m = String d' ds' ∧ String.length ds' = 9
                        ∧ all_chars is_digit ds' = true
                        ∧ is_word_at (first_char post) = false) as Hrest.
    { clear. intros prev m Hacc. invert_accepts.
      match goal with H : ∀ h, Some 1 = Some h → _ |- _ => specialize (H 1 eq_refl) end.
      match goal with H : ∀ h, Some 9 = Some h → _ |- _ => specialize (H 9 eq_refl) end.
      destruct r as [|d' [|? ?]]; simpl in *; try lia.
      rewrite app_empty_r. exists d', r0. split_and!; [done|lia|done|].
      match goal with H : boundary _ _ = true |- _ => rename H into Hb end.
      unfold boundary in Hb. rewrite app_empty in Hb.
      rewrite last_char_word in Hb;
        [by destruct (is_word_at (first_char post))
        |intros ->; simpl in *; lia|by apply all_digits_all_word]. }
    inversion Hacc; clear Hacc; subst.
    - destruct (Hrest _ _ ltac:(eassumption)) as (d' & ds' & -> & ?).
      exists l, d', ds'. split_and!; try tauto. rewrite !elem_of_cons in *. tauto.
    - destruct (Hrest _ _ ltac:(eassumption)) as (d' & ds' & -> & ?).
      exists "", d', ds'. split_and!; try tauto. rewrite !elem_of_cons. tauto. }
  assert (all_chars is_word (drop 1 (prefix +:+ String d ds)) = true) as Hword.
  { pose proof (all_digits_all_word ds Hdigits) as Hw.
    pose proof (is_digit_is_word d (six_to_nine_is_digit d Hd)) as Hwd.
    rewrite !elem_of_cons, elem_of_nil in Hprefix.
    destruct Hprefix as [->|[->|[->|[->|[]]]]];
      rewrite ?app_String, app_empty; cbn -[is_word]; by rewrite ?Hwd, ?Hw. }
  assert (post = "") as ->.
  { destruct post as [|c post]; [done|]. exfalso.
    rewrite Hm, <- app_assoc_text in Hword.
    apply word_after_first in Hword; [simpl in Hpost; congruence|].
    intros Hempty. apply (f_equal String.length) in Hempty.
    rewrite !length_app in Hempty. simpl in Hempty. lia. }
  split; [done|]. exists l.
  rewrite app_empty_r, <- app_assoc_text in Hm.
  apply app_inj_tail in Hm as [-> [= -> ->]]; [done|simpl; lia].
Qed.

Lemma clean_phone_prefixed (prefix : string) d (ds : string) :
  prefix ∈ ["+91"; "91"; "0"; ""] →
  six_to_nine d = true →
  (prefix = "" → strip_prefix "91" (String d ds) = None) →
  clean_phone (prefix +:+ String d ds) = String d ds.
Proof.
  intros Hprefix Hd Hbare.
  rewrite !elem_of_cons, elem_of_nil in Hprefix.
  destruct Hprefix as [->|[->|[->|[->|[]]]]]; try done.
  specialize (Hbare eq_refl). rewrite app_empty. unfold clean_phone. rewrite Hbare.
  cbn -[Ascii.eqb].
  destruct (Ascii.eqb_spec "+" d) as [<-|_]; [by vm_compute in Hd|].
  destruct (Ascii.eqb_spec "0" d) as [<-|_]; [by vm_compute in Hd|]. done.
Qed.

(** X8. A mobile number standing alone is extracted as it is: when the
    whole message is a ten-digit number whose first digit is 6 to 9,
    written with one of the prefixes [+91], [91], [0] or, unless the number
    itself begins with 91, with none, the phone candidates are exactly that
    ten-digit number. *)
Theorem lone_number_is_extracted (prefix : string) d (ds : string) :
  prefix ∈ ["+91"; "91"; "0"; ""] →
  six_to_nine d = true →
  String.length ds = 9 →
  all_chars is_digit ds = true →
  (prefix = "" → strip_prefix "91" (String d ds) = None) →
  phone_numbers (extract_from_message (prefix +:+ String d ds)) = [String d ds].
Proof.
  intros Hprefix Hd Hlen Hdigits Hbare.
  set (message := prefix +:+ String d ds).
  assert (∀ x, x ∈ phone_numbers (extract_from_message message) → x = String d ds)
    as Hall.
  { intros x (found & Hin & <- & Hten)%elem_of_phone_numbers.
    apply findall_from_located in Hin as (pre & post & ats & prev & Hm & ->%list_elem_of_singleton & Hacc).
    destruct (phone_match_in_lone_number prefix d ds pre found post prev
                Hprefix Hd Hlen Hdigits Hm Hacc) as (_ & l & -> & _ & Hl).
    by apply clean_phone_kept. }
  apply singleton_list;
    [unfold extract_from_message; cbn [phone_numbers]; unfold list_of_set;
     apply NoDup_elements| |done].
  assert (accepts [OptLits ["+91"; "91"; "0"]; Rep six_to_nine 1 (Some 1);
                   Rep is_digit 9 (Some 9); WordB] None message "") as Hacc.
  { assert (accepts [Rep six_to_nine 1 (Some 1); Rep is_digit 9 (Some 9); WordB]
              (last_char None prefix) (String d ds) "") as Hrest.
    { change (String d ds) with (String d "" +:+ ds).
      rewrite <- (app_empty_r ds).
      apply accepts_rep; [simpl; by rewrite Hd|simpl; lia|intros h [= <-]; simpl; lia|].
      apply accepts_rep; [done|lia|intros h [= <-]; lia|].
      apply accepts_word_boundary; [|constructor].
      unfold boundary. rewrite last_char_word; [done| |by apply all_digits_all_word].
      intros ->. simpl in Hlen. lia. }
    unfold message. rewrite !elem_of_cons, elem_of_nil in Hprefix.
    destruct Hprefix as [->|[->|[->|[->|[]]]]].
    - apply accepts_opt_taken; [apply list_elem_of_here|done].
    - apply accepts_opt_taken; [apply list_elem_of_further, list_elem_of_here|done].
    - apply accepts_opt_taken; [do 2 apply list_elem_of_further; apply list_elem_of_here|done].
    - by apply accepts_opt_skipped. }
  apply match_atoms_complete in Hacc as [n Hn]. rewrite app_empty_r in Hn.
  assert (match_re phone_pattern None message = Some n) as Hre.
  { unfold match_re, phone_pattern. cbn [map]. by rewrite Hn. }
  pose proof (findall_first _ _ _ Hre) as Hin.
  destruct (match_atoms_accepts _ _ _ _ Hn) as [_ Hacc].
  destruct (phone_match_in_lone_number prefix d ds "" (take n message)
              (drop n message) None Hprefix Hd Hlen Hdigits) as (_ & l & Hfound & Hl & _);
    [by rewrite app_empty, take_drop|done|].
  rewrite app_empty in Hl. subst l.
  apply elem_of_phone_numbers. exists (take n message).
  split_and!; [done| |simpl; lia].
  rewrite Hfound. by apply clean_phone_prefixed.
Qed.

Lemma lone_number_is_extracted_witness :
  phone_numbers (extract_from_message ("+91" +:+ "9876543210")) = ["9876543210"].
Proof.
  apply (lone_number_is_extracted "+91" "9" "876543210").
  - apply list_elem_of_here.
  - reflexivity.
  - reflexivity.
  - reflexivity.
  - discriminate.
Defined.

(** ** The store: how sessions change over a run *)

Section Growth.
Context (env : Env).

Lemma grows_trans s1 s2 s3 :
  Evolution.grows s1 s2 → Evolution.grows s2 s3 → Evolution.grows s1 s3.
Proof. induction 2; eauto using Evolution.grows. Qed.

Lemma growing_ret {A} sid (a : A) : Evolution.acts_growing sid (ret a).
Proof. intros w. by left. Qed.

Lemma growing_bind {A B} sid (m : M A) (k : A → M B) :
  Evolution.acts_growing sid m → (∀ a, Evolution.acts_growing sid (k a)) →
  Evolution.acts_growing sid (bind m k).
Proof.
  intros Hm Hk w. rewrite bind_run.
  destruct (Hm w) as [Hm1|(s & s1 & Ho & Hu & Hm1)];
    destruct (Hk (value (m w)) (world (m w))) as [Hk1|(s' & s2 & Ho' & Hu' & Hk1)].
  - left. congruence.
  - right. exists s', s2. split_and!; [|done|congruence].
    unfold System.origin in *. by rewrite <- Hm1.
  - right. exists s, s1. split_and!; [done|done|congruence].
  - right. exists s, s2. split_and!; [done| |].
    + apply (grows_trans _ s1); [done|].
      destruct Ho' as [Ho'|[Ho' _]]; rewrite Hm1, lookup_insert_eq in Ho'; [|done].
      by injection Ho' as <-.
    + by rewrite Hk1, Hm1, insert_insert_eq.
Qed.

Lemma growing_if {A} sid (b : bool) (m1 m2 : M A) :
  Evolution.acts_growing sid m1 → Evolution.acts_growing sid m2 →
  Evolution.acts_growing sid (if b then m1 else m2).
Proof. by destruct b. Qed.

Lemma growing_get_session sid : Evolution.acts_growing sid (get_session env sid).
Proof.
  intros w. unfold get_session. destruct (sessions w !! sid) as [s|] eqn:Hs.
  - by left.
  - right. eexists _, _. split_and!; [right; eauto|constructor|done].
Qed.

Lemma growing_assign sid (f : Session → Session) :
  (∀ s, Evolution.grows s (f s)) →
  Evolution.acts_growing sid
    (let* session := get_session env sid in put_session sid (f session)).
Proof.
  intros Hf w. right. unfold get_session, bind.
  destruct (sessions w !! sid) as [s|] eqn:Hs; simpl.
  - exists s, (f s). split_and!; [by left|done|done].
  - eexists _, _. split_and!; [right; eauto|apply Hf|].
    by rewrite insert_insert_eq.
Qed.

Lemma growing_assign_now sid (f : string → Session → Session) :
  (∀ now s, Evolution.grows s (f now s)) →
  Evolution.acts_growing sid
    (let* session := get_session env sid in
     let* now := utcnow_isoformat env in
     put_session sid (f now session)).
Proof.
  intros Hf w. right. unfold get_session, bind.
  destruct (sessions w !! sid) as [s|] eqn:Hs; simpl.
  - eexists s, _. split_and!; [by left|apply Hf|done].
  - eexists _, _. split_and!; [right; eauto|apply Hf|].
    by rewrite insert_insert_eq.
Qed.

Lemma growing_add_message sid sender text timestamp :
  Evolution.acts_growing sid (add_message env sid sender text timestamp).
Proof.
  apply (growing_assign_now sid
           (λ now session,
              set_messages
                (messages session ++
                   [{| sender := sender; text := text; timestamp := timestamp;
                       datetime := now |}]) session)).
  intros. constructor. constructor.
Qed.

Lemma growing_mark_scam_detected sid confidence :
  Evolution.acts_growing sid (mark_scam_detected env sid confidence).
Proof.
  apply (growing_assign_now sid (set_scam_detected confidence)).
  intros. constructor. constructor.
Qed.

Lemma growing_engage_agent sid : Evolution.acts_growing sid (engage_agent env sid).
Proof.
  apply (growing_assign_now sid set_agent_engaged). intros. constructor. constructor.
Qed.

Lemma growing_mark_callback_sent sid :
  Evolution.acts_growing sid (mark_callback_sent env sid).
Proof.
  apply (growing_assign_now sid set_callback_sent). intros. constructor. constructor.
Qed.

Lemma growing_update_intelligence sid new_intelligence :
  Evolution.acts_growing sid (update_intelligence env sid new_intelligence).
Proof.
  apply (growing_assign sid
           (λ session,
              set_extracted_intelligence
                (merge_intelligence (extracted_intelligence session) new_intelligence)
                session)).
  intros. constructor. constructor.
Qed.

Lemma growing_should_conclude_session sid :
  Evolution.acts_growing sid (should_conclude_session env sid).
Proof.
  intros w. destruct (sessions w !! sid) as [s|] eqn:Hs.
  - rewrite (should_conclude_session_world env w sid s Hs).
    destruct (_ && _); [right|by left].
    exists s, (set_should_conclude s).
    split_and!; [by left|constructor; constructor|done].
  - rewrite (should_conclude_session_None env w sid Hs).
    apply growing_get_session.
Qed.

Lemma growing_chat_endpoint request k1 k2 :
  Evolution.acts_growing (Main.sessionId request) (Main.chat_endpoint env request k1 k2).
Proof.
  unfold Main.chat_endpoint.
  destruct (Main.header_or k1 k2) as [api_key|]; [|apply growing_ret].
  repeat first
    [ apply growing_ret
    | apply growing_get_session
    | apply growing_add_message
    | apply growing_should_conclude_session
    | apply growing_update_intelligence
    | apply growing_mark_scam_detected
    | apply growing_engage_agent
    | (intros w; by left)
    | apply growing_if
    | apply growing_bind; [|intros ?]
    | match goal with
      | |- Evolution.acts_growing _ (let '(_, _) := ?p in _) => destruct p
      end ].
Qed.

Lemma growing_send_final_callback sid :
  Evolution.acts_growing sid (Main.send_final_callback env sid).
Proof.
  intros w. unfold Main.send_final_callback.
  destruct (sessions w !! sid) as [s|] eqn:Hs; [|by left].
  destruct (post_callback _ _ _) as [status_code|]; [|by left].
  destruct (bool_decide (status_code = 200)); [|by left].
  rewrite bind_run. cbn [ret world snd].
  apply growing_mark_callback_sent.
Qed.

Lemma growing_endpoint_get_session sid k1 k2 :
  Evolution.acts_growing sid (Endpoints.get_session env sid k1 k2).
Proof.
  unfold Endpoints.get_session.
  destruct (Main.header_or k1 k2) as [api_key|]; [|apply growing_ret].
  repeat first [apply growing_ret | apply growing_get_session | apply growing_if
               | apply growing_bind; [|intros ?]].
Qed.

(** What a call does to a stored session, unless it deletes it. *)
Lemma run_call_grows (c : System.call) w sid s :
  sessions w !! sid = Some s →
  c ≠ System.DeleteSession sid →
  ∃ s', Evolution.grows s s' ∧ sessions (System.run_call env c w) !! sid = Some s'.
Proof.
  intros Hs Hc.
  assert (∀ {A} sid' (m : M A), Evolution.acts_growing sid' m →
            ∃ s', Evolution.grows s s' ∧ sessions (world (m w)) !! sid = Some s')
    as Hacts.
  { intros A sid' m Hm. destruct (Hm w) as [->|(s0 & s' & Ho & Hu & ->)].
    - exists s. split; [constructor|done].
    - destruct (decide (sid' = sid)) as [->|Hne].
      + rewrite lookup_insert_eq. exists s'. split; [|done].
        destruct Ho as [Ho|[Ho _]]; congruence.
      + rewrite lookup_insert_ne by done. exists s. split; [constructor|done]. }
  destruct c as [sid'|sid' ? ? ?|sid' ?|sid'|sid' ?|sid'|sid'| |sid'|request k1 k2|sid'];
    simpl.
  - apply (Hacts _ sid'), growing_get_session.
  - apply (Hacts _ sid'), growing_add_message.
  - apply (Hacts _ sid'), growing_mark_scam_detected.
  - apply (Hacts _ sid'), growing_engage_agent.
  - apply (Hacts _ sid'), growing_update_intelligence.
  - apply (Hacts _ sid'), growing_should_conclude_session.
  - apply (Hacts _ sid'), growing_mark_callback_sent.
  - exists s. split; [constructor|done].
  - exists s. split; [constructor|].
    unfold delete_session. destruct (sessions w !! sid') eqn:Hs'; [|done].
    simpl. rewrite lookup_delete_ne; [done|]. congruence.
  - apply (Hacts _ (Main.sessionId request)), growing_chat_endpoint.
  - apply (Hacts _ sid'), growing_send_final_callback.
Qed.

Lemma run_grows (cs : list System.call) w sid s :
  sessions w !! sid = Some s →
  Forall (λ c, c ≠ System.DeleteSession sid) cs →
  ∃ s', Evolution.grows s s' ∧ sessions (System.run env cs w) !! sid = Some s'.
Proof.
  intros Hs Hcs. revert w s Hs.
  induction Hcs as [|c cs Hc _ IH]; intros w s Hs; simpl.
  - exists s. split; [constructor|done].
  - destruct (run_call_grows c w sid s Hs Hc) as (s1 & Hu1 & Hs1).
    destruct (IH _ _ Hs1) as (s2 & Hu2 & Hs2).
    exists s2. split; [by apply (grows_trans _ s1)|done].
Qed.

End Growth.

(** What growing keeps. *)
Lemma grows_messages s s' : Evolution.grows s s' → messages s `prefix_of` messages s'.
Proof.
  induction 1; simpl; try done.
  by apply prefix_app_r.
Qed.

Lemma grows_flags s s' :
  Evolution.grows s s' →
  session_id s' = session_id s ∧ created_at s' = created_at s
  ∧ (scam_detected s = true → scam_detected s' = true)
  ∧ (agent_engaged s = true → agent_engaged s' = true)
  ∧ (should_conclude s = true → should_conclude s' = true)
  ∧ (callback_sent s = true → callback_sent s' = true).
Proof. induction 1; simpl; tauto. Qed.

Lemma grows_entries s s' f :
  f ∈ Bundle.fields →
  Evolution.grows s s' →
  Bundle.entries f (extracted_intelligence s)
    ⊆ Bundle.entries f (extracted_intelligence s').
Proof.
  intros Hf. induction 1; simpl; try done.
  rewrite (proj1 (entries_merge_intelligence f _ new Hf)).
  by apply union_subseteq_l'.
Qed.

(** X9. The message log of a session is append-only: after any calls on the
    store and the handler that do not delete the session, the messages it
    held before are the first messages it holds, in the same order. *)
Theorem message_log_is_append_only (env : Env) (cs : list System.call) (w : World)
    (sid : string) (s : Session) :
  sessions w !! sid = Some s →
  Forall (λ c, c ≠ System.DeleteSession sid) cs →
  ∃ s', sessions (System.run env cs w) !! sid = Some s'
        ∧ messages s `prefix_of` messages s'.
Proof.
  intros Hs Hcs. destruct (run_grows env cs w sid s Hs Hcs) as (s' & Hg & Hs').
  exists s'. split; [done|]. by apply grows_messages.
Qed.

Lemma message_log_is_append_only_witness :
  ∃ s', sessions
          (System.run (Examples.sample_env (true, 0.85%float)) Examples.later_calls
             (Examples.world_with
                (Examples.engaged_session 1 3 1 Examples.empty_intelligence false)))
          !! "s1" = Some s'
        ∧ messages (Examples.engaged_session 1 3 1 Examples.empty_intelligence false)
            `prefix_of` messages s'.
Proof.
  apply message_log_is_append_only.
  - reflexivity.
  - unfold Examples.later_calls. repeat constructor; discriminate.
Defined.

(** X10. Over any calls that do not delete the session, its identifier and
    creation time stay as they are and the flags [scam_detected],
    [agent_engaged] and [callback_sent] are never taken back. *)
Theorem flags_are_one_way (env : Env) (cs : list System.call) (w : World)
    (sid : string) (s : Session) :
  sessions w !! sid = Some s →
  Forall (λ c, c ≠ System.DeleteSession sid) cs →
  ∃ s', sessions (System.run env cs w) !! sid = Some s'
        ∧ session_id s' = session_id s ∧ created_at s' = created_at s
        ∧ (scam_detected s = true → scam_detected s' = true)
        ∧ (agent_engaged s = true → agent_engaged s' = true)
        ∧ (callback_sent s = true → callback_sent s' = true).
Proof.
  intros Hs Hcs. destruct (run_grows env cs w sid s Hs Hcs) as (s' & Hg & Hs').
  exists s'. split; [done|]. apply grows_flags in Hg. tauto.
Qed.

Lemma flags_are_one_way_witness :
  ∃ s', sessions
          (System.run (Examples.sample_env (true, 0.85%float)) Examples.later_calls
             (Examples.world_with
                (Examples.engaged_session 1 3 1 Examples.empty_intelligence false)))
          !! "s1" = Some s'
        ∧ session_id s' = "s1" ∧ created_at s' = Examples.stamp 0
        ∧ (true = true → scam_detected s' = true)
        ∧ (true = true → agent_engaged s' = true)
        ∧ (false = true → callback_sent s' = true).
Proof.
  apply (flags_are_one_way (Examples.sample_env (true, 0.85%float)) Examples.later_calls
           (Examples.world_with
              (Examples.engaged_session 1 3 1 Examples.empty_intelligence false))
           "s1"
           (Examples.engaged_session 1 3 1 Examples.empty_intelligence false)).
  - reflexivity.
  - unfold Examples.later_calls. repeat constructor; discriminate.
Defined.

Lemma fields_cases_all (P : Bundle.field → Prop) (Q : Prop) :
  (P upi_ids → P phone_numbers → P bank_accounts → P phishing_links →
   P suspicious_keywords → Q) →
  (∀ f, f ∈ Bundle.fields → P f) → Q.
Proof.
  intros H Hall. unfold Bundle.fields in Hall.
  apply H; apply Hall; rewrite !elem_of_cons; tauto.
Qed.

Lemma entries_nonempty f (i i' : Intelligence) :
  Bundle.entries f i ⊆ Bundle.entries f i' → 0 < length (f i) → 0 < length (f i').
Proof.
  unfold Bundle.entries. intros Hsub Hlen.
  destruct (f i) as [|x l] eqn:Hfi; [simpl in Hlen; lia|].
  assert (x ∈ f i') as Hx.
  { apply (elem_of_list_to_set (C := gset string)), Hsub, elem_of_list_to_set.
    apply list_elem_of_here. }
  destruct (f i'); [by apply elem_of_nil in Hx|simpl; lia].
Qed.

(** X11. The intelligence of a session only grows: over any calls that do
    not delete the session, every entry its bundle held is still held under
    the same key, and a bundle that was of high value remains so. *)
Theorem intelligence_only_grows (env : Env) (cs : list System.call) (w : World)
    (sid : string) (s : Session) :
  sessions w !! sid = Some s →
  Forall (λ c, c ≠ System.DeleteSession sid) cs →
  ∃ s', sessions (System.run env cs w) !! sid = Some s'
        ∧ (∀ f, f ∈ Bundle.fields →
             Bundle.entries f (extracted_intelligence s)
               ⊆ Bundle.entries f (extracted_intelligence s'))
        ∧ (is_high_value_intelligence (extracted_intelligence s) = true →
           is_high_value_intelligence (extracted_intelligence s') = true).
Proof.
  intros Hs Hcs. destruct (run_grows env cs w sid s Hs Hcs) as (s' & Hg & Hs').
  exists s'. split; [done|].
  assert (∀ f, f ∈ Bundle.fields →
            Bundle.entries f (extracted_intelligence s)
              ⊆ Bundle.entries f (extracted_intelligence s')) as Hsub
    by (intros f Hf; by apply grows_entries).
  split; [done|].
  unfold is_high_value_intelligence.
  rewrite !orb_true_iff, !andb_true_iff, !Nat.ltb_lt.
  assert (∀ f, f ∈ Bundle.fields →
            0 < length (f (extracted_intelligence s)) →
            0 < length (f (extracted_intelligence s'))) as Hpos
    by (intros f Hf; by apply entries_nonempty, Hsub).
  apply (fields_cases_all
           (λ f, 0 < length (f (extracted_intelligence s)) →
                 0 < length (f (extracted_intelligence s')))); [tauto|exact Hpos].
Qed.

Lemma intelligence_only_grows_witness :
  ∃ s', sessions
          (System.run (Examples.sample_env (true, 0.85%float)) Examples.later_calls
             (Examples.world_with
                (Examples.engaged_session 1 3 1 Examples.handle_intelligence false)))
          !! "s1" = Some s'
        ∧ (∀ f, f ∈ Bundle.fields →
             Bundle.entries f Examples.handle_intelligence
               ⊆ Bundle.entries f (extracted_intelligence s'))
        ∧ (is_high_value_intelligence Examples.handle_intelligence = true →
           is_high_value_intelligence (extracted_intelligence s') = true).
Proof.
  apply (intelligence_only_grows (Examples.sample_env (true, 0.85%float))
           Examples.later_calls
           (Examples.world_with
              (Examples.engaged_session 1 3 1 Examples.handle_intelligence false))
           "s1"
           (Examples.engaged_session 1 3 1 Examples.handle_intelligence false)).
  - reflexivity.
  - unfold Examples.later_calls. repeat constructor; discriminate.
Defined.

(** ** The handler, branch by branch *)

Lemma update_intelligence_known (env : Env) w sid s new_intelligence :
  sessions w !! sid = Some s →
  update_intelligence env sid new_intelligence w
  = ((), {| sessions :=
              <[sid := set_extracted_intelligence
                         (merge_intelligence (extracted_intelligence s) new_intelligence)
                         s]> (sessions w);
            ticks := ticks w; tasks := tasks w |}).
Proof.
  intros Hs. unfold update_intelligence, bind. by rewrite (get_session_Some env w sid s Hs).
Qed.

(** What a request with a valid key does, in terms of the session it
    starts from ([s0], stored or new), the same session with the message
    appended ([s1]) and the state after the append ([w1]). *)
Lemma chat_endpoint_authorized (env : Env) (w : World) (request : Main.IncomingRequest)
    (k1 k2 : option string) :
  Main.header_or k1 k2 = Some (API_KEY env) →
  API_KEY env ≠ "" →
  let sid := Main.sessionId request in
  let incoming := Main.text (Main.message request) in
  let s0 := value (get_session env sid w) in
  let t0 := ticks (world (get_session env sid w)) in
  let s1 := set_messages (messages s0 ++ [System.received env request t0]) s0 in
  let w1 := {| sessions := <[sid := s1]> (sessions w); ticks := S t0;
               tasks := tasks w |} in
  let answer :=
    detect_scam env (S t0) incoming (Main.conversationHistory request)
                (Main.metadata request) in
  Main.chat_endpoint env request k1 k2 w
  = if scam_detected s0 && agent_engaged s0 then
      if value (should_conclude_session env sid w1) then
        (Main.APIResponse "success"
           (generate_final_response env (S t0) sid (messages s1) (Main.metadata request)),
         {| sessions := <[sid := set_should_conclude s1]> (sessions w);
            ticks := S t0; tasks := tasks w ++ [sid] |})
      else
        (Main.APIResponse "success"
           (generate_response env (S t0) sid (messages s1) (Main.metadata request)),
         {| sessions :=
              <[sid := set_extracted_intelligence
                         (merge_intelligence (extracted_intelligence s0)
                                             (extract_from_message incoming)) s1]>
                (sessions w);
            ticks := S t0; tasks := tasks w |})
    else if negb (scam_detected s0) then
      if answer.1 && PrimFloat.ltb 0.7 answer.2 then
        (Main.APIResponse "success"
           (generate_initial_response env (S (S (S t0))) sid incoming
                                      (Main.metadata request)),
         {| sessions :=
              <[sid := set_agent_engaged (clock env (S (S t0)))
                         (set_scam_detected answer.2 (clock env (S t0)) s1)]>
                (sessions w);
            ticks := S (S (S t0)); tasks := tasks w |})
      else
        (Main.APIResponse "success"
           (generate_neutral_response env (S t0) incoming (Main.metadata request)),
         w1)
    else
      (Main.APIResponse "success"
         "I'm sorry, I didn't quite understand. Could you please clarify?",
       w1).
Proof.
  intros Hkey Hne sid incoming s0 t0 s1 w1 answer.
  subst sid incoming. set (sid := Main.sessionId request) in *.
  unfold Main.chat_endpoint. rewrite Hkey.
  destruct (String.eqb_spec (API_KEY env) ""); [done|].
  rewrite String.eqb_refl. cbn [negb]. fold sid.
  rewrite bind_run. rewrite bind_run.
  pose proof (get_session_lookup env w sid) as Hs0.
  rewrite (add_message_Some env _ sid s0 _ _ _ Hs0).
  cbn [world value fst snd].
  rewrite get_session_sessions, get_session_tasks, insert_insert_eq.
  fold s0 t0. fold (System.received env request t0). fold s1. fold w1.
  assert (sessions w1 !! sid = Some s1) as Hs1 by apply lookup_insert_eq.
  rewrite bind_run, (get_session_Some env w1 sid s1 Hs1). cbn [world value fst snd].
  change (scam_detected s1) with (scam_detected s0).
  change (agent_engaged s1) with (agent_engaged s0).
  destruct (scam_detected s0 && agent_engaged s0) eqn:Hbranch.
  - rewrite bind_run.
    rewrite (should_conclude_session_world env w1 sid s1 Hs1).
    destruct (value (should_conclude_session env sid w1)) eqn:Hv; cbn [andb].
    + destruct (should_conclude s1) eqn:Hflag; cbn [negb].
      * rewrite (set_should_conclude_id s1 Hflag). unfold w1. cbn. done.
      * unfold w1. cbn. by rewrite insert_insert_eq.
    + rewrite bind_run. cbn [Main.time value world fst snd].
      rewrite bind_run, (update_intelligence_known env w1 sid s1 _ Hs1).
      unfold w1. cbn. by rewrite insert_insert_eq.
  - destruct (scam_detected s0) eqn:Hdet; cbn [negb]; [done|].
    rewrite bind_run. cbn [Main.time value world fst snd ticks].
    change (ticks w1) with (S t0). fold answer.
    destruct answer as [is_scam confidence]. cbn [fst snd].
    destruct (is_scam && PrimFloat.ltb 0.7 confidence); [|done].
    rewrite bind_run, (mark_scam_detected_Some env w1 sid s1 _ Hs1).
    cbn [world value fst snd].
    rewrite bind_run.
    rewrite (engage_agent_Some env _ sid
               (set_scam_detected confidence (clock env (S t0)) s1))
      by (cbn [sessions]; apply lookup_insert_eq).
    unfold w1. cbn. by rewrite !insert_insert_eq.
Qed.

Lemma chat_endpoint_rejected (env : Env) (w : World) (request : Main.IncomingRequest)
    (k1 k2 : option string) :
  Main.header_or k1 k2 ≠ Some (API_KEY env) ∨ API_KEY env = "" →
  world (Main.chat_endpoint env request k1 k2 w) = w
  ∧ ∃ status_code detail,
      value (Main.chat_endpoint env request k1 k2 w)
      = Main.HTTPException status_code detail.
Proof.
  intros Hbad. unfold Main.chat_endpoint.
  destruct (Main.header_or k1 k2) as [key|]; [|split; [done|eauto]].
  destruct (String.eqb_spec key "") as [->|Hne]; [split; [done|eauto]|].
  destruct (String.eqb_spec key (API_KEY env)) as [->|Hkey]; [|split; [done|eauto]].
  by destruct Hbad.
Qed.

(** X12. Only a request that carries the configured key reaches the store.
    Without a key, or with an empty one, the answer is the 401 error; with
    another key it is the 403 error; in both cases the state is left as it
    was.  Whenever the answer is an [APIResponse], the key was the
    configured one and the status is [success]. *)
Theorem unauthenticated_requests_change_nothing (env : Env) (w : World)
    (request : Main.IncomingRequest) (k1 k2 : option string) :
  (Main.header_or k1 k2 = None ∨ Main.header_or k1 k2 = Some "" →
   Main.chat_endpoint env request k1 k2 w
   = (Main.HTTPException 401 "API key required", w))
  ∧ (∀ key, Main.header_or k1 k2 = Some key → key ≠ "" → key ≠ API_KEY env →
       Main.chat_endpoint env request k1 k2 w
       = (Main.HTTPException 403 "Invalid API Key", w))
  ∧ (∀ status reply,
       value (Main.chat_endpoint env request k1 k2 w) = Main.APIResponse status reply →
       Main.header_or k1 k2 = Some (API_KEY env) ∧ status = "success").
Proof.
  split_and!.
  - unfold Main.chat_endpoint. by intros [-> | ->].
  - intros key Hkey Hne Hbad. unfold Main.chat_endpoint. rewrite Hkey.
    destruct (String.eqb_spec key ""); [done|].
    by destruct (String.eqb_spec key (API_KEY env)).
  - intros status reply Hr.
    destruct (decide (Main.header_or k1 k2 = Some (API_KEY env))) as [Hkey|Hkey];
      [destruct (decide (API_KEY env = "")) as [Hempty|Hne]|].
    + destruct (chat_endpoint_rejected env w request k1 k2 (or_intror Hempty))
        as (_ & ? & ? & Hv). congruence.
    + split; [done|].
      rewrite (chat_endpoint_authorized env w request k1 k2 Hkey Hne) in Hr.
      repeat match type of Hr with
             | context [if ?b then _ else _] => destruct b
             end; cbn in Hr; congruence.
    + destruct (chat_endpoint_rejected env w request k1 k2 (or_introl Hkey))
        as (_ & ? & ? & Hv). congruence.
Qed.

Lemma unauthenticated_requests_change_nothing_witness :
  Main.chat_endpoint (Examples.sample_env (true, 0.85%float))
    (Examples.sample_request "s1" "hello") None (Some "guess") System.initial
  = (Main.HTTPException 403 "Invalid API Key", System.initial).
Proof.
  apply (proj1 (proj2 (unauthenticated_requests_change_nothing
                         (Examples.sample_env (true, 0.85%float)) System.initial
                         (Examples.sample_request "s1" "hello") None (Some "guess")))
           "guess"); [reflexivity|discriminate|discriminate].
Defined.

(** X13. Every request with a valid key appends exactly its own message to
    the log of its session, stored or new, whichever branch answers it; the
    session keeps its identifier and creation time, and no other session is
    touched. *)
Theorem request_appends_its_message (env : Env) (w : World)
    (request : Main.IncomingRequest) (k1 k2 : option string) :
  Main.header_or k1 k2 = Some (API_KEY env) →
  API_KEY env ≠ "" →
  ∃ s', sessions (world (Main.chat_endpoint env request k1 k2 w))
        = <[Main.sessionId request := s']> (sessions w)
        ∧ messages s'
          = messages (value (get_session env (Main.sessionId request) w))
            ++ [System.received env request
                  (ticks (world (get_session env (Main.sessionId request) w)))]
        ∧ session_id s' = session_id (value (get_session env (Main.sessionId request) w))
        ∧ created_at s' = created_at (value (get_session env (Main.sessionId request) w)).
Proof.
  intros Hkey Hne.
  rewrite (chat_endpoint_authorized env w request k1 k2 Hkey Hne).
  repeat match goal with
         | |- context [if ?b then _ else _] => destruct b
         end; by eexists.
Qed.

Lemma request_appends_its_message_witness :
  ∃ s', sessions
          (world (Main.chat_endpoint (Examples.sample_env (true, 0.65%float))
                    (Examples.sample_request "s9" "hello") (Some "secret") None
                    System.initial))
        = <["s9" := s']> (sessions System.initial)
        ∧ messages s'
          = [] ++ [System.received (Examples.sample_env (true, 0.65%float))
                     (Examples.sample_request "s9" "hello") 1]
        ∧ session_id s' = "s9"
        ∧ created_at s' = Examples.stamp 0.
Proof.
  apply (request_appends_its_message (Examples.sample_env (true, 0.65%float))
           System.initial (Examples.sample_request "s9" "hello") (Some "secret") None);
    [reflexivity|discriminate].
Defined.

(** X14. When the policy answers false for a request on a detected and
    engaged session, the handler answers with [generate_response], creates
    no task, and merges what [extract_from_message] finds in the incoming
    text into the bundle: under every key the session then holds what it
    held before together with what the message gives. *)
Theorem continuing_turn_merges_extraction (env : Env) (w : World)
    (request : Main.IncomingRequest) (k1 k2 : option string) (s : Session) :
  Main.header_or k1 k2 = Some (API_KEY env) →
  API_KEY env ≠ "" →
  sessions w !! Main.sessionId request = Some s →
  scam_detected s = true →
  agent_engaged s = true →
  value (should_conclude_session env (Main.sessionId request)
           (world (add_message env (Main.sessionId request)
                     (Main.sender_value (Main.sender (Main.message request)))
                     (Main.text (Main.message request))
                     (Main.timestamp (Main.message request)) w))) = false →
  value (Main.chat_endpoint env request k1 k2 w)
  = Main.APIResponse "success"
      (generate_response env (S (ticks w)) (Main.sessionId request)
         (messages s ++ [System.received env request (ticks w)])
         (Main.metadata request))
  ∧ tasks (world (Main.chat_endpoint env request k1 k2 w)) = tasks w
  ∧ ∃ s', sessions (world (Main.chat_endpoint env request k1 k2 w))
          = <[Main.sessionId request := s']> (sessions w)
          ∧ should_conclude s' = false
          ∧ ∀ f, f ∈ Bundle.fields →
              Bundle.entries f (extracted_intelligence s')
              = Bundle.entries f (extracted_intelligence s)
                ∪ Bundle.entries f
                    (extract_from_message (Main.text (Main.message request))).
Proof.
  intros Hkey Hne Hs Hdet Heng Hv.
  rewrite (add_message_Some env w _ s _ _ _ Hs) in Hv. cbn [world snd] in Hv.
  rewrite (chat_endpoint_authorized env w request k1 k2 Hkey Hne).
  rewrite (get_session_Some env w _ s Hs). cbn [value world fst snd].
  rewrite Hdet, Heng. cbn [andb].
  unfold System.received. rewrite Hv. cbn [value world fst snd tasks sessions].
  split_and!; [done|done|]. eexists. split_and!; [done| |].
  - cbn. erewrite should_conclude_session_value in Hv
      by (cbn [sessions]; apply lookup_insert_eq).
    cbn in Hv. by destruct (should_conclude s).
  - intros f Hf. cbn. by apply entries_merge_intelligence.
Qed.

Lemma continuing_turn_merges_extraction_witness :
  value (Main.chat_endpoint (Examples.sample_env (true, 0.85%float))
           (Examples.sample_request "s1" "pay to 9876543210@paytm")
           (Some "secret") None
           (Examples.world_with
              (Examples.engaged_session 30 2 30 Examples.empty_intelligence false)))
  = Main.APIResponse "success" "Which branch are you calling from?".
Proof.
  apply (continuing_turn_merges_extraction
           (Examples.sample_env (true, 0.85%float))
           (Examples.world_with
              (Examples.engaged_session 30 2 30 Examples.empty_intelligence false))
           (Examples.sample_request "s1" "pay to 9876543210@paytm")
           (Some "secret") None
           (Examples.engaged_session 30 2 30 Examples.empty_intelligence false));
    [reflexivity|discriminate|reflexivity|reflexivity|reflexivity|by vm_compute].
Defined.

(** X15. The handler does not look at [callback_sent]: every further
    request with a valid key for an engaged session that is concluded is
    answered by the concluding branch and creates one more callback task,
    so that a run of such requests creates as many tasks as it has
    requests, while the bundle stays as it is. *)
Theorem every_later_request_creates_a_task (env : Env) (cs : list System.call)
    (w : World) (sid : string) (i : Intelligence) :
  API_KEY env ≠ "" →
  System.closed_with sid i w →
  Forall (λ c, ∃ request k1 k2,
            c = System.ChatEndpoint request k1 k2
            ∧ Main.sessionId request = sid
            ∧ Main.header_or k1 k2 = Some (API_KEY env)) cs →
  tasks (System.run env cs w) = tasks w ++ replicate (length cs) sid
  ∧ System.closed_with sid i (System.run env cs w).
Proof.
  intros Hne Hw Hcs. revert w Hw.
  induction Hcs as [|c cs (request & k1 & k2 & -> & <- & Hkey) _ IH]; intros w Hw.
  - simpl. by rewrite app_nil_r.
  - destruct Hw as (s & Hs & Hdet & Heng & Hflag & Hi).
    assert (value (should_conclude_session env (Main.sessionId request)
                     (world (add_message env (Main.sessionId request)
                               (Main.sender_value (Main.sender (Main.message request)))
                               (Main.text (Main.message request))
                               (Main.timestamp (Main.message request)) w))) = true)
      as Hv.
    { rewrite (add_message_Some env w _ s _ _ _ Hs). cbn [world snd].
      erewrite should_conclude_session_value
        by (cbn [sessions]; apply lookup_insert_eq).
      cbn. by rewrite Hflag. }
    pose proof (chat_endpoint_concluding env w request k1 k2 s Hkey Hne Hs Hdet Heng Hv)
      as Hturn.
    simpl. rewrite Hturn. cbn [world snd].
    destruct (IH {| sessions :=
                      <[Main.sessionId request :=
                          set_should_conclude
                            (set_messages
                               (messages s ++ [System.received env request (ticks w)]) s)]>
                        (sessions w);
                    ticks := S (ticks w);
                    tasks := tasks w ++ [Main.sessionId request] |}) as [Htasks Hclosed].
    { eexists. split; [apply lookup_insert_eq|]. by cbn. }
    split; [|done]. rewrite Htasks. cbn [tasks]. by rewrite <- app_assoc.
Qed.

Lemma every_later_request_creates_a_task_witness :
  tasks
    (System.run (Examples.sample_env (true, 0.85%float))
       [System.ChatEndpoint (Examples.sample_request "s1" "hello?") (Some "secret") None;
        System.ChatEndpoint (Examples.sample_request "s1" "are you there") None
          (Some "secret")]
       (Examples.world_with
          (Examples.engaged_session 1 15 8 Examples.empty_intelligence true)))
  = [] ++ replicate 2 "s1".
Proof.
  apply (every_later_request_creates_a_task (Examples.sample_env (true, 0.85%float))
           [System.ChatEndpoint (Examples.sample_request "s1" "hello?")
              (Some "secret") None;
            System.ChatEndpoint (Examples.sample_request "s1" "are you there") None
              (Some "secret")]
           (Examples.world_with
              (Examples.engaged_session 1 15 8 Examples.empty_intelligence true))
           "s1" Examples.empty_intelligence).
  - discriminate.
  - eexists. split; [reflexivity|]. by cbn.
  - repeat constructor; eexists _, _, _; split_and!; reflexivity.
Defined.

(** ** What the handler keeps true of every session *)

Section Handled.
Context (env : Env).






End Handled.



(** ** The callback task, and the monitoring endpoint *)



(** X18. The monitoring endpoint never answers that a session is missing:
    with a valid key it returns the session the store gives, and a session
    identifier that was unknown is stored from then on as a new session, so
    the store has one session more.  Without a valid key the answer is an
    error and the state is left as it was. *)
Theorem monitoring_creates_unknown_sessions (env : Env) (w : World) (sid : string)
    (k1 k2 : option string) :
  (Main.header_or k1 k2 = Some (API_KEY env) → API_KEY env ≠ "" →
   value (Endpoints.get_session env sid k1 k2 w)
   = Endpoints.SessionFound (value (get_session env sid w))
   ∧ sessions (world (Endpoints.get_session env sid k1 k2 w)) !! sid
     = Some (value (get_session env sid w))
   ∧ (sessions w !! sid = None →
      value (get_session env sid w) = new_session sid (clock env (ticks w))
      ∧ size (sessions (world (Endpoints.get_session env sid k1 k2 w)))
        = S (size (sessions w))))
  ∧ (Main.header_or k1 k2 ≠ Some (API_KEY env) ∨ API_KEY env = "" →
     world (Endpoints.get_session env sid k1 k2 w) = w
     ∧ ∃ status_code detail,
         value (Endpoints.get_session env sid k1 k2 w)
         = Endpoints.SessionError status_code detail).
Proof.
  split.
  - intros Hkey Hne. unfold Endpoints.get_session. rewrite Hkey.
    destruct (String.eqb_spec (API_KEY env) ""); [done|].
    rewrite String.eqb_refl. cbn [negb]. rewrite bind_run. cbn [ret value world fst snd].
    split_and!; [done|apply get_session_lookup|].
    intros Hs. unfold get_session. rewrite Hs. simpl. split; [done|].
    by apply map_size_insert_None.
  - intros Hbad. unfold Endpoints.get_session.
    destruct (Main.header_or k1 k2) as [key|]; [|split; [done|eauto]].
    destruct (String.eqb_spec key "") as [->|Hne]; [split; [done|eauto]|].
    destruct (String.eqb_spec key (API_KEY env)) as [->|Hkey]; [|split; [done|eauto]].
    by destruct Hbad.
Qed.

Lemma monitoring_creates_unknown_sessions_witness :
  size (sessions
          (world (Endpoints.get_session (Examples.sample_env (true, 0.85%float))
                    "never-seen" (Some "secret") None System.initial)))
  = S (size (sessions System.initial)).
Proof.
  apply (proj1 (monitoring_creates_unknown_sessions
                  (Examples.sample_env (true, 0.85%float)) System.initial
                  "never-seen" (Some "secret") None));
    [reflexivity|discriminate|reflexivity].
Defined.

(** ** Deleting and fetching sessions *)

(** X19. [delete_session] answers whether the session was stored, removes
    it and only it, and answers false when asked again.  A later reference
    to the identifier starts a new session: [should_conclude_session] then
    answers false, also for a session that was concluded. *)
Theorem delete_session_forgets (env : Env) (w : World) (sid : string) :
  (value (delete_session sid w) = true ↔ is_Some (sessions w !! sid))
  ∧ sessions (world (delete_session sid w)) = delete sid (sessions w)
  ∧ value (delete_session sid (world (delete_session sid w))) = false
  ∧ value (should_conclude_session env sid (world (delete_session sid w))) = false.
Proof.
  assert (sessions (world (delete_session sid w)) = delete sid (sessions w)) as Hdel.
  { unfold delete_session. destruct (sessions w !! sid) eqn:Hs; [done|].
    simpl. by rewrite delete_id. }
  assert (sessions (world (delete_session sid w)) !! sid = None) as Hgone
    by (rewrite Hdel; apply lookup_delete_eq).
  split_and!; [|done| |].
  - unfold delete_session. destruct (sessions w !! sid); simpl.
    + split; [eauto|done].
    + split; [done|]. by intros [? ?].
  - unfold delete_session at 1. by rewrite Hgone.
  - by rewrite (should_conclude_session_None env _ sid Hgone).
Qed.

(** X20. [get_session] is idempotent: a second call returns the session
    the first call returned and changes nothing, so a session is created
    once; and no call to it touches another session. *)
Theorem get_session_is_idempotent (env : Env) (w : World) (sid : string) :
  get_session env sid (world (get_session env sid w))
  = (value (get_session env sid w), world (get_session env sid w))
  ∧ ∀ sid', sid' ≠ sid →
      sessions (world (get_session env sid w)) !! sid' = sessions w !! sid'.
Proof.
  split.
  - apply get_session_Some, get_session_lookup.
  - intros sid' Hne. rewrite get_session_sessions. by apply lookup_insert_ne.
Qed.

(** ** The classifier: what of the conversation it is shown *)

Lemma foldl_fmap_ext {A B C} (g : A → B) (f : C → A → C) (f' : C → B → C)
    (c : C) (l : list A) :
  (∀ c a, f c a = f' c (g a)) → foldl f c l = foldl f' c (g <$> l).
Proof.
  intros Hf. revert c. induction l as [|a l IH]; intros c; [done|].
  simpl. by rewrite Hf, IH.
Qed.

Lemma last_entries_nil {A} (n : nat) (l : list A) :
  0 < n → ScamDetector.last_entries n l = [] → l = [].
Proof.
  unfold ScamDetector.last_entries. intros Hn Hl.
  apply (f_equal length) in Hl. rewrite length_skipn in Hl.
  destruct l; [done|]. simpl in Hl. lia.
Qed.

Lemma last_entries_app {A} (older recent : list A) :
  ScamDetector.last_entries (length recent) (older ++ recent) = recent.
Proof.
  unfold ScamDetector.last_entries. rewrite List.length_app.
  replace (length older + length recent - length recent) with (length older) by lia.
  induction older as [|a older IH]; [done|]. exact IH.
Qed.

(** X21. The classifier is shown the request's metadata, the current
    message and, of the history sent with the request, only the entries
    [sender] and [text] of its last five elements: two histories that agree
    there give the same context, and so the same verdict from the same
    answer of the model. *)
Theorem classifier_reads_last_five completion json_loads (t : nat) (message : string)
    (h1 h2 : list (gmap string string)) (metadata : Metadata) :
  (λ msg : gmap string string, (msg !! "sender", msg !! "text"))
    <$> ScamDetector.last_entries 5 h1
  = (λ msg : gmap string string, (msg !! "sender", msg !! "text"))
      <$> ScamDetector.last_entries 5 h2 →
  ScamDetector._build_context message h1 metadata
  = ScamDetector._build_context message h2 metadata
  ∧ ScamDetector.detect_scam completion json_loads t message h1 metadata
    = ScamDetector.detect_scam completion json_loads t message h2 metadata.
Proof.
  intros Hlast.
  assert (ScamDetector._build_context message h1 metadata
          = ScamDetector._build_context message h2 metadata) as Hctx.
  { unfold ScamDetector._build_context.
    destruct h1 as [|e1 h1], h2 as [|e2 h2]; [done| | |].
    - symmetry in Hlast. apply fmap_nil_inv, last_entries_nil in Hlast; [done|lia].
    - apply fmap_nil_inv, last_entries_nil in Hlast; [done|lia].
    - cbv zeta.
      rewrite (foldl_fmap_ext
                 (λ msg : gmap string string, (msg !! "sender", msg !! "text"))
                 _ (λ context p, context +:+ default "unknown" p.1 +:+ ": "
                                 +:+ default "" p.2 +:+ ScamDetector.newline)
                 _ (ScamDetector.last_entries 5 (e1 :: h1))) by done.
      rewrite (foldl_fmap_ext
                 (λ msg : gmap string string, (msg !! "sender", msg !! "text"))
                 _ (λ context p, context +:+ default "unknown" p.1 +:+ ": "
                                 +:+ default "" p.2 +:+ ScamDetector.newline)
                 _ (ScamDetector.last_entries 5 (e2 :: h2))) by done.
      by rewrite Hlast. }
  split; [done|]. unfold ScamDetector.detect_scam. by rewrite Hctx.
Qed.

Lemma classifier_reads_last_five_witness :
  ScamDetector._build_context "pay now"
    ([{["sender" := "scammer"; "text" := "one"]}; {["text" := "two"]};
      {["sender" := "user"; "text" := "three"]}; ∅; {["sender" := "scammer"]};
      {["sender" := "scammer"; "text" := "six"; "timestamp" := "6"]}])
    Examples.sample_metadata
  = ScamDetector._build_context "pay now"
      ([{["text" := "two"]}; {["sender" := "user"; "text" := "three"]}; ∅;
        {["sender" := "scammer"]}; {["sender" := "scammer"; "text" := "six"]}])
      Examples.sample_metadata.
Proof.
  refine (proj1 (classifier_reads_last_five (λ _ _, None) (λ _, None) 0 "pay now"
                  [{["sender" := "scammer"; "text" := "one"]}; {["text" := "two"]};
                   {["sender" := "user"; "text" := "three"]}; ∅;
                   {["sender" := "scammer"]};
                   {["sender" := "scammer"; "text" := "six"; "timestamp" := "6"]}]
                  [{["text" := "two"]}; {["sender" := "user"; "text" := "three"]}; ∅;
                   {["sender" := "scammer"]}; {["sender" := "scammer"; "text" := "six"]}]
                  Examples.sample_metadata _)).
  vm_compute. reflexivity.
Defined.

(** ** The classifier: how the model's answer is read *)

Lemma find_None_contains (c : ascii) (s : string) :
  ScamDetector.find c s = None ↔ contains (String c "") s = false.
Proof.
  induction s as [|a s IH]; [done|].
  cbn -[Ascii.eqb]. rewrite (Ascii.eqb_sym c a).
  destruct (Ascii.eqb a c); [done|].
  rewrite <- IH. destruct (ScamDetector.find c s); [|done]. by split.
Qed.

Lemma find_app (c : ascii) (a b : string) :
  ScamDetector.find c (a +:+ b) = None
  ↔ ScamDetector.find c a = None ∧ ScamDetector.find c b = None.
Proof.
  induction a as [|x a IH].
  - rewrite app_empty. split; [done|by intros [_ ?]].
  - rewrite app_String. cbn -[Ascii.eqb]. destruct (Ascii.eqb x c).
    + split; [done|by intros [? _]].
    + by rewrite !fmap_None.
Qed.

Lemma find_String (c a : ascii) (s : string) :
  ScamDetector.find c (String a s) = None
  ↔ Ascii.eqb a c = false ∧ ScamDetector.find c s = None.
Proof.
  cbn -[Ascii.eqb]. destruct (Ascii.eqb a c).
  - split; [done|by intros [? _]].
  - rewrite fmap_None. split; [done|by intros [_ ?]].
Qed.

Lemma split_from_avoids (c : ascii) (sep : string) (skip : nat) (piece s x : string) :
  ScamDetector.find c piece = None → ScamDetector.find c s = None →
  x ∈ ScamDetector.split_from sep skip piece s → ScamDetector.find c x = None.
Proof.
  revert skip piece. induction s as [|a s IH]; intros skip piece Hpiece Hs.
  - simpl. by intros ->%list_elem_of_singleton.
  - apply find_String in Hs as [Ha Hs]. cbn -[strip_prefix]. destruct skip as [|skip].
    + destruct (strip_prefix sep (String a s)).
      * intros [->|Hx]%elem_of_cons; [done|]. exact (IH _ "" eq_refl Hs Hx).
      * apply IH; [|done]. apply find_app. split; [done|]. by apply find_String.
    + by apply IH.
Qed.

Lemma nth_avoids (c : ascii) (i : nat) (l : list string) :
  (∀ x, x ∈ l → ScamDetector.find c x = None) →
  ScamDetector.find c (nth i l "") = None.
Proof.
  intros Hl. destruct (nth_in_or_default i l "") as [Hin| ->]; [|done].
  by apply Hl, list_elem_of_In.
Qed.

Lemma lstrip_avoids (c : ascii) (s : string) :
  ScamDetector.find c s = None → ScamDetector.find c (ScamDetector.lstrip s) = None.
Proof.
  induction s as [|a s IH]; [done|]. intros Hs. simpl.
  destruct (is_space a); [|done]. by apply IH, (find_String c a s).
Qed.

Lemma rstrip_avoids (c : ascii) (s : string) :
  ScamDetector.find c s = None → ScamDetector.find c (ScamDetector.rstrip s) = None.
Proof.
  induction s as [|a s IH]; [done|]. intros [Ha Hs]%find_String. simpl.
  specialize (IH Hs). destruct (ScamDetector.rstrip s).
  - destruct (is_space a); [done|]. by apply find_String.
  - by apply find_String.
Qed.

Lemma strip_avoids (c : ascii) (s : string) :
  ScamDetector.find c s = None → ScamDetector.find c (ScamDetector.strip s) = None.
Proof. intros. by apply rstrip_avoids, lstrip_avoids. Qed.

Lemma fenced_avoids (c : ascii) (sep content : string) :
  ScamDetector.find c content = None →
  ScamDetector.find c
    (ScamDetector.strip
       (nth 0 (ScamDetector.split "```"
                 (nth 1 (ScamDetector.split sep content) "")) "")) = None.
Proof.
  intros Hc. apply strip_avoids, nth_avoids. intros x.
  apply split_from_avoids; [done|]. apply nth_avoids. intros y.
  by apply split_from_avoids.
Qed.

Lemma json_candidate_without_brace (content : string) :
  ScamDetector.find "{" content = None → ScamDetector.json_candidate content = None.
Proof.
  intros Hc. unfold ScamDetector.json_candidate. cbv zeta.
  match goal with
  | |- context [ScamDetector.find "{" ?x] =>
      assert (ScamDetector.find "{" x = None) as Hx; [|rewrite Hx]
  end.
  { destruct (contains "```json" content); [by apply fenced_avoids|].
    destruct (contains "```" content); [by apply fenced_avoids|done]. }
  match goal with
  | |- context [ScamDetector.strip ?x] =>
      pose proof (strip_avoids "{" x Hx) as Hs; destruct (ScamDetector.strip x)
  end; [done|].
  apply find_String in Hs as [Ha _]. cbn -[Ascii.eqb].
  by rewrite Ascii.eqb_sym, Ha.
Qed.

(** X22. The classifier answers "no scam, confidence 0" whenever the
    model cannot be reached, its answer has no opening brace, or the text
    taken from the answer is not the JSON of an object. *)
Theorem unreadable_answer_is_no_scam completion json_loads (t : nat) (message : string)
    (history : list (gmap string string)) (metadata : Metadata) :
  let context := ScamDetector._build_context message history metadata in
  completion t context = None
  ∨ (∃ content, completion t context = Some content
                ∧ contains "{" content = false)
  ∨ (∃ content text, completion t context = Some content
                     ∧ ScamDetector.json_candidate content = Some text
                     ∧ (json_loads text = None
                        ∨ json_loads text = Some ScamDetector.JsonOther)) →
  ScamDetector.detect_scam completion json_loads t message history metadata
  = (false, 0%float).
Proof.
  intros context Hcases. unfold ScamDetector.detect_scam, ScamDetector._call_llm.
  fold context.
  destruct Hcases as [->|[(content & -> & Hc)|(content & text & -> & -> & [->| ->])]];
    try done.
  by rewrite json_candidate_without_brace by by apply find_None_contains.
Qed.

Lemma unreadable_answer_is_no_scam_witness :
  ScamDetector.detect_scam (λ _ _, Some "I think this is a scam, confidence 0.9")
    (λ _, Some (ScamDetector.JsonObject (Some true) (Some 0.9%float)))
    0 "pay now" [] Examples.sample_metadata
  = (false, 0%float).
Proof.
  apply (unreadable_answer_is_no_scam
           (λ _ _, Some "I think this is a scam, confidence 0.9")
           (λ _, Some (ScamDetector.JsonObject (Some true) (Some 0.9%float)))
           0 "pay now" [] Examples.sample_metadata).
  right. left. eexists. split; reflexivity.
Defined.

Lemma contains_longer (p q s : string) :
  contains (p +:+ q) s = true → contains p s = true.
Proof.
  intros (pre & post & ->)%contains_inv. rewrite app_assoc_text.
  apply contains_within.
Qed.

Lemma lstrip_brace (s : string) :
  ScamDetector.strip (String "{" s) = String "{" (ScamDetector.rstrip s)
  ∨ ScamDetector.strip (String "{" s) = "{".
Proof.
  unfold ScamDetector.strip.
  change (ScamDetector.lstrip (String "{" s)) with (String "{" s).
  cbn [ScamDetector.rstrip].
  destruct (ScamDetector.rstrip s); [right|left]; reflexivity.
Qed.

Lemma find_first (c : ascii) (pre s : string) :
  ScamDetector.find c pre = None →
  ScamDetector.find c (pre +:+ String c s) = Some (String.length pre).
Proof.
  induction pre as [|a pre IH]; intros Hpre.
  - rewrite app_empty. cbn -[Ascii.eqb]. by rewrite Ascii.eqb_refl.
  - apply find_String in Hpre as [Ha Hpre]. rewrite app_String.
    cbn -[Ascii.eqb]. by rewrite Ha, IH.
Qed.

Lemma depth_take_S (c : ascii) (s : string) (n : nat) :
  ScamDetector.depth (take (S n) (String c s))
  = ((if Ascii.eqb c "{" then 1 else if Ascii.eqb c "}" then -1 else 0)
     + ScamDetector.depth (take n s))%Z.
Proof. done. Qed.

(** The loop stops at the last character of the shortest balanced segment. *)
Lemma object_end_balanced (s post : string) (d : Z) (i : nat) :
  (0 < d)%Z →
  (∀ n, n < String.length s → (0 < d + ScamDetector.depth (take n s))%Z) →
  (d + ScamDetector.depth s = 0)%Z →
  ScamDetector.object_end d i (s +:+ post) = Some (i + String.length s - 1).
Proof.
  revert d i. induction s as [|c s IH]; intros d i Hd Hprefix Hall.
  - simpl in Hall. lia.
  - rewrite app_String. cbn -[Ascii.eqb Z.add Z.sub Z.eqb].
    cbn -[Ascii.eqb Z.add] in Hall.
    assert (∀ n, n < String.length s →
              (0 < d + ((if Ascii.eqb c "{" then 1
                         else if Ascii.eqb c "}" then -1 else 0)
                        + ScamDetector.depth (take n s)))%Z) as Hrest.
    { intros n Hn. rewrite <- depth_take_S. apply Hprefix. simpl. lia. }
    destruct (Ascii.eqb c "{").
    + rewrite IH; [f_equal; simpl; lia|lia| |lia].
      intros n Hn. specialize (Hrest n Hn). lia.
    + destruct (Ascii.eqb c "}").
      * destruct (Z.eqb_spec (d - 1) 0) as [Hz|Hz].
        -- destruct s as [|c' s]; [f_equal; simpl; lia|].
           specialize (Hrest 0). simpl in Hrest. lia.
        -- destruct s as [|c' s]; [simpl in Hall; lia|].
           pose proof (Hrest 0) as H0. simpl in H0.
           rewrite IH; [f_equal; simpl; lia|lia| |lia].
           intros n Hn. specialize (Hrest n Hn). lia.
      * rewrite IH; [f_equal; simpl; lia|lia| |lia].
        intros n Hn. specialize (Hrest n Hn). lia.
Qed.

(** X23. When the model's answer has no code fence, the text handed to
    [json.loads] is the shortest segment that starts at the first opening
    brace and in which the braces balance; what stands before and after it
    is dropped.  Braces are counted wherever they stand, also inside JSON
    strings. *)
Theorem first_balanced_object_is_parsed (pre obj post : string) :
  contains "```" (pre +:+ obj +:+ post) = false →
  contains "{" pre = false →
  first_char obj = Some "{"%char →
  ScamDetector.depth obj = 0%Z →
  (∀ n, 0 < n < String.length obj → (0 < ScamDetector.depth (take n obj))%Z) →
  ScamDetector.json_candidate (pre +:+ obj +:+ post) = Some obj.
Proof.
  intros Hfence Hpre Hfirst Hdepth Hprefix.
  destruct obj as [|c obj]; [done|]. injection Hfirst as ->.
  apply find_None_contains in Hpre.
  unfold ScamDetector.json_candidate. cbv zeta.
  assert (contains "```json" (pre +:+ String "{" obj +:+ post) = false) as Hjson.
  { destruct (contains "```json" _) eqn:H; [|done].
    apply (contains_longer "```" "json") in H. congruence. }
  rewrite Hjson, Hfence, app_String, (find_first "{" pre _ Hpre).
  rewrite drop_app_exact. cbn -[Z.add].
  assert (ScamDetector.object_end (0 + 1) (S (String.length pre)) (obj +:+ post)
          = Some (S (String.length pre) + String.length obj - 1)) as ->.
  { apply object_end_balanced; [lia| |].
    - intros n Hn. specialize (Hprefix (S n)). rewrite depth_take_S in Hprefix.
      simpl in Hprefix. apply Hprefix. lia.
    - cbn -[Z.add] in Hdepth. lia. }
  assert (obj ≠ "") as Hobj by (intros ->; simpl in Hdepth; lia).
  unfold ScamDetector.slice. rewrite drop_app_exact.
  replace (S (String.length pre) + String.length obj - 1 + 1 - String.length pre)
    with (String.length (String "{" obj)) by (simpl; destruct obj; simpl; [done|lia]).
  rewrite <- app_String, take_app_exact.
  by destruct (lstrip_brace obj) as [H|H]; unfold ScamDetector.strip in H; rewrite H.
Qed.

Lemma first_balanced_object_is_parsed_witness :
  ScamDetector.json_candidate
    ("Here is my analysis: " +:+ "{is_scam: true, why: {a: }}" +:+ " and so } on")
  = Some "{is_scam: true, why: {a: }}".
Proof.
  apply (first_balanced_object_is_parsed "Here is my analysis: "
           "{is_scam: true, why: {a: }}" " and so } on");
    [reflexivity|reflexivity|reflexivity|reflexivity|].
  intros n Hn. simpl in Hn.
  do 27 (destruct n as [|n]; [first [lia|reflexivity]|]). lia.
Defined.

(** *** Code fences *)

Lemma split_from_skip (sep u piece rest : string) :
  ScamDetector.split_from sep (String.length u) piece (u +:+ rest)
  = ScamDetector.split_from sep 0 piece rest.
Proof.
  induction u as [|c u IH]; [by rewrite app_empty|]. by rewrite app_String.
Qed.

Lemma split_from_separator (c : ascii) (sep piece rest : string) :
  ScamDetector.split_from (String c sep) 0 piece (String c sep +:+ rest)
  = piece :: ScamDetector.split_from (String c sep) 0 "" rest.
Proof.
  pose proof (strip_prefix_app (String c sep) rest) as Hp.
  rewrite app_String in *. cbn [ScamDetector.split_from]. rewrite Hp.
  replace (String.length (String c sep) - 1) with (String.length sep)
    by (simpl; lia).
  by rewrite split_from_skip.
Qed.

Lemma split_from_before (c : ascii) (sep piece a rest : string) :
  ScamDetector.find c a = None →
  ScamDetector.split_from (String c sep) 0 piece (a +:+ rest)
  = ScamDetector.split_from (String c sep) 0 (piece +:+ a) rest.
Proof.
  revert piece. induction a as [|x a IH]; intros piece Ha.
  - by rewrite app_empty, app_empty_r.
  - apply find_String in Ha as [Hx Ha]. rewrite app_String.
    cbn -[Ascii.eqb]. rewrite Ascii.eqb_sym, Hx, (IH _ Ha).
    by rewrite app_assoc_text.
Qed.

Lemma split_from_head (sep : string) (skip : nat) (piece s : string) :
  ∃ more, nth 0 (ScamDetector.split_from sep skip piece s) "" = piece +:+ more.
Proof.
  revert skip piece. induction s as [|c s IH]; intros skip piece.
  - exists "". simpl. by rewrite app_empty_r.
  - cbn -[strip_prefix]. destruct skip as [|skip]; [|apply IH].
    destruct (strip_prefix sep (String c s)).
    + exists "". simpl. by rewrite app_empty_r.
    + destruct (IH 0 (piece +:+ String c "")) as [more ->].
      exists (String c more). by rewrite app_assoc_text.
Qed.

Lemma avoids_longer (c : ascii) (q s : string) :
  ScamDetector.find c s = None → contains (String c q) s = false.
Proof.
  intros Hs. destruct (contains (String c q) s) eqn:H; [|done].
  apply (contains_longer (String c "") q), not_false_iff_true in H.
  by apply find_None_contains in Hs.
Qed.

(** The text up to the first fence, when the text before the fence has no
    backtick. *)
Lemma split_fence_head (body rest : string) :
  ScamDetector.find "`" body = None →
  rest = "" ∨ (∃ more, rest = "```" +:+ more) →
  nth 0 (ScamDetector.split "```" (body +:+ rest)) "" = body.
Proof.
  intros Hbody Hrest. unfold ScamDetector.split.
  rewrite (split_from_before "`" "``" "" body rest Hbody), app_empty.
  destruct Hrest as [->|[more ->]]; [done|].
  by rewrite (split_from_separator "`" "``").
Qed.

Lemma json_fence_body (pre body post : string) :
  ScamDetector.find "`" pre = None →
  ScamDetector.find "`" body = None →
  first_char post ≠ Some "`"%char →
  nth 0 (ScamDetector.split "```"
           (nth 1 (ScamDetector.split "```json"
                     (pre +:+ "```json" +:+ body +:+ "```" +:+ post)) "")) ""
  = body.
Proof.
  intros Hpre Hbody Hpost. unfold ScamDetector.split at 2.
  rewrite (split_from_before "`" "``json" "" pre _ Hpre), app_empty.
  rewrite (split_from_separator "`" "``json"). cbn [nth].
  rewrite (split_from_before "`" "``json" "" body _ Hbody), app_empty.
  assert (∃ rest, nth 0 (ScamDetector.split_from "```json" 0 body ("```" +:+ post)) ""
                  = body +:+ rest
                  ∧ (rest = "" ∨ ∃ more, rest = "```" +:+ more)) as (rest & -> & Hrest).
  { rewrite !app_String, app_empty.
    cbn -[strip_prefix]. destruct (strip_prefix "```json" _).
    { exists "". split; [by rewrite app_empty_r|by left]. }
    cbn -[strip_prefix]. destruct (strip_prefix "```json" (String "`" (String "`" post))) eqn:H1.
    { destruct post as [|c post]; [done|]. cbn -[Ascii.eqb] in H1.
      destruct (Ascii.eqb_spec "`" c) as [<-|]; [by destruct Hpost|done]. }
    cbn -[strip_prefix]. destruct (strip_prefix "```json" (String "`" post)) eqn:H2.
    { destruct post as [|c post]; [done|]. cbn -[Ascii.eqb] in H2.
      destruct (Ascii.eqb_spec "`" c) as [<-|]; [by destruct Hpost|done]. }
    match goal with
    | |- context [ScamDetector.split_from _ 0 ?piece post] =>
        destruct (split_from_head "```json" 0 piece post) as [more Hmore]
    end.
    exists ("```" +:+ more). split; [|right; by exists more].
    rewrite Hmore. by rewrite !app_assoc_text. }
  by apply split_fence_head.
Qed.

Lemma plain_fence_body (pre body post : string) :
  ScamDetector.find "`" pre = None →
  ScamDetector.find "`" body = None →
  nth 0 (ScamDetector.split "```"
           (nth 1 (ScamDetector.split "```"
                     (pre +:+ "```" +:+ body +:+ "```" +:+ post)) "")) ""
  = body.
Proof.
  intros Hpre Hbody. unfold ScamDetector.split at 2.
  rewrite (split_from_before "`" "``" "" pre _ Hpre), app_empty.
  rewrite (split_from_separator "`" "``"). cbn [nth].
  rewrite (split_from_before "`" "``" "" body _ Hbody), app_empty.
  rewrite (split_from_separator "`" "``"). cbn [nth].
  rewrite <- (app_empty_r body) at 1. apply split_fence_head; [done|by left].
Qed.

Lemma json_candidate_unfenced (body : string) :
  ScamDetector.find "`" body = None →
  ScamDetector.json_candidate (ScamDetector.strip body)
  = match
      match ScamDetector.find "{" (ScamDetector.strip body) with
      | Some json_start =>
          match ScamDetector.object_end 0 json_start
                  (drop json_start (ScamDetector.strip body)) with
          | Some i => ScamDetector.slice json_start (i + 1) (ScamDetector.strip body)
          | None => ScamDetector.strip body
          end
      | None => ScamDetector.strip body
      end
    with
    | content =>
        match strip_prefix "{" (ScamDetector.strip content) with
        | None => None
        | Some _ => Some content
        end
    end.
Proof.
  intros Hbody%(strip_avoids "`"). unfold ScamDetector.json_candidate.
  by rewrite (avoids_longer "`" "``json" _ Hbody), (avoids_longer "`" "``" _ Hbody).
Qed.

(** X24. An answer in a code fence is read as the text inside the fence
    with the white space around it removed: for a fence opened by
    [```json], and for one opened by [```] in an answer in which [```json]
    does not occur.  This holds when no backtick stands before the fence or
    inside it and, for [```json], none follows the closing fence directly. *)
Theorem fenced_answer_is_unwrapped (pre body post : string) :
  contains "`" pre = false →
  contains "`" body = false →
  (first_char post ≠ Some "`"%char →
   ScamDetector.json_candidate (pre +:+ "```json" +:+ body +:+ "```" +:+ post)
   = ScamDetector.json_candidate (ScamDetector.strip body))
  ∧ (contains "```json" (pre +:+ "```" +:+ body +:+ "```" +:+ post) = false →
     ScamDetector.json_candidate (pre +:+ "```" +:+ body +:+ "```" +:+ post)
     = ScamDetector.json_candidate (ScamDetector.strip body)).
Proof.
  intros Hpre%find_None_contains Hbody%find_None_contains. split.
  - intros Hpost. rewrite (json_candidate_unfenced body Hbody).
    unfold ScamDetector.json_candidate at 1.
    by rewrite contains_within, (json_fence_body pre body post Hpre Hbody Hpost).
  - intros Hjson. rewrite (json_candidate_unfenced body Hbody).
    unfold ScamDetector.json_candidate at 1.
    by rewrite Hjson, contains_within, (plain_fence_body pre body post Hpre Hbody).
Qed.

Lemma fenced_answer_is_unwrapped_witness :
  ScamDetector.json_candidate
    ("Sure. " +:+ "```json" +:+ " {is_scam: true} " +:+ "```" +:+ " Anything else?")
  = ScamDetector.json_candidate (ScamDetector.strip " {is_scam: true} ").
Proof.
  apply (proj1 (fenced_answer_is_unwrapped "Sure. " " {is_scam: true} "
                  " Anything else?" eq_refl eq_refl)).
  discriminate.
Defined.

(** ** The generators *)

(** X25. The replies of [generate_response] and [generate_final_response]
    are made from the sender and text of the last ten messages of the
    session only (and, for [generate_response], the channel): earlier
    messages, time stamps, the session identifier and the rest of the
    metadata are not shown to the model. *)
Theorem generators_read_last_ten completion (t : nat) (sid1 sid2 : string)
    (h1 h2 : list Message) (md1 md2 : Metadata) :
  (λ msg, (sender msg, text msg)) <$> ScamDetector.last_entries 10 h1
  = (λ msg, (sender msg, text msg)) <$> ScamDetector.last_entries 10 h2 →
  AgentEngine.generate_final_response completion t sid1 h1 md1
  = AgentEngine.generate_final_response completion t sid2 h2 md2
  ∧ (channel md1 = channel md2 →
     AgentEngine.generate_response completion t sid1 h1 md1
     = AgentEngine.generate_response completion t sid2 h2 md2).
Proof.
  intros Hlast. split.
  - unfold AgentEngine.generate_final_response. cbv zeta.
    rewrite (foldl_fmap_ext (λ msg, (sender msg, text msg)) _
               (λ context p, context +:+ p.1 +:+ ": " +:+ p.2 +:+ AgentEngine.newline)
               _ (ScamDetector.last_entries 10 h1)) by done.
    rewrite (foldl_fmap_ext (λ msg, (sender msg, text msg)) _
               (λ context p, context +:+ p.1 +:+ ": " +:+ p.2 +:+ AgentEngine.newline)
               _ (ScamDetector.last_entries 10 h2)) by done.
    by rewrite Hlast.
  - intros Hchannel. unfold AgentEngine.generate_response. cbv zeta.
    rewrite (foldl_fmap_ext (λ msg, (sender msg, text msg)) _
               (λ context p,
                  if String.eqb p.1 "scammer"
                  then context +:+ "Scammer: " +:+ p.2 +:+ AgentEngine.newline
                  else context +:+ "You (Ramesh): " +:+ p.2 +:+ AgentEngine.newline)
               _ (ScamDetector.last_entries 10 h1)) by done.
    rewrite (foldl_fmap_ext (λ msg, (sender msg, text msg)) _
               (λ context p,
                  if String.eqb p.1 "scammer"
                  then context +:+ "Scammer: " +:+ p.2 +:+ AgentEngine.newline
                  else context +:+ "You (Ramesh): " +:+ p.2 +:+ AgentEngine.newline)
               _ (ScamDetector.last_entries 10 h2)) by done.
    by rewrite Hlast, Hchannel.
Qed.

Lemma generators_read_last_ten_witness :
  AgentEngine.generate_final_response (λ _ _ context, Some context) 7 "s1"
    (Examples.scammer_message <$> seq 0 12) Examples.sample_metadata
  = AgentEngine.generate_final_response (λ _ _ context, Some context) 7 "s2"
      ((λ n, {| sender := "scammer"; text := "send the otp"; timestamp := 0;
                datetime := "" |}) <$> seq 0 10)
      {| channel := "Email"; language := "Hindi"; locale := "IN" |}.
Proof.
  refine (proj1 (generators_read_last_ten (λ _ _ context, Some context) 7 "s1" "s2"
                   (Examples.scammer_message <$> seq 0 12)
                   ((λ n, {| sender := "scammer"; text := "send the otp";
                             timestamp := 0; datetime := "" |}) <$> seq 0 10)
                   Examples.sample_metadata
                   {| channel := "Email"; language := "Hindi"; locale := "IN" |} _)).
  reflexivity.
Defined.





(** ** Sessions the classifier never flags *)

Section Dormant.
Context (env : Env).
Hypothesis never_flagged :
  ∀ t message history metadata,
    (detect_scam env t message history metadata).1
    && PrimFloat.ltb 0.7 (detect_scam env t message history metadata).2 = false.

Lemma dormant_get_session w sid :
  Evolution.all_dormant w → Evolution.dormant (value (get_session env sid w)).
Proof.
  intros [_ Hw]. unfold get_session.
  destruct (sessions w !! sid) as [s|] eqn:Hs; [by apply (Hw sid)|by cbn].
Qed.

Lemma all_dormant_insert w w' sid s' :
  Evolution.all_dormant w →
  tasks w' = tasks w →
  sessions w' = <[sid := s']> (sessions w) →
  Evolution.dormant s' →
  Evolution.all_dormant w'.
Proof.
  intros [Ht Hw] Ht' Hw' Hs'. split; [congruence|]. intros sid0 s0. rewrite Hw'.
  destruct (decide (sid = sid0)) as [->|Hne].
  - rewrite lookup_insert_eq. by intros [= <-].
  - rewrite lookup_insert_ne by done. apply Hw.
Qed.

Lemma dormant_chat_endpoint w request k1 k2 :
  Evolution.all_dormant w →
  Main.header_or k1 k2 = Some (API_KEY env) →
  API_KEY env ≠ "" →
  Main.chat_endpoint env request k1 k2 w
  = (Main.APIResponse "success"
       (generate_neutral_response env
          (S (ticks (world (get_session env (Main.sessionId request) w))))
          (Main.text (Main.message request)) (Main.metadata request)),
     {| sessions :=
          <[Main.sessionId request :=
              set_messages
                (messages (value (get_session env (Main.sessionId request) w))
                 ++ [System.received env request
                       (ticks (world (get_session env (Main.sessionId request) w)))])
                (value (get_session env (Main.sessionId request) w))]> (sessions w);
        ticks := S (ticks (world (get_session env (Main.sessionId request) w)));
        tasks := tasks w |}).
Proof.
  intros Hw Hkey Hne.
  pose proof (dormant_get_session w (Main.sessionId request) Hw) as (Hdet & _).
  rewrite (chat_endpoint_authorized env w request k1 k2 Hkey Hne).
  rewrite Hdet. cbn [andb negb]. by rewrite never_flagged.
Qed.

Lemma all_dormant_chat_endpoint w request k1 k2 :
  Evolution.all_dormant w →
  Evolution.all_dormant (world (Main.chat_endpoint env request k1 k2 w)).
Proof.
  intros Hw.
  destruct (decide (Main.header_or k1 k2 = Some (API_KEY env))) as [Hkey|Hkey];
    [destruct (decide (API_KEY env = "")) as [Hempty|Hne]|].
  - by rewrite (proj1 (chat_endpoint_rejected env w request k1 k2 (or_intror Hempty))).
  - rewrite (dormant_chat_endpoint w request k1 k2 Hw Hkey Hne).
    eapply all_dormant_insert; [exact Hw|reflexivity|reflexivity|].
    apply (dormant_get_session w (Main.sessionId request) Hw).
  - by rewrite (proj1 (chat_endpoint_rejected env w request k1 k2 (or_introl Hkey))).
Qed.

Lemma all_dormant_send_final_callback w sid :
  Evolution.all_dormant w →
  Evolution.all_dormant (world (Main.send_final_callback env sid w)).
Proof.
  intros Hw. unfold Main.send_final_callback.
  destruct (sessions w !! sid) as [s|] eqn:Hs; [|done].
  destruct (post_callback _ _ _) as [status_code|]; [|done].
  destruct (bool_decide (status_code = 200)); [|done].
  rewrite bind_run. cbn [ret world snd].
  unfold mark_callback_sent, bind. rewrite (get_session_Some env w sid s Hs).
  eapply all_dormant_insert; [exact Hw|reflexivity|simpl; reflexivity|].
  by apply (proj2 Hw sid s).
Qed.

Lemma all_dormant_run (cs : list System.call) w :
  Forall System.handler_call cs →
  Evolution.all_dormant w →
  Evolution.all_dormant (System.run env cs w).
Proof.
  intros Hcs. revert w. induction Hcs as [|c cs Hc _ IH]; intros w Hw; [done|].
  simpl. apply IH.
  destruct c; try done; simpl;
    [by apply all_dormant_chat_endpoint|by apply all_dormant_send_final_callback].
Qed.

End Dormant.

(** X27. If the classifier never answers "scam" with a confidence above
    0.7, as when its model cannot be reached, then however many requests
    and callback tasks the service runs from its start: no session is
    marked as a scam, engaged or concluded, nothing is extracted, no
    callback task is created, and every request with a valid key gets the
    neutral reply. *)
Theorem no_engagement_without_verdict (env : Env) (cs : list System.call) :
  (∀ t message history metadata,
     (detect_scam env t message history metadata).1
     && PrimFloat.ltb 0.7 (detect_scam env t message history metadata).2 = false) →
  Forall System.handler_call cs →
  tasks (System.run env cs System.initial) = []
  ∧ (∀ sid s, sessions (System.run env cs System.initial) !! sid = Some s →
              Evolution.dormant s)
  ∧ ∀ (request : Main.IncomingRequest) (k1 k2 : option string),
      Main.header_or k1 k2 = Some (API_KEY env) →
      API_KEY env ≠ "" →
      ∃ t, value (Main.chat_endpoint env request k1 k2
                    (System.run env cs System.initial))
           = Main.APIResponse "success"
               (generate_neutral_response env t (Main.text (Main.message request))
                                          (Main.metadata request)).
Proof.
  intros Hnever Hcs.
  assert (Evolution.all_dormant (System.run env cs System.initial)) as Hall.
  { apply all_dormant_run; [done|done|]. split; [done|]. intros sid s Hs.
    simpl in Hs. by rewrite lookup_empty in Hs. }
  split_and!; [apply Hall|apply Hall|].
  intros request k1 k2 Hkey Hne.
  rewrite (dormant_chat_endpoint env Hnever _ request k1 k2 Hall Hkey Hne).
  by eexists.
Qed.

Lemma no_engagement_without_verdict_witness :
  tasks (System.run Examples.offline_env
           [System.ChatEndpoint (Examples.sample_request "s1" "your account is blocked")
              (Some "secret") None;
            System.ChatEndpoint (Examples.sample_request "s1" "send the otp now")
              (Some "secret") None;
            System.SendFinalCallback "s1"]
           System.initial) = [].
Proof.
  apply (no_engagement_without_verdict Examples.offline_env
           [System.ChatEndpoint (Examples.sample_request "s1" "your account is blocked")
              (Some "secret") None;
            System.ChatEndpoint (Examples.sample_request "s1" "send the otp now")
              (Some "secret") None;
            System.SendFinalCallback "s1"]).
  - intros t message history metadata. reflexivity.
  - repeat constructor.
Defined.

(** ** Callback tasks are created for concluded sessions only *)

Lemma chat_endpoint_tasks (env : Env) (w : World) (request : Main.IncomingRequest)
    (k1 k2 : option string) :
  tasks (world (Main.chat_endpoint env request k1 k2 w)) = tasks w
  ∨ (tasks (world (Main.chat_endpoint env request k1 k2 w))
     = tasks w ++ [Main.sessionId request]
     ∧ ∃ i, System.closed_with (Main.sessionId request) i
              (world (Main.chat_endpoint env request k1 k2 w))).
Proof.
  destruct (decide (Main.header_or k1 k2 = Some (API_KEY env))) as [Hkey|Hkey];
    [destruct (decide (API_KEY env = "")) as [Hempty|Hne]|].
  - left. by rewrite (proj1 (chat_endpoint_rejected env w request k1 k2 (or_intror Hempty))).
  - rewrite (chat_endpoint_authorized env w request k1 k2 Hkey Hne).
    set (s0 := value (get_session env (Main.sessionId request) w)) in *.
    destruct (scam_detected s0) eqn:Hdet, (agent_engaged s0) eqn:Heng;
      cbn [andb negb];
      repeat match goal with
             | |- context [if ?b then _ else _] => destruct b
             end;
      try (left; reflexivity).
    right. split; [done|]. eexists _, _.
    split; [cbn [world snd sessions]; apply lookup_insert_eq|].
    by cbn.
  - left. by rewrite (proj1 (chat_endpoint_rejected env w request k1 k2 (or_introl Hkey))).
Qed.

Lemma send_final_callback_tasks (env : Env) (w : World) (sid : string) :
  tasks (world (Main.send_final_callback env sid w)) = tasks w.
Proof.
  unfold Main.send_final_callback.
  destruct (sessions w !! sid) as [s|] eqn:Hs; [|done].
  destruct (post_callback _ _ _) as [status_code|]; [|done].
  destruct (bool_decide (status_code = 200)); [|done].
  rewrite bind_run. cbn [ret world snd].
  unfold mark_callback_sent, bind. by rewrite (get_session_Some env w sid s Hs).
Qed.

Lemma tasks_closed_run (env : Env) (cs : list System.call) (w : World) :
  Forall System.handler_call cs →
  (∀ sid, sid ∈ tasks w → ∃ i, System.closed_with sid i w) →
  ∀ sid, sid ∈ tasks (System.run env cs w) →
         ∃ i, System.closed_with sid i (System.run env cs w).
Proof.
  intros Hcs. revert w. induction Hcs as [|c cs Hc _ IH]; intros w Hw; [done|].
  simpl. apply IH. intros sid Hsid.
  assert (sid ∈ tasks w → ∃ i, System.closed_with sid i (System.run_call env c w))
    as Hold.
  { intros (i & Hi)%Hw. exists i. by apply closed_with_run_call. }
  destruct c as [| | | | | | | | |request k1 k2|sid']; try done; simpl in *.
  - destruct (chat_endpoint_tasks env w request k1 k2) as [Ht|[Ht Hnew]];
      rewrite Ht in Hsid; [by apply Hold|].
    apply elem_of_app in Hsid as [Hsid| ->%list_elem_of_singleton]; [by apply Hold|done].
  - rewrite send_final_callback_tasks in Hsid. by apply Hold.
Qed.

(** X28. From its start, whatever requests and callback tasks the service
    runs, a callback task exists only for a session that is stored, marked
    as a scam, engaged and concluded; so every task finds its session and
    posts a report. *)
Theorem tasks_are_for_concluded_sessions (env : Env) (cs : list System.call)
    (sid : string) :
  Forall System.handler_call cs →
  sid ∈ tasks (System.run env cs System.initial) →
  (∃ s, sessions (System.run env cs System.initial) !! sid = Some s
        ∧ scam_detected s = true ∧ agent_engaged s = true
        ∧ should_conclude s = true)
  ∧ is_Some (value (Main.send_final_callback env sid
                      (System.run env cs System.initial))).
Proof.
  intros Hcs Hsid.
  destruct (tasks_closed_run env cs System.initial Hcs) with (sid := sid)
    as (i & s & Hs & Hdet & Heng & Hflag & _); [|done|].
  { intros sid' Hin. simpl in Hin. by apply elem_of_nil in Hin. }
  split; [by exists s|].
  unfold Main.send_final_callback. rewrite Hs.
  destruct (post_callback _ _ _) as [status_code|]; [|by eexists].
  destruct (bool_decide (status_code = 200)); [|by eexists].
  rewrite bind_run. by eexists.
Qed.

Lemma tasks_are_for_concluded_sessions_witness :
  is_Some (value (Main.send_final_callback (Examples.sample_env (true, 0.85%float)) "s1"
                    (System.run (Examples.sample_env (true, 0.85%float))
                       (replicate 16
                          (System.ChatEndpoint (Examples.sample_request "s1" "send the otp")
                             (Some "secret") None))
                       System.initial))).
Proof.
  apply (tasks_are_for_concluded_sessions (Examples.sample_env (true, 0.85%float))
           (replicate 16
              (System.ChatEndpoint (Examples.sample_request "s1" "send the otp")
                 (Some "secret") None))
           "s1").
  - repeat constructor.
  - vm_compute. apply list_elem_of_here.
Defined.

(** ** Operations on an identifier that is not stored *)


